(** * BlackRoom local server: a shallow embedding of [backend/server.py]

    The server keeps three tables (devices, rooms, messages) in SQLite, a
    process-wide registry [ROOM_CLIENTS] from room names to sets of live
    WebSocket connections, and two directories of content-addressed blobs.

    The embedding is a state-and-exception monad over one [World] record.
    Python exceptions are values of [exn]; [try]/[except]/[finally] are
    combinators; an [async def] is a function returning a [coroutine], whose
    body runs only under [await].  A ghost [log] in the world records the
    queries, commits, file accesses and broadcast calls in the order the code
    performs them, so that statements about what happens "before" or "never"
    can be stated about a run.

    A handler runs from its first statement to its last without another
    one running in between; the frames a peer sends on a connection are given
    to [ws_room] as a list. *)

From Stdlib Require Import ZArith List String Ascii Bool Lia.
From stdpp Require Import base gmap strings list sorting pretty.

Local Set Warnings "-register-all,-clear-no-such-hyp".
Local Open Scope string_scope.
Local Open Scope list_scope.
Local Open Scope Z_scope.

(** ** Python [str] operations

    A [string] is a sequence of code points below 256; the operations below
    are the Python ones on that range. *)

(** [str.isspace] on one code point: TAB..CR, FS..US, SPACE, NEL, NBSP. *)
Definition isspace (c : ascii) : bool :=
  let n := nat_of_ascii c in
  (Nat.leb 9 n && Nat.leb n 13) || (Nat.leb 28 n && Nat.leb n 32)
  || Nat.eqb n 133 || Nat.eqb n 160.

Fixpoint str_lstrip (s : string) : string :=
  match s with
  | EmptyString => EmptyString
  | String c t => if isspace c then str_lstrip t else s
  end.

Fixpoint str_rstrip (s : string) : string :=
  match s with
  | EmptyString => EmptyString
  | String c t =>
      match str_rstrip t with
      | EmptyString => if isspace c then EmptyString else String c EmptyString
      | r => String c r
      end
  end.

(** [s.strip()] *)
Definition str_strip (s : string) : string := str_rstrip (str_lstrip s).

(** [s.lower()] on one code point: A..Z and the Latin-1 capitals. *)
Definition chr_lower (c : ascii) : ascii :=
  let n := nat_of_ascii c in
  if (Nat.leb 65 n && Nat.leb n 90)
     || (Nat.leb 192 n && Nat.leb n 222 && negb (Nat.eqb n 215))
  then ascii_of_nat (n + 32) else c.

Fixpoint str_lower (s : string) : string :=
  match s with
  | EmptyString => EmptyString
  | String c t => String (chr_lower c) (str_lower t)
  end.

(** [s.startswith(p)] *)
Definition str_startswith (s p : string) : bool := String.prefix p s.

(** [needle in hay] *)
Fixpoint str_in (needle hay : string) : bool :=
  String.prefix needle hay
  || match hay with
     | EmptyString => false
     | String _ t => str_in needle t
     end.

(** Truthiness of an optional string: [None] and [""] are falsy. *)
Definition truthy (s : option string) : bool :=
  match s with
  | Some (String _ _) => true
  | _ => false
  end.

(** [a or b] on optional strings. *)
Definition py_or (a b : option string) : option string :=
  if truthy a then a else b.

(** ** JSON values, as [json.loads] returns them and [json.dumps] takes them *)

Inductive json :=
| JNull
| JBool (b : bool)
| JInt (n : Z)
| JStr (s : string)
| JArr (items : list json)
| JObj (fields : list (string * json)).

Definition opt_str (o : option string) : json :=
  match o with
  | Some s => JStr s
  | None => JNull
  end.

(** [d.get(k)] on the fields of a dict; an absent key gives [None]. *)
Fixpoint dict_get (k : string) (fields : list (string * json)) : json :=
  match fields with
  | [] => JNull
  | (k', v) :: rest => if String.eqb k k' then v else dict_get k rest
  end.

(** A dict value read as an optional string.  The stream handler is
    written for members that are strings or absent ([text_members] below);
    the code hands any other value on to the queries unconverted.  The model
    reads such a value as absent, and what is stated on the content a frame
    stores is stated for frames whose members are strings or absent. *)
Definition json_str (v : json) : option string :=
  match v with
  | JStr s => Some s
  | _ => None
  end.

(** ** What the standard library and the platform supply

    These functions are not code of the repository; every definition and
    theorem below is parametric in them.  The digest of SHA-256 is written
    as 64 hexadecimal digits; what the file relies on is that it is never the
    empty string. *)

Class Platform := {
  json_loads : string -> option json;        (* [None]: JSONDecodeError *)
  json_dumps : json -> string;
  isoformat : Z -> string;                   (* [datetime.isoformat] *)
  sha256_hexdigest : list Byte.byte -> string;
  guess_extension : string -> option string; (* [mimetypes.guess_extension] *)
  guess_type : string -> option string;      (* [mimetypes.guess_type(..)[0]] *)
  path_suffix : string -> string;            (* [Path(..).suffix] *)
  sha256_hexdigest_nonempty : forall b, sha256_hexdigest b <> ""
}.

(** ** The three tables *)

Module Device.
Record t := mk {
  id : Z;
  device_fingerprint : option string;
  label : option string;
  user_agent : option string;
  ip_first : option string;
  ip_last : option string;
  first_seen : Z;
  last_seen : Z;
  active : bool
}.
End Device.

Module Room.
Record t := mk {
  id : Z;
  name : string;
  created_at : Z
}.
End Room.

Module Message.
Record t := mk {
  id : Z;
  room_id : Z;
  device_id : option Z;
  content_type : string;
  content : option string;
  file_ref : option string;
  ip_at_send : option string;
  ua_at_send : option string;
  created_at : Z
}.
End Message.

(** Rows are kept in insertion order, which is rowid order.  [faults] is the
    fate of the commits still to come: [true] means that the storage write of
    that commit fails; past the end of the list every commit succeeds. *)
Record Database := mkDatabase {
  devices : list Device.t;
  rooms : list Room.t;
  messages : list Message.t;
  faults : list bool
}.

(** ** Exceptions and the world *)

(** The exceptions the code meets.  [OperationalError] and [IntegrityError]
    are SQLAlchemy's; [RuntimeError] is what a send on a closed connection
    raises.  The [detail] texts of [HTTPException] are written without their
    accents. *)
Inductive exn :=
| WebSocketDisconnect
| JSONDecodeError
| AttributeError
| RuntimeError
| OperationalError
| IntegrityError
| OverflowError
| HTTPException (status_code : Z) (detail : string).

(** A connection is known by a number. *)
Definition WebSocket := nat.

Inductive Dir := AUDIO_DIR | FILES_DIR.

(** The entries of the log. *)
Inductive Event :=
| EvSelectDeviceByFingerprint (fingerprint : string)
| EvSelectDeviceByLabel (label : string)
| EvSelectRoom (name : string)
| EvSelectHistory (room_id : Z) (limit : Z)
| EvInsertDevice (id : Z)
| EvUpdateDevice (id : Z)
| EvInsertRoom (id : Z)
| EvInsertMessage (id : Z)
| EvCommitFailed (e : exn)
| EvBroadcast (room : string) (payload : json)
| EvExists (d : Dir) (key : string)
| EvWrite (d : Dir) (key : string).

Record World := mkWorld {
  db : Database;
  utc : nat -> Z;                           (* the readings of the clock *)
  ticks : nat;                              (* how many were taken *)
  ROOM_CLIENTS : gmap string (gset WebSocket);
  gone : gset WebSocket;                    (* connections whose peer left *)
  outbox : gmap WebSocket (list string);    (* frames delivered to each peer *)
  audio_files : gmap string (list Byte.byte);
  blob_files : gmap string (list Byte.byte);
  log : list Event
}.

Definition set_db (d : Database) (w : World) : World :=
  mkWorld d (utc w) (ticks w) (ROOM_CLIENTS w) (gone w) (outbox w)
          (audio_files w) (blob_files w) (log w).
Definition set_ticks (n : nat) (w : World) : World :=
  mkWorld (db w) (utc w) n (ROOM_CLIENTS w) (gone w) (outbox w)
          (audio_files w) (blob_files w) (log w).
Definition set_ROOM_CLIENTS (m : gmap string (gset WebSocket)) (w : World) : World :=
  mkWorld (db w) (utc w) (ticks w) m (gone w) (outbox w)
          (audio_files w) (blob_files w) (log w).
Definition set_gone (g : gset WebSocket) (w : World) : World :=
  mkWorld (db w) (utc w) (ticks w) (ROOM_CLIENTS w) g (outbox w)
          (audio_files w) (blob_files w) (log w).
Definition set_outbox (o : gmap WebSocket (list string)) (w : World) : World :=
  mkWorld (db w) (utc w) (ticks w) (ROOM_CLIENTS w) (gone w) o
          (audio_files w) (blob_files w) (log w).
Definition set_audio_files (f : gmap string (list Byte.byte)) (w : World) : World :=
  mkWorld (db w) (utc w) (ticks w) (ROOM_CLIENTS w) (gone w) (outbox w)
          f (blob_files w) (log w).
Definition set_blob_files (f : gmap string (list Byte.byte)) (w : World) : World :=
  mkWorld (db w) (utc w) (ticks w) (ROOM_CLIENTS w) (gone w) (outbox w)
          (audio_files w) f (log w).
Definition set_log (l : list Event) (w : World) : World :=
  mkWorld (db w) (utc w) (ticks w) (ROOM_CLIENTS w) (gone w) (outbox w)
          (audio_files w) (blob_files w) l.

(** ** The monad *)

Inductive outcome (A : Type) :=
| Returned (a : A)
| Raised (e : exn).
Arguments Returned {A} a.
Arguments Raised {A} e.

Definition M (A : Type) : Type := World -> outcome A * World.

Definition ret {A} (a : A) : M A := fun w => (Returned a, w).

Definition raise {A} (e : exn) : M A := fun w => (Raised e, w).

Definition bind {A B} (m : M A) (k : A -> M B) : M B :=
  fun w =>
    match m w with
    | (Returned a, w') => k a w'
    | (Raised e, w') => (Raised e, w')
    end.

Notation "'let*' x ':=' m 'in' k" := (bind m (fun x => k))
  (at level 10, x name, m at level 100, k at level 200).
Notation "m ';;' k" := (bind m (fun _ => k))
  (at level 100, k at level 200, right associativity).

(** [try: body / except Exception: handler].  Every [exn] of the model is
    a subclass of [Exception]. *)
Definition try_except {A} (body : M A) (handler : exn -> M A) : M A :=
  fun w =>
    match body w with
    | (Returned a, w') => (Returned a, w')
    | (Raised e, w') => handler e w'
    end.

(** [try: body / finally: fin]: [fin] always runs; what it raises wins. *)
Definition try_finally {A} (body : M A) (fin : M unit) : M A :=
  fun w =>
    match body w with
    | (r, w') =>
        match fin w' with
        | (Returned _, w'') => (r, w'')
        | (Raised e, w'') => (Raised e, w'')
        end
    end.

(** [for x in xs: body x] *)
Fixpoint for_each {A} (xs : list A) (body : A -> M unit) : M unit :=
  match xs with
  | [] => ret tt
  | x :: rest => body x ;; for_each rest body
  end.

Definition record (e : Event) : M unit :=
  fun w => (Returned tt, set_log (log w ++ [e]) w).

(** [datetime.utcnow()] *)
Definition utcnow : M Z :=
  fun w => (Returned (utc w (ticks w)), set_ticks (S (ticks w)) w).

(** *** Coroutines

    Calling an [async def] builds a coroutine object and runs nothing;
    [await] runs its body.  An expression statement evaluates its expression
    and drops the value. *)
Inductive coroutine (A : Type) := Coroutine (body : M A).
Arguments Coroutine {A} body.

Definition await {A} (c : coroutine A) : M A :=
  match c with Coroutine body => body end.

Definition expr_stmt {A} (v : A) : M unit := ret tt.

(** ** The storage layer: what the SQLAlchemy session does on SQLite *)

Definition read_db : M Database := fun w => (Returned (db w), w).

Definition write_db (d : Database) : M unit := fun w => (Returned tt, set_db d w).

(** The rowid SQLite gives to a new row of an [INTEGER PRIMARY KEY] table. *)
Definition next_id (ids : list Z) : Z := 1 + fold_right Z.max 0 ids.

(** The write of a commit reaches the disk, or fails with an
    [OperationalError] that leaves the tables as they were. *)
Definition storage_write : M unit :=
  let* d := read_db in
  match faults d with
  | [] => ret tt
  | false :: rest =>
      write_db (mkDatabase (devices d) (rooms d) (messages d) rest)
  | true :: rest =>
      write_db (mkDatabase (devices d) (rooms d) (messages d) rest) ;;
      record (EvCommitFailed OperationalError) ;;
      raise OperationalError
  end.

(** [db.scalar(select(Device).where(Device.device_fingerprint == fp))] *)
Definition select_device_by_fingerprint (fp : string) : M (option Device.t) :=
  record (EvSelectDeviceByFingerprint fp) ;;
  let* d := read_db in
  ret (find (fun dev => bool_decide (Device.device_fingerprint dev = Some fp))
            (devices d)).

(** [db.scalar(select(Device).where(Device.label == label))]: the first row
    of the scan when several carry the label. *)
Definition select_device_by_label (label : string) : M (option Device.t) :=
  record (EvSelectDeviceByLabel label) ;;
  let* d := read_db in
  ret (find (fun dev => bool_decide (Device.label dev = Some label)) (devices d)).

(** [db.scalar(select(Room).where(Room.name == name))] *)
Definition select_room_by_name (name : string) : M (option Room.t) :=
  record (EvSelectRoom name) ;;
  let* d := read_db in
  ret (find (fun r => String.eqb (Room.name r) name) (rooms d)).

(** [db.add(Device(..)); db.commit(); db.refresh(dev)].  The column
    [device_fingerprint] is UNIQUE, and NULLs never collide; [first_seen]
    and [last_seen] each take their default from a call of [utcnow]. *)
Definition add_commit_device
    (fingerprint label user_agent ip_first ip_last : option string)
    : M Device.t :=
  storage_write ;;
  let* d := read_db in
  let clash :=
    match fingerprint with
    | Some fp =>
        existsb (fun dev => bool_decide (Device.device_fingerprint dev = Some fp))
                (devices d)
    | None => false
    end in
  if clash then
    record (EvCommitFailed IntegrityError) ;; raise IntegrityError
  else
    let* t1 := utcnow in
    let* t2 := utcnow in
    let dev := Device.mk (next_id (map Device.id (devices d)))
                         fingerprint label user_agent ip_first ip_last
                         t1 t2 true in
    write_db (mkDatabase (devices d ++ [dev]) (rooms d) (messages d) (faults d)) ;;
    record (EvInsertDevice (Device.id dev)) ;;
    ret dev.

(** [db.commit(); db.refresh(dev)] after attributes of a loaded [dev] were
    assigned: the row with that id is rewritten. *)
Definition commit_device (dev : Device.t) : M Device.t :=
  storage_write ;;
  let* d := read_db in
  write_db (mkDatabase
            (map (fun row => if Z.eqb (Device.id row) (Device.id dev) then dev else row)
                 (devices d))
            (rooms d) (messages d) (faults d)) ;;
  record (EvUpdateDevice (Device.id dev)) ;;
  ret dev.

(** [db.add(Room(name=name)); db.commit(); db.refresh(room)]; [name] is
    UNIQUE. *)
Definition add_commit_room (name : string) : M Room.t :=
  storage_write ;;
  let* d := read_db in
  if existsb (fun r => String.eqb (Room.name r) name) (rooms d) then
    record (EvCommitFailed IntegrityError) ;; raise IntegrityError
  else
    let* t := utcnow in
    let room := Room.mk (next_id (map Room.id (rooms d))) name t in
    write_db (mkDatabase (devices d) (rooms d ++ [room]) (messages d) (faults d)) ;;
    record (EvInsertRoom (Room.id room)) ;;
    ret room.

(** [db.add(Message(..)); db.commit(); db.refresh(msg)] *)
Definition add_commit_message
    (room_id : Z) (device_id : option Z) (content_type : string)
    (content file_ref ip_at_send ua_at_send : option string) : M Message.t :=
  storage_write ;;
  let* d := read_db in
  let* t := utcnow in
  let msg := Message.mk (next_id (map Message.id (messages d)))
                        room_id device_id content_type content file_ref
                        ip_at_send ua_at_send t in
  write_db (mkDatabase (devices d) (rooms d) (messages d ++ [msg]) (faults d)) ;;
  record (EvInsertMessage (Message.id msg)) ;;
  ret msg.

(** ** [upsert_device] and [ensure_room] *)

Definition set_label (l : option string) (dev : Device.t) : Device.t :=
  Device.mk (Device.id dev) (Device.device_fingerprint dev) l
            (Device.user_agent dev) (Device.ip_first dev) (Device.ip_last dev)
            (Device.first_seen dev) (Device.last_seen dev) (Device.active dev).

Definition set_seen (ua ip : option string) (t : Z) (dev : Device.t) : Device.t :=
  Device.mk (Device.id dev) (Device.device_fingerprint dev) (Device.label dev)
            ua (Device.ip_first dev) ip
            (Device.first_seen dev) t (Device.active dev).

Definition upsert_device (fingerprint label ip user_agent : option string)
    : M Device.t :=
  let* dev :=
    match fingerprint with
    | Some (String _ _ as fp) => select_device_by_fingerprint fp
    | _ => ret None
    end in
  let* dev :=
    match dev, label with
    | None, Some (String _ _ as l) => select_device_by_label l
    | _, _ => ret dev
    end in
  match dev with
  | None => add_commit_device fingerprint label user_agent ip ip
  | Some dev =>
      let dev :=
        match label with
        | Some l =>
            if truthy (Some l) && truthy (Some (str_strip l))
               && negb (bool_decide (Some l = Device.label dev))
            then set_label (Some (str_strip l)) dev
            else dev
        | None => dev
        end in
      let ua := py_or user_agent (Device.user_agent dev) in
      let ip_last := py_or ip (Device.ip_last dev) in
      let* t := utcnow in
      commit_device (set_seen ua ip_last t dev)
  end.

Definition ensure_room (name : string) : M Room.t :=
  let* room := select_room_by_name name in
  match room with
  | Some room => ret room
  | None => add_commit_room name
  end.

(** ** The room registry and the connections *)

Definition get_clients (room : string) : M (gset WebSocket) :=
  fun w => (Returned (default ∅ (ROOM_CLIENTS w !! room)), w).

(** [ROOM_CLIENTS.setdefault(room, set()).add(ws)] *)
Definition clients_add (room : string) (ws : WebSocket) : M unit :=
  fun w =>
    (Returned tt,
     set_ROOM_CLIENTS
       (<[room := default ∅ (ROOM_CLIENTS w !! room) ∪ {[ws]}]> (ROOM_CLIENTS w)) w).

(** [ROOM_CLIENTS.get(room, set()).discard(ws)] *)
Definition clients_discard (room : string) (ws : WebSocket) : M unit :=
  fun w =>
    match ROOM_CLIENTS w !! room with
    | Some s =>
        (Returned tt,
         set_ROOM_CLIENTS (<[room := s ∖ {[ws]}]> (ROOM_CLIENTS w)) w)
    | None => (Returned tt, w)
    end.

(** The body of [WebSocket.send_text]: the frame reaches the peer, or the
    send raises because the peer is gone. *)
Definition transmit (ws : WebSocket) (data : string) : M unit :=
  fun w =>
    if bool_decide (ws ∈ gone w) then (Raised RuntimeError, w)
    else (Returned tt,
          set_outbox
            (<[ws := (default [] (outbox w !! ws) ++ [data])%list]> (outbox w)) w).

(** [WebSocket.send_text] is an [async def]. *)
Definition send_text (ws : WebSocket) (data : string) : coroutine unit :=
  Coroutine (transmit ws data).

(** [WebSocket.accept] is an [async def]. *)
Definition accept (ws : WebSocket) : coroutine unit :=
  Coroutine (fun w =>
    if bool_decide (ws ∈ gone w) then (Raised RuntimeError, w)
    else (Returned tt, w)).

(** ** Requests and responses *)

Record Request := mkRequest {
  client_host : option string;        (* [request.client.host], if any *)
  header_user_agent : option string   (* [request.headers.get("user-agent")] *)
}.

Module MessageIn.
Record t := mk {
  room : string;
  content_type : string;
  content : option string;
  file_ref : option string;
  fingerprint : option string;
  label : option string
}.
End MessageIn.

Module MessageOut.
Record t := mk {
  id : Z;
  room : string;
  device_label : option string;
  ip : option string;
  content_type : string;
  content : option string;
  file_ref : option string;
  ts : Z
}.
End MessageOut.

(** [UploadFile]: the declared type, the original name, the bytes that
    [await file.read()] returns. *)
Record UploadFile := mkUploadFile {
  upload_content_type : option string;
  upload_filename : option string;
  upload_body : list Byte.byte
}.

Record FileResponse := mkFileResponse {
  response_dir : Dir;
  response_path : string;
  media_type : string;
  response_filename : string
}.

Section Server.
Context {P : Platform}.

(** The first loop of [_broadcast_room]; [dead] is the list it appends to.
    [ws.send_text(..)] stands as an expression statement of a plain [def]:
    the coroutine it returns is dropped. *)
Fixpoint broadcast_sends (payload : json) (clients dead : list WebSocket)
    : M (list WebSocket) :=
  match clients with
  | [] => ret dead
  | ws :: rest =>
      let* dead :=
        try_except
          (expr_stmt (send_text ws (json_dumps payload)) ;; ret dead)
          (fun _ => ret (dead ++ [ws])) in
      broadcast_sends payload rest dead
  end.

Definition _broadcast_room (room : string) (payload : json) : M unit :=
  record (EvBroadcast room payload) ;;
  let* clients := get_clients room in
  let* dead := broadcast_sends payload (elements clients) [] in
  for_each dead (fun ws => clients_discard room ws).

(** *** HTTP ingestion: [POST /messages] *)

Definition resolve_ip (request : Request) : option string := client_host request.

Definition msg_payload (room : Room.t) (dev : Device.t) (ip : option string)
    (msg : Message.t) : json :=
  JObj [("type", JStr "msg");
        ("room", JStr (Room.name room));
        ("device", JObj [("id", JInt (Device.id dev));
                         ("label", opt_str (Device.label dev));
                         ("ip", opt_str ip)]);
        ("content_type", JStr (Message.content_type msg));
        ("content", opt_str (Message.content msg));
        ("file_ref", opt_str (Message.file_ref msg));
        ("ts", JStr (isoformat (Message.created_at msg)));
        ("id", JInt (Message.id msg))].

Definition post_message (payload : MessageIn.t) (request : Request) : M json :=
  let ip := resolve_ip request in
  let ua := header_user_agent request in
  let* room := ensure_room (MessageIn.room payload) in
  let* dev := upsert_device (MessageIn.fingerprint payload)
                            (MessageIn.label payload) ip ua in
  let* msg := add_commit_message (Room.id room) (Some (Device.id dev))
                (MessageIn.content_type payload) (MessageIn.content payload)
                (MessageIn.file_ref payload) ip ua in
  let data := msg_payload room dev ip msg in
  _broadcast_room (Room.name room) data ;;
  ret (JObj [("ok", JBool true); ("id", JInt (Message.id msg))]).

(** *** The streaming endpoint [/ws/{room}] *)

Definition presence (room : string) (count : nat) : json :=
  JObj [("type", JStr "presence"); ("room", JStr room);
        ("count", JInt (Z.of_nat count))].

(** The [with SessionLocal() as db:] block of a frame of type ["msg"]. *)
Definition ws_message (room : string) (data : list (string * json)) : M unit :=
  let* dev := upsert_device (json_str (dict_get "fingerprint" data))
                            (json_str (dict_get "label" data)) None None in
  let* room_row := ensure_room room in
  let content_type :=
    match json_str (dict_get "content_type" data) with
    | Some (String _ _ as ct) => ct
    | _ => "text"
    end in
  let* msg := add_commit_message (Room.id room_row) (Some (Device.id dev))
                content_type (json_str (dict_get "content" data))
                (json_str (dict_get "file_ref" data)) None None in
  let payload :=
    JObj [("type", JStr "msg");
          ("room", JStr (Room.name room_row));
          ("device", JObj [("id", JInt (Device.id dev));
                           ("label", opt_str (Device.label dev));
                           ("ip", JNull)]);
          ("content_type", JStr (Message.content_type msg));
          ("content", opt_str (Message.content msg));
          ("file_ref", opt_str (Message.file_ref msg));
          ("ts", JStr (isoformat (Message.created_at msg)));
          ("id", JInt (Message.id msg))] in
  _broadcast_room (Room.name room_row) payload.

(** One turn of the [while True] loop, after [receive_text] returned [raw].
    [data.get] exists on a dict only. *)
Definition ws_frame (room : string) (raw : string) : M unit :=
  match json_loads raw with
  | None => ret tt
  | Some (JObj data) =>
      match dict_get "type" data with
      | JStr "msg" => ws_message room data
      | _ => ret tt
      end
  | Some _ => raise AttributeError
  end.

(** The [while True] loop.  [frames] are the text frames the peer sends
    before it leaves; after the last one [receive_text] raises
    [WebSocketDisconnect]. *)
Fixpoint ws_loop (ws : WebSocket) (room : string) (frames : list string)
    : M unit :=
  match frames with
  | [] =>
      (fun w => (Returned tt, set_gone (gone w ∪ {[ws]}) w)) ;;
      raise WebSocketDisconnect
  | raw :: rest => ws_frame room raw ;; ws_loop ws room rest
  end.

(** The [finally] block of [ws_room]. *)
Definition ws_finally (ws : WebSocket) (room : string) : M unit :=
  clients_discard room ws ;;
  try_except
    (let* clients := get_clients room in
     await (send_text ws (json_dumps (presence room (size clients)))))
    (fun _ => ret tt).

(** The body of the [try] of [ws_room]: the first presence event, then the
    loop. *)
Definition ws_try (ws : WebSocket) (room : string) (frames : list string)
    : M unit :=
  let* clients := get_clients room in
  await (send_text ws (json_dumps (presence room (size clients)))) ;;
  ws_loop ws room frames.

Definition ws_room (ws : WebSocket) (room : string) (frames : list string)
    : coroutine unit :=
  Coroutine (
    await (accept ws) ;;
    clients_add room ws ;;
    try_finally
      (try_except
         (ws_try ws room frames)
         (fun e =>
            match e with
            | WebSocketDisconnect => ret tt
            | _ => raise e
            end))
      (ws_finally ws room)).

(** *** History: [GET /rooms/{room_name}/history] *)

Fixpoint insert_desc (row : Message.t * option Device.t)
    (rows : list (Message.t * option Device.t))
    : list (Message.t * option Device.t) :=
  match rows with
  | [] => [row]
  | r :: rest =>
      if Message.created_at (fst r) <? Message.created_at (fst row)
      then row :: rows
      else r :: insert_desc row rest
  end.

(** [.order_by(Message.created_at.desc())].  SQL leaves the order of rows
    with equal keys open; here the later row comes first. *)
Definition order_by_created_at_desc (rows : list (Message.t * option Device.t))
    : list (Message.t * option Device.t) :=
  fold_right insert_desc [] rows.

(** [.limit(n)] as SQLite runs it: a negative [LIMIT] is no bound. *)
Definition sql_limit {A} (n : Z) (rows : list A) : list A :=
  if n <? 0 then rows else firstn (Z.to_nat n) rows.

(** [select(Message, Device).join(Device, isouter=True)]: the device of a
    message, [None] when it has none. *)
Definition join_device (devs : list Device.t) (msg : Message.t)
    : Message.t * option Device.t :=
  (msg,
   match Message.device_id msg with
   | Some i => find (fun dev => Z.eqb (Device.id dev) i) devs
   | None => None
   end).

(** What the driver binds as an SQLite INTEGER: a signed 64-bit number. *)
Definition sqlite_integer (n : Z) : bool :=
  (- 2 ^ 63 <=? n) && (n <? 2 ^ 63).

(** [db.execute(select(..).limit(limit)).all()].  The limit is a bound
    parameter of the statement: outside the signed 64-bit range the driver
    raises [OverflowError] and the statement never runs. *)
Definition select_history (room_id limit : Z)
    : M (list (Message.t * option Device.t)) :=
  if negb (sqlite_integer limit) then raise OverflowError else
  record (EvSelectHistory room_id limit) ;;
  let* d := read_db in
  ret (sql_limit limit
         (order_by_created_at_desc
            (filter (fun row => Message.room_id (fst row) = room_id)
                    (map (join_device (devices d)) (messages d))))).

(** The [MessageOut(..)] built in the loop of [room_history]. *)
Definition history_row (room : Room.t) (row : Message.t * option Device.t)
    : MessageOut.t :=
  let '(msg, dev) := row in
  MessageOut.mk (Message.id msg) (Room.name room)
    (match dev with
     | Some dev => Device.label dev
     | None => None
     end)
    (Message.ip_at_send msg) (Message.content_type msg)
    (Message.content msg) (Message.file_ref msg)
    (Message.created_at msg).

Definition room_history (room_name : string) (limit : Z)
    : M (list MessageOut.t) :=
  let* room := select_room_by_name room_name in
  match room with
  | None => ret []
  | Some room =>
      let* rows := select_history (Room.id room) limit in
      ret (map (history_row room) (rev rows))
  end.

(** *** The content store: uploads and downloads *)

Definition CT_TO_EXT : list (string * string) :=
  [("audio/ogg; codecs=opus", "ogg");
   ("audio/ogg", "ogg");
   ("audio/webm; codecs=opus", "webm");
   ("audio/webm", "webm");
   ("audio/mp4; codecs=opus", "m4a");
   ("audio/mp4", "m4a");
   ("audio/m4a", "m4a")].

Definition EXT_TO_CT : list (string * string) :=
  [("ogg", "audio/ogg"); ("webm", "audio/webm"); ("m4a", "audio/mp4")].

Fixpoint table_get (k : string) (table : list (string * string)) : option string :=
  match table with
  | [] => None
  | (k', v) :: rest => if String.eqb k k' then Some v else table_get k rest
  end.

(** [s.lstrip(".")] *)
Fixpoint lstrip_dots (s : string) : string :=
  match s with
  | String "." t => lstrip_dots t
  | _ => s
  end.

(** [(ct or "").lower().strip()] *)
Definition declared_type (content_type : option string) : string :=
  str_strip (str_lower (default "" content_type)).

Definition _pick_ext (upload : UploadFile) : string :=
  let ct := declared_type (upload_content_type upload) in
  match table_get ct CT_TO_EXT with
  | Some ext => ext
  | None =>
      if str_startswith ct "audio/" then
        if str_in "webm" ct then "webm"
        else if str_in "ogg" ct then "ogg"
        else if str_in "mp4" ct || str_in "m4a" ct then "m4a"
        else "webm"
      else "webm"
  end.

Definition pick_ext_from_upload (upload : UploadFile) : string :=
  let ct := declared_type (upload_content_type upload) in
  let ext := default "" (guess_extension ct) in
  let ext := if String.eqb ext ".jpe" then ".jpg" else ext in
  let ext :=
    if String.eqb ext "" then path_suffix (default "" (upload_filename upload))
    else ext in
  let ext := if String.eqb ext "" then ".bin" else ext in
  lstrip_dots ext.

Definition classify_content_type (ct : option string) : string :=
  let ct := str_lower (default "" ct) in
  if str_startswith ct "image/" then "image"
  else if str_startswith ct "video/" then "video"
  else "file".

Definition get_files (d : Dir) : M (gmap string (list Byte.byte)) :=
  fun w =>
    (Returned match d with
              | AUDIO_DIR => audio_files w
              | FILES_DIR => blob_files w
              end, w).

(** The last component of [DATA_DIR / "audio"] and of [DATA_DIR / "files"]. *)
Definition dir_name (d : Dir) : string :=
  match d with
  | AUDIO_DIR => "audio"
  | FILES_DIR => "files"
  end.

(** [(dir / key).name], for a key that holds no separator and is not
    [".."]: [dir / "."] is [dir] itself. *)
Definition path_name (d : Dir) (key : string) : string :=
  if String.eqb key "." then dir_name d else key.

(** [(dir / key).exists()], for such a key: the directory is there since
    [mkdir] at import, and so is every stored file. *)
Definition path_exists (d : Dir) (key : string) : M bool :=
  record (EvExists d key) ;;
  let* files := get_files d in
  ret (bool_decide (key = "." \/ is_Some (files !! key))).

(** [(dir / key).write_bytes(raw)] *)
Definition write_bytes (d : Dir) (key : string) (raw : list Byte.byte) : M unit :=
  record (EvWrite d key) ;;
  fun w =>
    (Returned tt,
     match d with
     | AUDIO_DIR => set_audio_files (<[key := raw]> (audio_files w)) w
     | FILES_DIR => set_blob_files (<[key := raw]> (blob_files w)) w
     end).

(** [h = hashlib.sha256(); h.update(b); return h.hexdigest()], written
    twice in the source under two names. *)
Definition _sha256_bytes (b : list Byte.byte) : string := sha256_hexdigest b.

Definition sha256_bytes (b : list Byte.byte) : string := sha256_hexdigest b.

(** The store step of both uploads, after [sha] and [ext] were computed:
    the key, the destination, and the write guarded by the existence test. *)
Definition put (d : Dir) (raw : list Byte.byte) (sha ext : string) : M string :=
  let object_key := sha +:+ "." +:+ ext in
  let* there := path_exists d object_key in
  (if there then ret tt else write_bytes d object_key raw) ;;
  ret object_key.

Definition upload_voice (request : Request) (file : UploadFile)
    (room : string) (fingerprint label : option string) : coroutine json :=
  Coroutine (
    let raw := upload_body file in
    match raw with
    | [] => raise (HTTPException 400 "Ficheiro vazio")
    | _ =>
        let* object_key := put AUDIO_DIR raw (_sha256_bytes raw) (_pick_ext file) in
        let ip := resolve_ip request in
        let ua := header_user_agent request in
        let* room_row := ensure_room room in
        let* dev := upsert_device fingerprint label ip ua in
        let* msg := add_commit_message (Room.id room_row) (Some (Device.id dev))
                      "voice" None (Some object_key) ip ua in
        let payload :=
          JObj [("type", JStr "msg");
                ("room", JStr (Room.name room_row));
                ("device", JObj [("id", JInt (Device.id dev));
                                 ("label", opt_str (Device.label dev));
                                 ("ip", opt_str ip)]);
                ("content_type", JStr "voice");
                ("content", JNull);
                ("file_ref", JStr object_key);
                ("ts", JStr (isoformat (Message.created_at msg)));
                ("id", JInt (Message.id msg))] in
        _broadcast_room (Room.name room_row) payload ;;
        ret (JObj [("ok", JBool true); ("id", JInt (Message.id msg));
                   ("object_key", JStr object_key)])
    end).

Definition upload_blob (request : Request) (file : UploadFile)
    (room : string) (fingerprint label : option string) : coroutine json :=
  Coroutine (
    let raw := upload_body file in
    match raw with
    | [] => raise (HTTPException 400 "Ficheiro vazio")
    | _ =>
        let* object_key :=
          put FILES_DIR raw (sha256_bytes raw) (pick_ext_from_upload file) in
        let content_category := classify_content_type (upload_content_type file) in
        let ip := resolve_ip request in
        let ua := header_user_agent request in
        let* room_row := ensure_room room in
        let* dev := upsert_device fingerprint label ip ua in
        let* msg := add_commit_message (Room.id room_row) (Some (Device.id dev))
                      content_category (upload_filename file) (Some object_key)
                      ip ua in
        let payload :=
          JObj [("type", JStr "msg");
                ("room", JStr (Room.name room_row));
                ("device", JObj [("id", JInt (Device.id dev));
                                 ("label", opt_str (Device.label dev));
                                 ("ip", opt_str ip)]);
                ("content_type", JStr content_category);
                ("content", opt_str (upload_filename file));
                ("file_ref", JStr object_key);
                ("mime", opt_str (upload_content_type file));
                ("ts", JStr (isoformat (Message.created_at msg)));
                ("id", JInt (Message.id msg))] in
        _broadcast_room (Room.name room_row) payload ;;
        ret (JObj [("ok", JBool true); ("id", JInt (Message.id msg));
                   ("object_key", JStr object_key);
                   ("category", JStr content_category)])
    end).

(** The test of [_safe_key], which [get_blob] repeats inline. *)
Definition bad_key (name : string) : bool :=
  String.eqb name "" || str_in "/" name || str_in "\" name || str_in ".." name.

Definition _safe_key (name : string) : M string :=
  let name := str_strip name in
  if bad_key name then raise (HTTPException 400 "object_key invalido")
  else ret name.

Definition get_audio (object_key : string) : M FileResponse :=
  let* key := _safe_key object_key in
  let* there := path_exists AUDIO_DIR key in
  if negb there then raise (HTTPException 404 "nao encontrado")
  else
    let name := path_name AUDIO_DIR key in
    let ext := lstrip_dots (str_lower (path_suffix name)) in
    let media_type := default "audio/webm" (table_get ext EXT_TO_CT) in
    ret (mkFileResponse AUDIO_DIR key media_type name).

Definition get_blob (object_key : string) : M FileResponse :=
  let key := str_strip object_key in
  if bad_key key then raise (HTTPException 400 "object_key invalido")
  else
    let* there := path_exists FILES_DIR key in
    if negb there then raise (HTTPException 404 "nao encontrado")
    else
      let name := path_name FILES_DIR key in
      let media_type :=
        match guess_type name with
        | Some (String _ _ as mt) => mt
        | _ => "application/octet-stream"
        end in
      ret (mkFileResponse FILES_DIR key media_type name).

End Server.

(** ** Concrete inputs

    A platform and a few worlds on which the model is run in the examples.
    The theorems hold for every platform; this one only serves to evaluate
    them. *)

Definition dquote : string := String (ascii_of_nat 34) EmptyString.

(** The text [{"type": "msg", "content": "hi"}]. *)
Definition frame_hi : string :=
  "{" +:+ dquote +:+ "type" +:+ dquote +:+ ": " +:+ dquote +:+ "msg" +:+ dquote
  +:+ ", " +:+ dquote +:+ "content" +:+ dquote +:+ ": " +:+ dquote +:+ "hi"
  +:+ dquote +:+ "}".

(** A parser that knows the frames of the examples and takes every other
    text for malformed. *)
Definition sample_loads (raw : string) : option json :=
  if String.eqb raw "[]" then Some (JArr [])
  else if String.eqb raw "42" then Some (JInt 42)
  else if String.eqb raw "null" then Some JNull
  else if String.eqb raw "{}" then Some (JObj [])
  else if String.eqb raw frame_hi
       then Some (JObj [("type", JStr "msg"); ("content", JStr "hi")])
  else None.

(** A printer without escapes. *)
Fixpoint sample_dumps (j : json) : string :=
  match j with
  | JNull => "null"
  | JBool true => "true"
  | JBool false => "false"
  | JInt n => pretty n
  | JStr s => dquote +:+ s +:+ dquote
  | JArr items =>
      "[" +:+ (fix go (l : list json) : string :=
                 match l with
                 | [] => ""
                 | [x] => sample_dumps x
                 | x :: rest => sample_dumps x +:+ ", " +:+ go rest
                 end) items +:+ "]"
  | JObj fields =>
      "{" +:+ (fix go (l : list (string * json)) : string :=
                 match l with
                 | [] => ""
                 | [(k, v)] => dquote +:+ k +:+ dquote +:+ ": " +:+ sample_dumps v
                 | (k, v) :: rest =>
                     dquote +:+ k +:+ dquote +:+ ": " +:+ sample_dumps v
                     +:+ ", " +:+ go rest
                 end) fields +:+ "}"
  end.

(** The text from the last dot on; [None] when there is no dot. *)
Fixpoint from_last_dot (s : string) : option string :=
  match s with
  | EmptyString => None
  | String c t =>
      match from_last_dot t with
      | Some x => Some x
      | None => if Ascii.eqb c "." then Some s else None
      end
  end.

(** The suffix of a file name: the text from the last dot on, unless that
    dot opens or closes the name. *)
Definition sample_suffix (name : string) : string :=
  match name with
  | EmptyString => ""
  | String _ t =>
      match from_last_dot t with
      | Some (String _ (String _ _) as x) => x
      | _ => ""
      end
  end.

Definition sample_types : list (string * string) :=
  [(".png", "image/png"); (".jpg", "image/jpeg"); (".mp4", "video/mp4");
   (".pdf", "application/pdf")].

Definition sample_extensions : list (string * string) :=
  [("image/png", ".png"); ("image/jpeg", ".jpg"); ("video/mp4", ".mp4");
   ("application/pdf", ".pdf")].

(** The decimal writing of a number has a digit. *)
Definition sample_digest_nonempty (raw : list Byte.byte) :
  pretty (length raw) <> "".
Proof.
  assert (Hgo : forall x s, s <> "" -> pretty_N_go x s <> "").
  { intros x. induction (N.lt_wf_0 x) as [x _ IH]. intros s Hs.
    destruct (N.eq_dec x 0%N) as [->|Hx]; [rewrite pretty_N_go_0; exact Hs|].
    rewrite pretty_N_go_step by lia.
    apply IH; [apply N.div_lt; lia|discriminate]. }
  unfold pretty, pretty_nat, pretty, pretty_N.
  destruct (decide (N.of_nat (length raw) = 0%N)); [discriminate|].
  rewrite pretty_N_go_step by lia. apply Hgo. discriminate.
Qed.

(** The digest is stood in for by the length of the payload: the examples
    never compare two payloads. *)
Definition sample_platform : Platform := {|
  json_loads := sample_loads;
  json_dumps := sample_dumps;
  isoformat := fun t => pretty t;
  sha256_hexdigest := fun raw => pretty (length raw);
  guess_extension := fun ct => table_get ct sample_extensions;
  guess_type := fun key => table_get (sample_suffix key) sample_types;
  path_suffix := sample_suffix;
  sha256_hexdigest_nonempty := sample_digest_nonempty
|}.

(** Nothing stored, nobody connected, the clock reading 0, 1, 2, ... *)
Definition fresh_world : World :=
  mkWorld (mkDatabase [] [] [] []) (fun n => Z.of_nat n) 0 ∅ ∅ ∅ ∅ ∅ [].

Definition with_faults (fl : list bool) (w : World) : World :=
  set_db (mkDatabase (devices (db w)) (rooms (db w)) (messages (db w)) fl) w.

(** Room ["alpha"] with two subscribers; the peer of connection 2 is gone. *)
Definition hub_world : World :=
  set_gone {[2%nat]}
    (set_ROOM_CLIENTS {["alpha" := {[1%nat; 2%nat]}]} fresh_world).

(** Connection 2 is subscribed to ["alpha"]; nothing else has happened. *)
Definition lobby_world : World :=
  set_ROOM_CLIENTS {["alpha" := {[2%nat]}]} fresh_world.

(** One device is registered: fingerprint ["fp-A"], label ["Phone"]. *)
Definition phone_world : World :=
  set_db (mkDatabase
            [Device.mk 1 (Some "fp-A") (Some "Phone") None None None 0 0 true]
            [] [] [])
         fresh_world.

(** One room ["alpha"] holding one message. *)
Definition archive_world : World :=
  set_db (mkDatabase []
            [Room.mk 1 "alpha" 0]
            [Message.mk 1 1 None "text" (Some "hi") None None None 5]
            [])
         fresh_world.

(** One room ["alpha"] holding four messages, the third one stamped before
    the second. *)
Definition busy_world : World :=
  set_db (mkDatabase []
            [Room.mk 1 "alpha" 0; Room.mk 2 "beta" 1]
            [Message.mk 1 1 None "text" (Some "a") None None None 10;
             Message.mk 2 1 None "text" (Some "b") None None None 30;
             Message.mk 3 1 None "text" (Some "c") None None None 20;
             Message.mk 4 2 None "text" (Some "x") None None None 25;
             Message.mk 5 1 None "text" (Some "d") None None None 40]
            [])
         fresh_world.

(** ** The vocabulary of the statements *)

(** The next [n] commits succeed. *)
Definition commits_succeed (n : nat) (w : World) : bool :=
  forallb negb (firstn n (faults (db w))).

(** The files of a directory. *)
Definition files_of (d : Dir) (w : World) : gmap string (list Byte.byte) :=
  match d with
  | AUDIO_DIR => audio_files w
  | FILES_DIR => blob_files w
  end.

(** The needle starts with a character that [strip] keeps. *)
Definition first_nonspace (n : string) : bool :=
  match n with
  | EmptyString => false
  | String a _ => negb (isspace a)
  end.

(** The needle ends with a character that [strip] keeps. *)
Fixpoint last_nonspace (n : string) : bool :=
  match n with
  | EmptyString => false
  | String a EmptyString => negb (isspace a)
  | String _ t => last_nonspace t
  end.

(** The key holds [".."], ["/"] or a backslash. *)
Definition has_traversal (key : string) : bool :=
  str_in ".." key || str_in "/" key || str_in "\" key.

(** The messages of a room, in table order. *)
Definition room_messages (room_id : Z) (d : Database) : list Message.t :=
  filter (fun msg => Message.room_id msg = room_id) (messages d).

(** The row of a message comes no later than the row [r]. *)
Definition not_after (r row : Message.t * option Device.t) : Prop :=
  Message.created_at (fst row) <= Message.created_at (fst r).

(** What the two queries of [upsert_device] come back with. *)
Definition lookup_device (fingerprint label : option string)
    (devs : list Device.t) : option Device.t :=
  let by_fingerprint :=
    match fingerprint with
    | Some (String _ _ as fp) =>
        find (fun dev => bool_decide (Device.device_fingerprint dev = Some fp)) devs
    | _ => None
    end in
  match by_fingerprint, label with
  | None, Some (String _ _ as l) =>
      find (fun dev => bool_decide (Device.label dev = Some l)) devs
  | _, _ => by_fingerprint
  end.

(** The row of [dev] rewritten in place, as [commit_device] does. *)
Definition rewrite_row (dev : Device.t) (devs : list Device.t) : list Device.t :=
  map (fun row => if Z.eqb (Device.id row) (Device.id dev) then dev else row) devs.

(** How many rows carry the fingerprint. *)
Definition rows_with (fp : string) (devs : list Device.t) : nat :=
  length (filter (fun dev => Device.device_fingerprint dev = Some fp) devs).

(** A device already has the fingerprint. *)
Definition known_fingerprint (fp : string) (devs : list Device.t) : bool :=
  existsb (fun dev => bool_decide (Device.device_fingerprint dev = Some fp)) devs.

(** The label is absent or empty, or no device carries it. *)
Definition no_label_match (label : option string) (devs : list Device.t) : bool :=
  match label with
  | Some (String _ _ as l) =>
      negb (existsb (fun dev => bool_decide (Device.label dev = Some l)) devs)
  | _ => true
  end.

(** The storage errors recorded in a stretch of the log. *)
Definition failures (evs : list Event) : list exn :=
  omap (fun ev => match ev with EvCommitFailed e => Some e | _ => None end) evs.

(** The calls of [_broadcast_room] recorded in a stretch of the log. *)
Definition broadcasts (evs : list Event) : list (string * json) :=
  omap (fun ev => match ev with EvBroadcast r p => Some (r, p) | _ => None end) evs.

(** The registry and the connections are the same in both worlds. *)
Definition same_hub (w w' : World) : Prop :=
  ROOM_CLIENTS w' = ROOM_CLIENTS w /\ gone w' = gone w /\ outbox w' = outbox w.

(** A computation that leaves the registry and the connections alone. *)
Definition hub_op {A} (m : M A) : Prop := forall w, same_hub w (m w).2.

(** A computation of the storage layer: it extends the log, calls no
    broadcast, leaves the hub alone, and raises exactly when it recorded a
    failed commit, with that error. *)
Definition storage_op {A} (m : M A) : Prop :=
  forall w, exists evs,
    log (m w).2 = log w ++ evs
    /\ broadcasts evs = []
    /\ failures evs = match (m w).1 with Raised e => [e] | Returned _ => [] end
    /\ same_hub w (m w).2.

(** [j.get(k)] when [j] is a dict. *)
Definition json_get (k : string) (j : json) : json :=
  match j with
  | JObj fields => dict_get k fields
  | _ => JNull
  end.

(** What a run from [w] may do on the way to a broadcast.  With [evs] the
    stretch of the log it wrote: a failed storage write is the error the run
    raises; a run that raises has called no broadcast; and a broadcast is the
    last thing of the run, comes right after the commit of a message, and
    carries the id of that message, which is in the table. *)
Definition commit_before_broadcast {A} (w : World) (run : outcome A * World)
    : Prop :=
  exists evs,
    log run.2 = log w ++ evs
    /\ (forall e, In e (failures evs) -> run.1 = Raised e)
    /\ (forall e, run.1 = Raised e -> broadcasts evs = [])
    /\ (forall room data, In (room, data) (broadcasts evs) ->
          exists pre msg,
            evs = pre ++ [EvInsertMessage (Message.id msg); EvBroadcast room data]
            /\ broadcasts pre = []
            /\ In msg (messages (db run.2))
            /\ json_get "id" data = JInt (Message.id msg)).

(** One device, labelled ["Phone"], with an address and a user agent on
    record. *)
Definition seen_world : World :=
  set_db (mkDatabase
            [Device.mk 1 (Some "fp-A") (Some "Phone") (Some "Firefox")
                       (Some "10.0.0.1") (Some "10.0.0.2") 3 4 true]
            [] [] [])
         fresh_world.

(** Every code point of the string passes the test. *)
Fixpoint str_forall (f : ascii -> bool) (s : string) : bool :=
  match s with
  | EmptyString => true
  | String c t => f c && str_forall f t
  end.

(** The code points [hexdigest] writes: [0-9a-f]. *)
Definition is_hex_digit (c : ascii) : bool :=
  let n := nat_of_ascii c in
  (Nat.leb 48 n && Nat.leb n 57) || (Nat.leb 97 n && Nat.leb n 102).

(** A code point that is no white space, no dot, no slash and no backslash. *)
Definition plain_char (c : ascii) : bool :=
  negb (isspace c) && negb (Ascii.eqb c ".") && negb (Ascii.eqb c "/")
  && negb (Ascii.eqb c "\").




(** A voice note of three bytes, declared as Ogg. *)
Definition sample_voice : UploadFile :=
  mkUploadFile (Some "audio/ogg; codecs=opus") (Some "blob")
               [Byte.x01; Byte.x02; Byte.x03].


(** ** Rules on the tables *)

(** Every run of [m] takes a world to a world related by [R]. *)
Definition steps (R : World -> World -> Prop) {A} (m : M A) : Prop :=
  forall w, R w (m w).2.

(** A rule on the tables, read as a rule on worlds. *)
Definition on_tables (R : Database -> Database -> Prop) (w w' : World) : Prop :=
  R (db w) (db w').

(** The tables and the files are the same in both worlds. *)
Definition same_store (w w' : World) : Prop :=
  db w' = db w /\ audio_files w' = audio_files w /\ blob_files w' = blob_files w.

(** The files are the same in both worlds. *)
Definition same_files (w w' : World) : Prop :=
  audio_files w' = audio_files w /\ blob_files w' = blob_files w.

(** No stored file is deleted or overwritten: every file is still there,
    with the bytes it had. *)
Definition files_kept (w w' : World) : Prop :=
  audio_files w ⊆ audio_files w' /\ blob_files w ⊆ blob_files w'.

(** The constraints of db/models.py: primary keys are unique, fingerprints
    are unique among the devices that have one, room names are unique. *)
Definition well_formed (d : Database) : Prop :=
  NoDup (map Device.id (devices d))
  /\ NoDup (omap Device.device_fingerprint (devices d))
  /\ NoDup (map Room.id (rooms d))
  /\ NoDup (map Room.name (rooms d))
  /\ NoDup (map Message.id (messages d)).

(** Well-formed tables stay well-formed. *)
Definition keeps_well_formed (d d' : Database) : Prop :=
  well_formed d -> well_formed d'.

(** Nothing is deleted or reordered: the old messages and rooms are the
    first rows of the new tables, unchanged, and the old devices are still
    there under their ids, in the same order. *)
Definition only_grows (d d' : Database) : Prop :=
  messages d `prefix_of` messages d'
  /\ rooms d `prefix_of` rooms d'
  /\ map Device.id (devices d) `prefix_of` map Device.id (devices d').

(** ** The remaining entry points *)

Module DeviceUpsert.
Record t := mk {
  fingerprint : option string;
  label : option string
}.
End DeviceUpsert.

(** [POST /device/upsert] *)
Definition device_upsert (payload : DeviceUpsert.t) (request : Request) : M json :=
  let ip := resolve_ip request in
  let ua := header_user_agent request in
  let* dev := upsert_device (DeviceUpsert.fingerprint payload)
                            (DeviceUpsert.label payload) ip ua in
  ret (JObj [("ok", JBool true);
             ("device_id", JInt (Device.id dev));
             ("label", opt_str (Device.label dev));
             ("ip_last", opt_str (Device.ip_last dev))]).

(** [db/init_db.py].  The three lines [main] can print; the value of [main]
    is the list of the lines it printed.  [create_all] adds the tables that
    are missing, and the tables of a [Database] are always there. *)
Module init_db.
Inductive Printed := SalaCriada | SalaJaExiste | DbPronto.

Definition main : M (list Printed) :=
  let* found := select_room_by_name "alpha" in
  let* line :=
    match found with
    | None => add_commit_room "alpha" ;; ret SalaCriada
    | Some _ => ret SalaJaExiste
    end in
  ret [line; DbPronto].
End init_db.

Section EveryHandler.
Context {P : Platform}.

(** Every entry point that stores no file, and [init_db.main], takes a world
    to a world related by [R]. *)
Definition handlers_without_upload (R : World -> World -> Prop) : Prop :=
  (forall payload request, steps R (device_upsert payload request))
  /\ (forall payload request, steps R (post_message payload request))
  /\ (forall room_name limit, steps R (room_history room_name limit))
  /\ (forall ws room frames, steps R (await (ws_room ws room frames)))
  /\ (forall object_key, steps R (get_audio object_key))
  /\ (forall object_key, steps R (get_blob object_key))
  /\ steps R init_db.main.

(** The two uploads do. *)
Definition upload_handlers (R : World -> World -> Prop) : Prop :=
  (forall request file room fingerprint label,
     steps R (await (upload_voice request file room fingerprint label)))
  /\ (forall request file room fingerprint label,
        steps R (await (upload_blob request file room fingerprint label))).

Definition every_handler (R : World -> World -> Prop) : Prop :=
  handlers_without_upload R /\ upload_handlers R.

End EveryHandler.

(** A frame the loop of [ws_room] passes over: text that is no JSON, or an
    object whose ["type"] is not ["msg"]. *)
Definition ignored_frame {P : Platform} (raw : string) : bool :=
  match json_loads raw with
  | None => true
  | Some (JObj data) =>
      match dict_get "type" data with
      | JStr "msg" => false
      | _ => true
      end
  | Some _ => false
  end.

(** A member the stream handler is written for: a string, or none ([null]
    or no such key). *)
Definition text_member (v : json) : bool :=
  match v with
  | JStr _ | JNull => true
  | _ => false
  end.

(** The members it reads from a frame of type ["msg"] are of that kind. *)
Definition text_members (data : list (string * json)) : bool :=
  forallb (fun k => text_member (dict_get k data))
          ["fingerprint"; "label"; "content_type"; "content"; "file_ref"].




(** The second world is the first with more entries in its log. *)
Definition only_logs (w w' : World) : Prop :=
  exists evs, w' = set_log (log w ++ evs) w.

(** [archive_world] ten readings of the clock later. *)
Definition later_world : World := set_ticks 10 archive_world.

(** * Theorems *)

(** Unfolding of the monad and of the storage layer. *)
Ltac mstep :=
  cbv beta iota zeta delta
    [bind ret raise try_except try_finally record utcnow read_db write_db
     storage_write expr_stmt await
     select_device_by_fingerprint select_device_by_label select_room_by_name
     add_commit_device commit_device add_commit_room add_commit_message
     set_db set_ticks set_log set_ROOM_CLIENTS set_gone set_outbox
     set_audio_files set_blob_files
     db utc ticks ROOM_CLIENTS gone outbox audio_files blob_files log
     devices rooms messages faults].

(** ** The string operations on small inputs *)

Example str_strip_both_ends : str_strip "  a b  " = "a b".
Proof. reflexivity. Qed.

Example str_strip_blank : str_strip "   " = "".
Proof. reflexivity. Qed.

Example str_lower_mixed : str_lower "Audio/OGG" = "audio/ogg".
Proof. reflexivity. Qed.

Example str_in_inner : str_in ".." "a..b" = true /\ str_in ".." "a.b.c" = false.
Proof. split; reflexivity. Qed.

Example pick_ext_table :
  _pick_ext (mkUploadFile (Some " Audio/OGG; codecs=opus") None []) = "ogg".
Proof. reflexivity. Qed.

Example pick_ext_substring :
  _pick_ext (mkUploadFile (Some "audio/x-m4a") None []) = "m4a".
Proof. reflexivity. Qed.

Example pick_ext_default :
  _pick_ext (mkUploadFile None (Some "note.txt") []) = "webm".
Proof. reflexivity. Qed.

Example pick_ext_from_upload_name :
  pick_ext_from_upload (P := sample_platform)
    (mkUploadFile (Some "application/x-unknown") (Some "notes.tar.gz") [])
  = "gz".
Proof. reflexivity. Qed.

Example pick_ext_from_upload_bin :
  pick_ext_from_upload (P := sample_platform) (mkUploadFile None None []) = "bin".
Proof. reflexivity. Qed.

(** ** The storage layer extends the log and raises what it recorded *)

Lemma same_hub_refl (w : World) : same_hub w w.
Proof. repeat split. Qed.

Lemma same_hub_trans (w1 w2 w3 : World) :
  same_hub w1 w2 -> same_hub w2 w3 -> same_hub w1 w3.
Proof.
  intros (a & b & c) (d & e & f). repeat split; congruence.
Qed.

Lemma storage_op_ret {A} (a : A) : storage_op (ret a).
Proof.
  intros w. exists []. simpl. rewrite app_nil_r. repeat split.
Qed.

Lemma storage_op_bind {A B} (m : M A) (k : A -> M B) :
  storage_op m -> (forall a, storage_op (k a)) -> storage_op (bind m k).
Proof.
  intros Hm Hk w. destruct (Hm w) as (evs & Hlog & Hb & Hf & Hh).
  unfold bind. destruct (m w) as [[a|e] w1] eqn:E; simpl in *.
  - destruct (Hk a w1) as (evs' & Hlog' & Hb' & Hf' & Hh').
    exists (evs ++ evs'). rewrite Hlog', Hlog, app_assoc.
    unfold broadcasts, failures in *. rewrite !omap_app, Hb, Hb', Hf, Hf'.
    eauto using same_hub_trans.
  - exists evs. auto.
Qed.

Lemma storage_op_record (ev : Event) :
  broadcasts [ev] = [] -> failures [ev] = [] -> storage_op (record ev).
Proof.
  intros Hb Hf w. exists [ev].
  split; [reflexivity|]. split; [exact Hb|]. split; [exact Hf|].
  repeat split.
Qed.

Lemma storage_op_fail {A} (e : exn) :
  storage_op (A := A) (record (EvCommitFailed e) ;; raise e).
Proof. intros w. exists [EvCommitFailed e]. repeat split. Qed.

Lemma storage_op_read_db : storage_op read_db.
Proof. intros w. exists []. simpl. rewrite app_nil_r. repeat split. Qed.

Lemma storage_op_write_db (d : Database) : storage_op (write_db d).
Proof. intros w. exists []. simpl. rewrite app_nil_r. repeat split. Qed.

Lemma storage_op_utcnow : storage_op utcnow.
Proof. intros w. exists []. simpl. rewrite app_nil_r. repeat split. Qed.

Ltac storage_op_tac :=
  repeat first
    [ apply storage_op_fail
    | apply storage_op_ret
    | apply storage_op_read_db
    | apply storage_op_write_db
    | apply storage_op_utcnow
    | apply storage_op_record; reflexivity
    | apply storage_op_bind; [|intros ?]
    | match goal with
      | |- storage_op (match ?x with _ => _ end) => destruct x
      end ].

Lemma storage_op_storage_write : storage_op storage_write.
Proof. unfold storage_write. storage_op_tac. Qed.

Lemma storage_op_select_device_by_fingerprint (fp : string) :
  storage_op (select_device_by_fingerprint fp).
Proof. unfold select_device_by_fingerprint. storage_op_tac. Qed.

Lemma storage_op_select_device_by_label (l : string) :
  storage_op (select_device_by_label l).
Proof. unfold select_device_by_label. storage_op_tac. Qed.

Lemma storage_op_select_room_by_name (name : string) :
  storage_op (select_room_by_name name).
Proof. unfold select_room_by_name. storage_op_tac. Qed.

Lemma storage_op_add_commit_device (fp l ua ip1 ip2 : option string) :
  storage_op (add_commit_device fp l ua ip1 ip2).
Proof.
  unfold add_commit_device.
  apply storage_op_bind; [apply storage_op_storage_write|intros _].
  storage_op_tac.
Qed.

Lemma storage_op_commit_device (dev : Device.t) : storage_op (commit_device dev).
Proof.
  unfold commit_device.
  apply storage_op_bind; [apply storage_op_storage_write|intros _].
  storage_op_tac.
Qed.

Lemma storage_op_add_commit_room (name : string) : storage_op (add_commit_room name).
Proof.
  unfold add_commit_room.
  apply storage_op_bind; [apply storage_op_storage_write|intros _].
  storage_op_tac.
Qed.

Lemma storage_op_upsert_device (fp l ip ua : option string) :
  storage_op (upsert_device fp l ip ua).
Proof.
  unfold upsert_device.
  apply storage_op_bind.
  { destruct fp as [[|c fp]|];
      auto using storage_op_ret, storage_op_select_device_by_fingerprint. }
  intros dev. apply storage_op_bind.
  { destruct dev; [apply storage_op_ret|].
    destruct l as [[|c l]|];
      auto using storage_op_ret, storage_op_select_device_by_label. }
  intros [dev'|].
  - apply storage_op_bind; [apply storage_op_utcnow|intros t].
    apply storage_op_commit_device.
  - apply storage_op_add_commit_device.
Qed.

Lemma storage_op_ensure_room (name : string) : storage_op (ensure_room name).
Proof.
  unfold ensure_room.
  apply storage_op_bind; [apply storage_op_select_room_by_name|].
  intros [room|]; [apply storage_op_ret | apply storage_op_add_commit_room].
Qed.

(** ** Identity resolution *)

Lemma fold_max_nonneg (ids : list Z) : 0 <= fold_right Z.max 0 ids.
Proof. induction ids as [|i ids IH]; simpl; lia. Qed.

Lemma fold_max_app (ids : list Z) (i : Z) :
  i <= fold_right Z.max 0 (ids ++ [i]).
Proof. induction ids as [|j ids IH]; simpl; lia. Qed.

Lemma next_id_fresh (ids : list Z) : next_id (ids ++ [next_id ids]) ≠ next_id ids.
Proof.
  pose proof (fold_max_app ids (next_id ids)) as Hge.
  unfold next_id in *. lia.
Qed.

(** C10.  Called with neither fingerprint nor label, [upsert_device] runs no
    query and inserts a new row each time: two calls in a row with the same
    arguments give two devices with distinct ids, and the log of the run
    holds the two inserts and nothing else. *)
Theorem upsert_device_anonymous_twice (ip ua : option string) (w : World) :
  commits_succeed 2 w = true ->
  exists d1 w1 d2 w2,
    upsert_device None None ip ua w = (Returned d1, w1)
    /\ upsert_device None None ip ua w1 = (Returned d2, w2)
    /\ Device.id d1 <> Device.id d2
    /\ devices (db w2) = devices (db w) ++ [d1; d2]
    /\ log w2 = log w ++ [EvInsertDevice (Device.id d1);
                          EvInsertDevice (Device.id d2)].
Proof.
  destruct w as [[dv rm ms fl] u t rc g o af bf lg].
  unfold commits_succeed; simpl.
  intros Hok.
  destruct fl as [|[|] [|[|] fl]]; simpl in Hok; try discriminate;
    do 4 eexists;
    (split; [unfold upsert_device; mstep; reflexivity|]);
    (split; [unfold upsert_device; mstep; reflexivity|]);
    simpl; rewrite ?map_app; simpl;
    (split; [apply not_eq_sym, next_id_fresh|]);
    rewrite <- ?app_assoc; simpl; auto.
Qed.

Lemma upsert_device_anonymous_twice_witness :
  exists d1 w1 d2 w2,
    upsert_device None None (Some "10.0.0.7") None fresh_world = (Returned d1, w1)
    /\ upsert_device None None (Some "10.0.0.7") None w1 = (Returned d2, w2)
    /\ Device.id d1 <> Device.id d2
    /\ devices (db w2) = devices (db fresh_world) ++ [d1; d2]
    /\ log w2 = log fresh_world ++ [EvInsertDevice (Device.id d1);
                                    EvInsertDevice (Device.id d2)].
Proof.
  apply (upsert_device_anonymous_twice (Some "10.0.0.7") None fresh_world).
  reflexivity.
Defined.

(** ** The label fallback of [upsert_device] *)

(** A fingerprint that matches no device does not end the search: a
    non-empty label is looked up next. *)
Lemma upsert_device_label_lookup_after_miss (fp label : string)
    (ip ua : option string) (w : World) :
  fp <> "" -> label <> "" ->
  find (fun dev => bool_decide (Device.device_fingerprint dev = Some fp))
       (devices (db w)) = None ->
  exists evs,
    log (upsert_device (Some fp) (Some label) ip ua w).2
    = log w ++ EvSelectDeviceByFingerprint fp :: EvSelectDeviceByLabel label :: evs.
Proof.
  intros Hfp Hl Hmiss.
  destruct fp as [|c fp]; [congruence|].
  destruct label as [|c' label]; [congruence|].
  destruct w as [[dv rm ms fl] u t rc g o af bf lg]. simpl in Hmiss.
  unfold upsert_device. mstep. rewrite Hmiss. mstep.
  destruct (find (fun dev0 => bool_decide (Device.label dev0 = _)) dv)
    as [dev|]; mstep.
  - destruct fl as [|[|] fl]; simpl; rewrite <- ?app_assoc; simpl; eauto.
  - destruct fl as [|[|] fl]; simpl;
      repeat match goal with
             | |- context [if ?b then _ else _] => destruct b; simpl
             end;
      rewrite <- ?app_assoc; simpl; eauto.
Qed.

(** C4, at an input where it fails.  The only device has fingerprint
    ["fp-A"] and label ["Phone"].  A call with the unknown fingerprint
    ["fp-B"] and the label ["Phone"] runs the query by label, is given the
    device of ["fp-A"], and creates nothing. *)
Theorem upsert_device_unknown_fingerprint_matches_label :
  exists dev w',
    upsert_device (Some "fp-B") (Some "Phone") None None phone_world
    = (Returned dev, w')
    /\ Device.id dev = 1
    /\ Device.device_fingerprint dev = Some "fp-A"
    /\ log w' = [EvSelectDeviceByFingerprint "fp-B";
                 EvSelectDeviceByLabel "Phone";
                 EvUpdateDevice 1]
    /\ map Device.device_fingerprint (devices (db w')) = [Some "fp-A"].
Proof. do 2 eexists. vm_compute. auto 10. Qed.

(** C5, at an input where it fails.  In the same world, two calls in a row
    with fingerprint ["fp-B"] and label ["Phone"] both return device 1, and
    the table ends with no row for ["fp-B"], where the claim wants one. *)
Theorem upsert_device_twice_leaves_no_fingerprint_row :
  exists d1 w1 d2 w2,
    upsert_device (Some "fp-B") (Some "Phone") None None phone_world
    = (Returned d1, w1)
    /\ upsert_device (Some "fp-B") (Some "Phone") None None w1
       = (Returned d2, w2)
    /\ Device.id d1 = 1 /\ Device.id d2 = 1
    /\ filter (fun dev => Device.device_fingerprint dev = Some "fp-B")
              (devices (db w2)) = [].
Proof.
  do 4 eexists. split; [vm_compute; reflexivity|].
  split; [vm_compute; reflexivity|]. vm_compute. auto.
Qed.

(** ** Resolving a fingerprint twice, away from the label fallback *)

Lemma find_none_existsb {A} (P : A -> bool) (l : list A) :
  find P l = None <-> existsb P l = false.
Proof.
  induction l as [|x l IH]; simpl; [tauto|].
  destruct (P x); simpl; [split; discriminate|exact IH].
Qed.

(** One call of [upsert_device] with a non-empty fingerprint, on storage
    that takes the commit: the device the queries found is rewritten in
    place, and when they found none a row with the fingerprint is added. *)
Lemma upsert_device_run (c : ascii) (fp : string) (label ip ua : option string)
    (w : World) :
  commits_succeed 1 w = true ->
  exists dev' w',
    upsert_device (Some (String c fp)) label ip ua w = (Returned dev', w')
    /\ faults (db w') = tl (faults (db w))
    /\ match lookup_device (Some (String c fp)) label (devices (db w)) with
       | Some dev =>
           Device.id dev' = Device.id dev
           /\ Device.device_fingerprint dev' = Device.device_fingerprint dev
           /\ devices (db w') = rewrite_row dev' (devices (db w))
       | None =>
           Device.id dev' = next_id (map Device.id (devices (db w)))
           /\ Device.device_fingerprint dev' = Some (String c fp)
           /\ devices (db w') = devices (db w) ++ [dev']
       end.
Proof.
  destruct w as [[dv rm ms fl] u t rc g o af bf lg].
  unfold commits_succeed, lookup_device. simpl. intros Hok.
  assert (Hclash : find (fun dev => bool_decide
                           (Device.device_fingerprint dev = Some (String c fp)))
                        dv = None ->
                   existsb (fun dev => bool_decide
                              (Device.device_fingerprint dev = Some (String c fp)))
                           dv = false) by apply find_none_existsb.
  unfold upsert_device. mstep.
  destruct (find (fun dev => bool_decide (Device.device_fingerprint dev = _)) dv)
    as [dev|] eqn:Hfp; [|specialize (Hclash eq_refl)];
    (destruct label as [[|c' l]|]; mstep;
     [ | destruct (find (fun dev => bool_decide (Device.label dev = _)) dv)
           as [dev'|]; mstep | ]);
    rewrite ?Hclash;
    (destruct fl as [|[|] fl]; try discriminate); mstep; simpl; rewrite ?Hclash;
    do 2 eexists; (split; [reflexivity|]); simpl;
    repeat match goal with
           | |- context [if ?b then _ else _] => destruct b
           end;
    auto.
Qed.

Lemma rows_with_column (fp : string) (devs : list Device.t) :
  rows_with fp devs
  = length (filter (fun o => o = Some fp) (map Device.device_fingerprint devs)).
Proof.
  unfold rows_with. induction devs as [|dev devs IH]; [reflexivity|].
  simpl. rewrite !filter_cons.
  destruct (decide (Device.device_fingerprint dev = Some fp)); simpl; auto.
Qed.

Lemma rows_with_unknown (fp : string) (devs : list Device.t) :
  known_fingerprint fp devs = false -> rows_with fp devs = 0%nat.
Proof.
  unfold known_fingerprint, rows_with.
  induction devs as [|dev devs IH]; [reflexivity|]. simpl.
  rewrite filter_cons. case_bool_decide; simpl; [discriminate|].
  destruct (decide _); [contradiction|]. exact IH.
Qed.

Lemma rows_with_known (fp : string) (devs : list Device.t) :
  known_fingerprint fp devs = true -> (1 <= rows_with fp devs)%nat.
Proof.
  unfold known_fingerprint, rows_with.
  induction devs as [|dev devs IH]; [discriminate|]. simpl.
  rewrite filter_cons. case_bool_decide; simpl.
  - destruct (decide _); [simpl; lia|contradiction].
  - intros Hex. destruct (decide _); simpl; auto.
Qed.

(** Rewriting the row of [dev] leaves the fingerprint column alone when
    every row with the id of [dev] has the fingerprint of [dev]. *)
Lemma rewrite_row_column (dev : Device.t) (devs : list Device.t) :
  (forall row, row ∈ devs -> Device.id row = Device.id dev ->
               Device.device_fingerprint row = Device.device_fingerprint dev) ->
  map Device.device_fingerprint (rewrite_row dev devs)
  = map Device.device_fingerprint devs.
Proof.
  unfold rewrite_row. induction devs as [|row devs IH]; intros Hsame;
    [reflexivity|].
  simpl. rewrite IH by (intros; apply Hsame; [right|]; assumption).
  destruct (Z.eqb_spec (Device.id row) (Device.id dev)) as [Heq|Hne];
    [|reflexivity].
  rewrite (Hsame row); [reflexivity|left|exact Heq].
Qed.

Lemma rewrite_row_elem (dev row : Device.t) (devs : list Device.t) :
  row ∈ rewrite_row dev devs -> Device.id row = Device.id dev -> row = dev.
Proof.
  unfold rewrite_row. intros Hin Hid.
  apply list_elem_of_fmap in Hin as (r & -> & _).
  destruct (Z.eqb_spec (Device.id r) (Device.id dev)); congruence.
Qed.

Lemma find_rewrite_row (fp : string) (dev found : Device.t)
    (devs : list Device.t) :
  (forall row, row ∈ devs -> Device.id row = Device.id dev ->
               Device.device_fingerprint row = Device.device_fingerprint dev) ->
  find (fun d => bool_decide (Device.device_fingerprint d = Some fp)) devs
  = Some found ->
  Device.id found = Device.id dev ->
  find (fun d => bool_decide (Device.device_fingerprint d = Some fp))
       (rewrite_row dev devs)
  = Some dev.
Proof.
  unfold rewrite_row. induction devs as [|row devs IH]; intros Hsame Hfind Hid;
    [discriminate|].
  simpl in *.
  destruct (Z.eqb_spec (Device.id row) (Device.id dev)) as [Heq|Hne].
  - rewrite <- (Hsame row) by (auto; left).
    destruct (bool_decide (Device.device_fingerprint row = Some fp));
      [reflexivity|].
    apply IH; auto. intros; apply Hsame; [right|]; assumption.
  - destruct (bool_decide (Device.device_fingerprint row = Some fp)).
    + congruence.
    + apply IH; auto. intros; apply Hsame; [right|]; assumption.
Qed.

Lemma find_app_miss {A} (P : A -> bool) (l : list A) (x : A) :
  find P l = None -> P x = true -> find P (l ++ [x]) = Some x.
Proof.
  induction l as [|y l IH]; simpl; intros Hmiss Hx.
  - rewrite Hx. reflexivity.
  - destruct (P y); [discriminate|]. auto.
Qed.

Lemma next_id_above (ids : list Z) (i : Z) : i ∈ ids -> i < next_id ids.
Proof.
  unfold next_id. induction ids as [|j ids IH]; intros Hin.
  - inversion Hin.
  - simpl. apply elem_of_cons in Hin as [->|Hin]; [lia|].
    specialize (IH Hin). lia.
Qed.

Lemma NoDup_ids_inj (devs : list Device.t) (r1 r2 : Device.t) :
  NoDup (map Device.id devs) -> r1 ∈ devs -> r2 ∈ devs ->
  Device.id r1 = Device.id r2 -> r1 = r2.
Proof.
  induction devs as [|dev devs IH]; intros Hnd H1 H2 Hid; [inversion H1|].
  simpl in Hnd. apply NoDup_cons in Hnd as [Hfresh Hnd].
  apply elem_of_cons in H1 as [->|H1]; apply elem_of_cons in H2 as [->|H2];
    auto.
  - exfalso. apply Hfresh. rewrite Hid. apply list_elem_of_fmap_2. exact H2.
  - exfalso. apply Hfresh. rewrite <- Hid. apply list_elem_of_fmap_2. exact H1.
Qed.

(** Once the fingerprint is in the table, on a row that alone has its id, a
    further call returns that row's id and keeps the count of rows with the
    fingerprint. *)
Lemma upsert_device_known_run (c : ascii) (fp : string)
    (label ip ua : option string) (d1 : Device.t) (w : World) :
  commits_succeed 1 w = true ->
  find (fun d => bool_decide (Device.device_fingerprint d = Some (String c fp)))
       (devices (db w)) = Some d1 ->
  (forall row, row ∈ devices (db w) -> Device.id row = Device.id d1 -> row = d1) ->
  exists d2 w2,
    upsert_device (Some (String c fp)) label ip ua w = (Returned d2, w2)
    /\ Device.id d2 = Device.id d1
    /\ rows_with (String c fp) (devices (db w2))
       = rows_with (String c fp) (devices (db w)).
Proof.
  intros Hok Hfind Halone.
  destruct (upsert_device_run c fp label ip ua w Hok)
    as (d2 & w2 & Hrun & _ & Hcase).
  unfold lookup_device in Hcase. rewrite Hfind in Hcase.
  destruct Hcase as (Hid & Hfp & Hdevs).
  exists d2, w2. split; [exact Hrun|]. split; [exact Hid|].
  rewrite !rows_with_column, Hdevs, rewrite_row_column; [reflexivity|].
  intros row Hrow Hrid. rewrite (Halone row Hrow) by congruence.
  symmetry. exact Hfp.
Qed.

(** X20.  Outside the label fallback two calls agree: when the fingerprint is
    already known, or the label is empty, absent or carried by no device, two
    calls in a row with a non-empty fingerprint return the same device id and
    leave exactly one row with that fingerprint. *)
Lemma upsert_device_fingerprint_idempotent (c : ascii) (fp : string)
    (label ip ua : option string) (w : World) :
  commits_succeed 2 w = true ->
  NoDup (map Device.id (devices (db w))) ->
  (rows_with (String c fp) (devices (db w)) <= 1)%nat ->
  known_fingerprint (String c fp) (devices (db w))
  || no_label_match label (devices (db w)) = true ->
  exists d1 w1 d2 w2,
    upsert_device (Some (String c fp)) label ip ua w = (Returned d1, w1)
    /\ upsert_device (Some (String c fp)) label ip ua w1 = (Returned d2, w2)
    /\ Device.id d1 = Device.id d2
    /\ rows_with (String c fp) (devices (db w2)) = 1%nat.
Proof.
  intros Hok Hids Hunique Hcase.
  assert (Hok1 : commits_succeed 1 w = true).
  { unfold commits_succeed in *. destruct (faults (db w)) as [|[|] fl];
      simpl in *; auto. }
  destruct (upsert_device_run c fp label ip ua w Hok1)
    as (d1 & w1 & Hrun1 & Hfaults & Hlook).
  assert (Hok2 : commits_succeed 1 w1 = true).
  { unfold commits_succeed in *. rewrite Hfaults.
    destruct (faults (db w)) as [|[|] [|[|] fl]]; simpl in *; auto. }
  set (f := String c fp) in *.
  set (has := fun d => bool_decide (Device.device_fingerprint d = Some f)).
  assert (Hstate : find has (devices (db w1)) = Some d1
                   /\ (forall row, row ∈ devices (db w1) ->
                                   Device.id row = Device.id d1 -> row = d1)
                   /\ rows_with f (devices (db w1)) = 1%nat).
  { unfold lookup_device in Hlook. fold f has in Hlook.
    destruct (find has (devices (db w))) as [dev|] eqn:Hfind.
    - destruct Hlook as (Hid & Hfp & Hdevs).
      assert (Hdev : dev ∈ devices (db w) /\ has dev = true).
      { apply find_some in Hfind as [Hin Hhas].
        split; [apply list_elem_of_In; exact Hin|exact Hhas]. }
      destruct Hdev as [Hdev Hhas].
      assert (Hsame : forall row, row ∈ devices (db w) ->
                        Device.id row = Device.id d1 ->
                        Device.device_fingerprint row
                        = Device.device_fingerprint d1).
      { intros row Hrow Hrid.
        rewrite (NoDup_ids_inj _ row dev Hids Hrow Hdev) by congruence.
        symmetry. exact Hfp. }
      rewrite Hdevs. split; [|split].
      + eapply find_rewrite_row; eauto.
      + intros row Hrow Hrid. eapply rewrite_row_elem; eauto.
      + rewrite rows_with_column, rewrite_row_column, <- rows_with_column
          by exact Hsame.
        assert (known_fingerprint f (devices (db w)) = true) as Hknown.
        { unfold known_fingerprint.
          destruct (existsb _ _) eqn:E; [reflexivity|].
          apply find_none_existsb in E. fold f has in E. congruence. }
        apply rows_with_known in Hknown. lia.
    - assert (Hunknown : known_fingerprint f (devices (db w)) = false)
        by (apply find_none_existsb; exact Hfind).
      rewrite Hunknown in Hcase. simpl in Hcase.
      assert (Hnone : match label with
                      | Some (String _ _ as l) =>
                          find (fun dev => bool_decide (Device.label dev = Some l))
                               (devices (db w))
                      | _ => None
                      end = None).
      { unfold no_label_match in Hcase.
        destruct label as [[|c' l]|]; auto.
        apply find_none_existsb. apply negb_true_iff. exact Hcase. }
      assert (Hlook' : Device.id d1 = next_id (map Device.id (devices (db w)))
                       /\ Device.device_fingerprint d1 = Some f
                       /\ devices (db w1) = devices (db w) ++ [d1]).
      { destruct label as [[|c' l]|]; try exact Hlook.
        rewrite Hnone in Hlook. exact Hlook. }
      destruct Hlook' as (Hid & Hfp & Hdevs).
      rewrite Hdevs. split; [|split].
      + apply find_app_miss; [exact Hfind|].
        unfold has. apply bool_decide_eq_true_2. exact Hfp.
      + intros row Hrow Hrid.
        apply elem_of_app in Hrow as [Hrow|Hrow].
        * exfalso.
          pose proof (next_id_above (map Device.id (devices (db w)))
                        (Device.id row) (list_elem_of_fmap_2 _ _ _ Hrow)).
          lia.
        * apply list_elem_of_singleton in Hrow. exact Hrow.
      + unfold rows_with. rewrite filter_app, length_app.
        fold (rows_with f (devices (db w))).
        rewrite (rows_with_unknown _ _ Hunknown).
        rewrite filter_cons. destruct (decide _); [reflexivity|contradiction]. }
  destruct Hstate as (Hfind1 & Halone & Hone).
  destruct (upsert_device_known_run c fp label ip ua d1 w1 Hok2 Hfind1 Halone)
    as (d2 & w2 & Hrun2 & Hid2 & Hrows).
  exists d1, w1, d2, w2.
  split; [exact Hrun1|]. split; [exact Hrun2|]. split; [symmetry; exact Hid2|].
  subst f. rewrite Hrows. exact Hone.
Qed.

Lemma upsert_device_fingerprint_idempotent_example :
  exists d1 w1 d2 w2,
    upsert_device (Some "fp-A") (Some "Phone") None None phone_world
    = (Returned d1, w1)
    /\ upsert_device (Some "fp-A") (Some "Phone") None None w1 = (Returned d2, w2)
    /\ Device.id d1 = Device.id d2
    /\ rows_with "fp-A" (devices (db w2)) = 1%nat.
Proof.
  apply (upsert_device_fingerprint_idempotent "f" "p-A" (Some "Phone") None None
           phone_world).
  - reflexivity.
  - repeat constructor. apply not_elem_of_nil.
  - vm_compute. lia.
  - reflexivity.
Defined.

(** ** The broadcast hub *)

Section Hub.
Context {P : Platform}.

(** The first loop of [_broadcast_room] changes nothing and finds nobody
    dead: no coroutine it builds is ever run. *)
Lemma broadcast_sends_inert (payload : json) (clients dead : list WebSocket)
    (w : World) :
  broadcast_sends payload clients dead w = (Returned dead, w).
Proof.
  revert dead w. induction clients as [|ws rest IH]; intros dead w.
  - reflexivity.
  - simpl. unfold bind at 1. unfold try_except, expr_stmt, bind, ret.
    apply IH.
Qed.

(** [_broadcast_room] returns normally, and all it leaves behind is the
    entry of its call in the log. *)
Lemma broadcast_room_inert (room : string) (payload : json) (w : World) :
  _broadcast_room room payload w
  = (Returned tt, set_log (log w ++ [EvBroadcast room payload]) w).
Proof.
  unfold _broadcast_room, bind, record, get_clients.
  rewrite broadcast_sends_inert. reflexivity.
Qed.

End Hub.

(** C1, at the input where it fails.  Room ["alpha"] has the live
    subscriber 1 and the dead subscriber 2.  [_broadcast_room] returns
    without raising, but nothing reaches connection 1, and connection 2 stays
    in the set. *)
Theorem broadcast_room_delivers_nothing {P : Platform} (payload : json) :
  exists w',
    _broadcast_room "alpha" payload hub_world = (Returned tt, w')
    /\ outbox w' !! 1%nat = None
    /\ ROOM_CLIENTS w' !! "alpha" = Some {[1%nat; 2%nat]}.
Proof.
  eexists. rewrite broadcast_room_inert. repeat split.
Qed.

(** ** Persist, then broadcast *)

Lemma add_commit_message_cases (room_id : Z) (device_id : option Z)
    (content_type : string) (content file_ref ip ua : option string) (w : World) :
  let run := add_commit_message room_id device_id content_type content
                                file_ref ip ua w in
  (run.1 = Raised OperationalError
   /\ log run.2 = log w ++ [EvCommitFailed OperationalError]
   /\ messages (db run.2) = messages (db w))
  \/ (exists msg,
        run.1 = Returned msg
        /\ log run.2 = log w ++ [EvInsertMessage (Message.id msg)]
        /\ messages (db run.2) = messages (db w) ++ [msg]
        /\ Message.room_id msg = room_id
        /\ Message.content msg = content).
Proof.
  destruct w as [[dv rm ms fl] u t rc g o af bf lg].
  destruct fl as [|[|] fl]; [right|left|right];
    unfold add_commit_message; mstep; simpl; eauto 10.
Qed.

Lemma commit_before_broadcast_ret {A} (a : A) (w : World) :
  commit_before_broadcast w (ret a w).
Proof.
  exists []. simpl. rewrite app_nil_r. repeat split; try tauto; discriminate.
Qed.

Lemma commit_before_broadcast_raise {A} (e : exn) (w : World) :
  commit_before_broadcast (A := A) w (raise e w).
Proof.
  exists []. simpl. rewrite app_nil_r. repeat split; tauto.
Qed.

Lemma commit_before_broadcast_bind {A B} (m : M A) (k : A -> M B) :
  storage_op m ->
  (forall a w1, commit_before_broadcast w1 (k a w1)) ->
  forall w, commit_before_broadcast w (bind m k w).
Proof.
  intros Hm Hk w. destruct (Hm w) as (evs0 & Hlog & Hb & Hf & _).
  unfold bind. destruct (m w) as [[a|e] w1]; simpl in *.
  - destruct (Hk a w1) as (evs1 & Hlog1 & Hfail & Hraise & Hcast).
    exists (evs0 ++ evs1). rewrite Hlog1, Hlog, app_assoc.
    unfold failures, broadcasts in *. rewrite !omap_app, Hb, Hf. simpl.
    repeat split; auto.
    intros room data Hin. destruct (Hcast room data Hin) as (pre & msg & -> & ? & ? & ?).
    exists (evs0 ++ pre), msg. rewrite omap_app, Hb, app_assoc. auto.
  - exists evs0. unfold failures, broadcasts in *. rewrite Hb, Hf. simpl.
    repeat split; auto.
    + intros e' [->|[]]. reflexivity.
    + intros ? ? [].
Qed.

Section Ingest.
Context {P : Platform}.

(** The tail shared by every ingestion path: commit the message, then call
    the broadcast with a payload that carries its id. *)
Lemma commit_before_broadcast_append {A} (room_id : Z) (device_id : option Z)
    (content_type : string) (content file_ref ip ua : option string)
    (room : string) (payload : Message.t -> json) (result : Message.t -> A)
    (w : World) :
  (forall msg, json_get "id" (payload msg) = JInt (Message.id msg)) ->
  commit_before_broadcast w
    ((let* msg := add_commit_message room_id device_id content_type content
                                     file_ref ip ua in
      _broadcast_room room (payload msg) ;; ret (result msg)) w).
Proof.
  intros Hid.
  destruct (add_commit_message_cases room_id device_id content_type content
              file_ref ip ua w) as [(Hr & Hlog & Hm)|(msg & Hr & Hlog & Hm & _)];
    unfold bind;
    destruct (add_commit_message room_id device_id content_type content
                file_ref ip ua w) as [r w1]; simpl in *; subst r.
  - exists [EvCommitFailed OperationalError]. simpl.
    repeat split; auto.
    + intros e [->|[]]. reflexivity.
    + intros ? ? [].
  - rewrite broadcast_room_inert. simpl.
    exists [EvInsertMessage (Message.id msg); EvBroadcast room (payload msg)].
    rewrite Hlog, <- app_assoc. simpl.
    repeat split; try tauto; try discriminate.
    intros room' data [[= <- <-]|[]].
    exists [], msg. rewrite Hm. repeat split; auto.
    apply in_or_app. right. left. reflexivity.
Qed.

Lemma post_message_commit_before_broadcast (payload : MessageIn.t)
    (request : Request) (w : World) :
  commit_before_broadcast w (post_message payload request w).
Proof.
  unfold post_message.
  apply commit_before_broadcast_bind; [apply storage_op_ensure_room|].
  intros room w1.
  apply commit_before_broadcast_bind; [apply storage_op_upsert_device|].
  intros dev w2.
  apply (commit_before_broadcast_append _ _ _ _ _ _ _ _
           (msg_payload room dev (resolve_ip request))).
  reflexivity.
Qed.

Lemma ws_message_commit_before_broadcast (room : string)
    (data : list (string * json)) (w : World) :
  commit_before_broadcast w (ws_message room data w).
Proof.
  unfold ws_message.
  apply commit_before_broadcast_bind; [apply storage_op_upsert_device|].
  intros dev w1.
  apply commit_before_broadcast_bind; [apply storage_op_ensure_room|].
  intros room_row w2.
  pose proof (fun payload Hid =>
    commit_before_broadcast_append (A := unit) (Room.id room_row)
      (Some (Device.id dev))
      match json_str (dict_get "content_type" data) with
      | Some (String _ _ as ct) => ct
      | _ => "text"
      end
      (json_str (dict_get "content" data)) (json_str (dict_get "file_ref" data))
      None None (Room.name room_row) payload (fun _ => tt) w2 Hid) as Happ.
  specialize (Happ (fun msg =>
    JObj [("type", JStr "msg");
          ("room", JStr (Room.name room_row));
          ("device", JObj [("id", JInt (Device.id dev));
                           ("label", opt_str (Device.label dev));
                           ("ip", JNull)]);
          ("content_type", JStr (Message.content_type msg));
          ("content", opt_str (Message.content msg));
          ("file_ref", opt_str (Message.file_ref msg));
          ("ts", JStr (isoformat (Message.created_at msg)));
          ("id", JInt (Message.id msg))]) (fun _ => eq_refl)).
  destruct Happ as (evs & Hlog & Hfail & Hraise & Hcast).
  exists evs. unfold bind in *.
  destruct (add_commit_message _ _ _ _ _ _ _ w2) as [[msg|e] w3]; simpl in *.
  - rewrite broadcast_room_inert in *. simpl in *. auto.
  - auto.
Qed.

Lemma ws_frame_commit_before_broadcast (room raw : string) (w : World) :
  commit_before_broadcast w (ws_frame room raw w).
Proof.
  unfold ws_frame.
  destruct (json_loads raw) as [[| | | | |data]|];
    try apply commit_before_broadcast_raise;
    try apply commit_before_broadcast_ret.
  destruct (dict_get "type" data) as [| | |s| |];
    try apply commit_before_broadcast_ret.
  destruct (String.eqb_spec s "msg") as [->|Hne].
  - apply ws_message_commit_before_broadcast.
  - assert (match s with
            | "msg" => ws_message room data
            | _ => ret tt
            end = ret tt) as ->; [|apply commit_before_broadcast_ret].
    repeat (destruct s as [|[[] [] [] [] [] [] [] []] s]; try reflexivity);
      exfalso; apply Hne; reflexivity.
Qed.

End Ingest.

(** C3.  On both ingestion paths, the HTTP handler and the handling of one
    frame, a broadcast is called only as the last step, right after the commit
    of the message it carries; a failed storage write is raised to the caller,
    and a run that raises has called no broadcast. *)
Theorem ingestion_commits_before_broadcast {P : Platform} (payload : MessageIn.t)
    (request : Request) (room raw : string) (w : World) :
  commit_before_broadcast w (post_message payload request w)
  /\ commit_before_broadcast w (ws_frame room raw w).
Proof.
  split.
  - apply post_message_commit_before_broadcast.
  - apply ws_frame_commit_before_broadcast.
Qed.

(** The write of the message fails (the third commit of the request): the
    request raises, nothing was broadcast, no message is stored. *)
Example post_message_storage_failure :
  let run := post_message (P := sample_platform)
               (MessageIn.mk "alpha" "text" (Some "hi") None (Some "fp-1") None)
               (mkRequest (Some "10.0.0.7") None)
               (with_faults [false; false; true] fresh_world) in
  run.1 = Raised OperationalError
  /\ broadcasts (log run.2) = []
  /\ messages (db run.2) = [].
Proof. vm_compute. auto. Qed.

(** The same request on healthy storage: room, device and message are
    committed, then the broadcast is called. *)
Example post_message_healthy :
  let run := post_message (P := sample_platform)
               (MessageIn.mk "alpha" "text" (Some "hi") None (Some "fp-1") None)
               (mkRequest (Some "10.0.0.7") None)
               fresh_world in
  run.1 = Returned (JObj [("ok", JBool true); ("id", JInt 1)])
  /\ map Message.content (messages (db run.2)) = [Some "hi"]
  /\ exists data,
       log run.2 = [EvSelectRoom "alpha"; EvInsertRoom 1;
                    EvSelectDeviceByFingerprint "fp-1"; EvInsertDevice 1;
                    EvInsertMessage 1; EvBroadcast "alpha" data]
       /\ json_get "content" data = JStr "hi"
       /\ json_get "id" data = JInt 1.
Proof. vm_compute. eauto 10. Qed.

(** The frame [{"type": "msg", "content": "hi"}] when the write of the
    message fails: the frame raises and nothing was broadcast. *)
Example ws_frame_storage_failure :
  let run := ws_frame (P := sample_platform) "alpha" frame_hi
               (with_faults [false; false; true] fresh_world) in
  run.1 = Raised OperationalError
  /\ broadcasts (log run.2) = []
  /\ messages (db run.2) = [].
Proof. vm_compute. auto. Qed.

(** ** The streaming endpoint *)

Section Streaming.
Context {P : Platform}.

(** The [finally] block of [ws_room], run: the connection leaves the set of
    its room, and the new count goes to that same connection when its peer is
    still there. *)
Lemma ws_finally_run (ws : WebSocket) (room : string) (w : World) :
  ws_finally ws room w =
  let w1 := (clients_discard room ws w).2 in
  (Returned tt,
   if bool_decide (ws ∈ gone w) then w1
   else set_outbox
          (<[ws := default [] (outbox w !! ws)
                   ++ [json_dumps
                         (presence room
                            (size (default ∅ (ROOM_CLIENTS w1 !! room))))]]>
             (outbox w)) w1).
Proof.
  unfold ws_finally, clients_discard, bind, try_except, get_clients, await,
    send_text, transmit, ret.
  destruct (ROOM_CLIENTS w !! room) as [s|] eqn:E; simpl;
    case_bool_decide; simpl; try rewrite E; reflexivity.
Qed.

Lemma clients_discard_lookup (ws : WebSocket) (room : string) (w : World) :
  default ∅ (ROOM_CLIENTS (clients_discard room ws w).2 !! room)
  = default ∅ (ROOM_CLIENTS w !! room) ∖ {[ws]}.
Proof.
  unfold clients_discard.
  destruct (ROOM_CLIENTS w !! room) as [s|] eqn:E; simpl.
  - rewrite lookup_insert_eq. reflexivity.
  - rewrite E. simpl. set_solver.
Qed.

(** C2, as the code has it.  When the handler of a connection ends, the
    connection is removed from the set of its room; the presence event with
    the new count is then sent to that connection alone, and reaches it only
    if its peer is still there (a failed send is ignored).  No other
    connection is sent anything. *)
Theorem ws_finally_presence_to_leaver_only (ws : WebSocket) (room : string)
    (w : World) :
  exists w',
    ws_finally ws room w = (Returned tt, w')
    /\ default ∅ (ROOM_CLIENTS w' !! room)
       = default ∅ (ROOM_CLIENTS w !! room) ∖ {[ws]}
    /\ default [] (outbox w' !! ws)
       = (if bool_decide (ws ∈ gone w) then default [] (outbox w !! ws)
          else default [] (outbox w !! ws)
               ++ [json_dumps
                     (presence room
                        (size (default ∅ (ROOM_CLIENTS w !! room) ∖ {[ws]})))])
    /\ (forall other, other <> ws -> outbox w' !! other = outbox w !! other).
Proof.
  eexists. split; [apply ws_finally_run|].
  pose proof (clients_discard_lookup ws room w) as Hset.
  assert (outbox (clients_discard room ws w).2 = outbox w) as Hout.
  { unfold clients_discard. destruct (ROOM_CLIENTS w !! room); reflexivity. }
  cbv zeta. case_bool_decide; simpl.
  - rewrite Hout. auto.
  - rewrite Hset. split; [reflexivity|]. split.
    + rewrite lookup_insert_eq. reflexivity.
    + intros other Hne. rewrite lookup_insert_ne by congruence. reflexivity.
Qed.

(** A frame whose handling raises ends the handler: the error is not
    [WebSocketDisconnect], so it passes the [except] clause, the [finally]
    block runs, and the error leaves [ws_room]; the frames after it are never
    read. *)
Lemma ws_room_frame_raises (ws : WebSocket) (room raw : string)
    (rest : list string) (e : exn) (w w2 : World) :
  ws ∉ gone w ->
  e <> WebSocketDisconnect ->
  let w1 :=
    set_outbox
      (<[ws := default [] (outbox w !! ws)
               ++ [json_dumps
                     (presence room
                        (size (default ∅ (ROOM_CLIENTS w !! room) ∪ {[ws]})))]]>
         (outbox w))
      (set_ROOM_CLIENTS
         (<[room := default ∅ (ROOM_CLIENTS w !! room) ∪ {[ws]}]> (ROOM_CLIENTS w))
         w) in
  ws_frame room raw w1 = (Raised e, w2) ->
  await (ws_room ws room (raw :: rest)) w
  = (Raised e, (ws_finally ws room w2).2).
Proof.
  intros Hgone Hne w1 Hframe.
  unfold ws_room, ws_try, await, accept, send_text, transmit, clients_add,
    get_clients.
  unfold try_finally, try_except, bind at 1 2 3 4.
  rewrite bool_decide_eq_false_2 by assumption.
  simpl. rewrite lookup_insert_eq. simpl.
  rewrite bool_decide_eq_false_2 by assumption.
  unfold bind at 1. fold w1. rewrite Hframe.
  destruct e; try congruence; unfold raise;
    rewrite ws_finally_run; reflexivity.
Qed.

(** C9, at the inputs where it fails.  A frame that is valid JSON but not an
    object (a list, a number, [null], ...) is not dropped: [data.get] raises
    [AttributeError], which leaves [ws_room]; the connection is taken out of
    its room and the frames after it are never handled (the tables and the
    log are as before the connection came). *)
Theorem ws_room_non_object_frame_is_fatal (ws : WebSocket) (room raw : string)
    (rest : list string) (v : json) (w : World) :
  json_loads raw = Some v ->
  (forall data, v <> JObj data) ->
  ws ∉ gone w ->
  exists w',
    await (ws_room ws room (raw :: rest)) w = (Raised AttributeError, w')
    /\ (ws ∉ default ∅ (ROOM_CLIENTS w' !! room))
    /\ db w' = db w
    /\ log w' = log w.
Proof.
  intros Hload Hshape Hgone.
  eexists. split.
  - apply ws_room_frame_raises; [assumption|discriminate|].
    unfold ws_frame. rewrite Hload.
    destruct v; try reflexivity. exfalso. eapply Hshape. reflexivity.
  - rewrite ws_finally_run. cbv zeta.
    match goal with |- context [clients_discard room ws ?w1] =>
      pose proof (clients_discard_lookup ws room w1) as Hset;
      assert (db (clients_discard room ws w1).2 = db w
              /\ log (clients_discard room ws w1).2 = log w) as [Hdb Hlog]
    end.
    { unfold clients_discard. simpl. rewrite lookup_insert_eq. auto. }
    case_bool_decide; simpl; rewrite Hset, Hdb, Hlog;
      (split; [set_solver|auto]).
Qed.

(** *** A handler sends to its own connection only *)

Lemma hub_op_storage_op {A} (m : M A) : storage_op m -> hub_op m.
Proof. intros Hm w. destruct (Hm w) as (evs & _ & _ & _ & Hhub). exact Hhub. Qed.

Lemma hub_op_bind {A B} (m : M A) (k : A -> M B) :
  hub_op m -> (forall a, hub_op (k a)) -> hub_op (bind m k).
Proof.
  intros Hm Hk w. specialize (Hm w). unfold bind.
  destruct (m w) as [[a|e] w1]; simpl in *; [|exact Hm].
  eapply same_hub_trans; [exact Hm|apply Hk].
Qed.

Lemma hub_op_broadcast_room (room : string) (payload : json) :
  hub_op (_broadcast_room room payload).
Proof. intros w. rewrite broadcast_room_inert. repeat split. Qed.

Lemma hub_op_ws_frame (room raw : string) : hub_op (ws_frame room raw).
Proof.
  assert (Hret : hub_op (ret tt)) by (intros w; repeat split).
  unfold ws_frame.
  destruct (json_loads raw) as [[| | | | |data]|]; try exact Hret;
    try solve [intros w; repeat split].
  assert (Hmsg : hub_op (ws_message room data)).
  { unfold ws_message.
    apply hub_op_bind; [apply hub_op_storage_op, storage_op_upsert_device|].
    intros dev.
    apply hub_op_bind; [apply hub_op_storage_op, storage_op_ensure_room|].
    intros room_row.
    apply hub_op_bind; [|intros msg; apply hub_op_broadcast_room].
    apply hub_op_storage_op. unfold add_commit_message.
    apply storage_op_bind; [apply storage_op_storage_write|intros _].
    storage_op_tac. }
  destruct (dict_get "type" data) as [| | |s| |]; try exact Hret.
  destruct (String.eqb_spec s "msg") as [->|Hne]; [exact Hmsg|].
  assert (match s with
          | "msg" => ws_message room data
          | _ => ret tt
          end = ret tt) as ->; [|exact Hret].
  repeat (destruct s as [|[[] [] [] [] [] [] [] []] s]; try reflexivity);
    exfalso; apply Hne; reflexivity.
Qed.

(** The receive loop neither registers nor sends; at most it learns that
    its own peer is gone. *)
Lemma ws_loop_hub (ws : WebSocket) (room : string) (frames : list string)
    (w : World) :
  ROOM_CLIENTS (ws_loop ws room frames w).2 = ROOM_CLIENTS w
  /\ outbox (ws_loop ws room frames w).2 = outbox w.
Proof.
  revert w. induction frames as [|raw rest IH]; intros w; [split; reflexivity|].
  simpl. unfold bind.
  pose proof (hub_op_ws_frame room raw w) as (Hreg & _ & Hout).
  destruct (ws_frame room raw w) as [[[]|e] w1]; simpl in *; [|auto].
  destruct (IH w1) as [Hreg' Hout']. split; congruence.
Qed.

Lemma try_finally_ws_finally {A} (body : M A) (ws : WebSocket) (room : string)
    (w : World) :
  (try_finally body (ws_finally ws room) w).2
  = (ws_finally ws room (body w).2).2.
Proof.
  unfold try_finally. destruct (body w) as [r w1]. simpl.
  rewrite ws_finally_run. reflexivity.
Qed.

Lemma ws_try_hub (ws : WebSocket) (room : string) (frames : list string)
    (w : World) :
  ROOM_CLIENTS (ws_try ws room frames w).2 = ROOM_CLIENTS w
  /\ (forall other, other <> ws ->
      outbox (ws_try ws room frames w).2 !! other = outbox w !! other).
Proof.
  unfold ws_try, get_clients, await, send_text, transmit, bind.
  case_bool_decide; [split; reflexivity|].
  match goal with |- context [ws_loop ws room frames ?w1] =>
    destruct (ws_loop_hub ws room frames w1) as [Hreg Hout]
  end.
  rewrite Hreg, Hout. simpl. split; [reflexivity|].
  intros other Hne. rewrite lookup_insert_ne by congruence. reflexivity.
Qed.

(** X18.  From the accept to the end of the [finally] block, the handler of
    a connection changes the outbox of no other connection, whatever frames it
    handles and however it ends; and it leaves with its connection out of the
    set of the room. *)
Lemma ws_room_sends_to_nobody_else (ws : WebSocket) (room : string)
    (frames : list string) (w : World) :
  ws ∉ gone w ->
  let w' := (await (ws_room ws room frames) w).2 in
  (ws ∉ default ∅ (ROOM_CLIENTS w' !! room))
  /\ (forall other, other <> ws -> outbox w' !! other = outbox w !! other).
Proof.
  intros Hgone w'.
  set (w1 := set_ROOM_CLIENTS
               (<[room := default ∅ (ROOM_CLIENTS w !! room) ∪ {[ws]}]>
                  (ROOM_CLIENTS w)) w).
  set (body := try_except (ws_try ws room frames)
                 (fun e => match e with
                           | WebSocketDisconnect => ret tt
                           | _ => raise e
                           end)).
  assert (Hw : w' = (ws_finally ws room (body w1).2).2).
  { subst w'. unfold ws_room, await, accept, clients_add, bind.
    rewrite bool_decide_eq_false_2 by assumption.
    apply try_finally_ws_finally. }
  clearbody w'. subst w'.
  assert (Hbody : ROOM_CLIENTS (body w1).2 = ROOM_CLIENTS w1
                  /\ (forall other, other <> ws ->
                      outbox (body w1).2 !! other = outbox w !! other)).
  { subst body. unfold try_except.
    destruct (ws_try_hub ws room frames w1) as [Hreg Hout].
    destruct (ws_try ws room frames w1) as [[[]|e] w2]; simpl in *;
      [auto|destruct e; auto]. }
  destruct Hbody as [Hreg Hout].
  rewrite ws_finally_run. cbv zeta.
  pose proof (clients_discard_lookup ws room (body w1).2) as Hset.
  assert (outbox (clients_discard room ws (body w1).2).2 = outbox (body w1).2)
    as Hout'.
  { unfold clients_discard.
    destruct (ROOM_CLIENTS (body w1).2 !! room); reflexivity. }
  case_bool_decide; simpl; rewrite Hset; (split; [set_solver|]);
    intros other Hne; rewrite ?lookup_insert_ne by congruence;
    rewrite ?Hout'; apply Hout; assumption.
Qed.

End Streaming.

Lemma ws_finally_presence_to_leaver_only_witness :
  exists w',
    ws_finally (P := sample_platform) 2%nat "alpha" hub_world = (Returned tt, w')
    /\ default ∅ (ROOM_CLIENTS w' !! "alpha")
       = default ∅ (ROOM_CLIENTS hub_world !! "alpha") ∖ {[2%nat]}
    /\ default [] (outbox w' !! 2%nat)
       = (if bool_decide (2%nat ∈ gone hub_world)
          then default [] (outbox hub_world !! 2%nat)
          else default [] (outbox hub_world !! 2%nat)
               ++ [json_dumps (Platform := sample_platform)
                     (presence "alpha"
                        (size (default ∅ (ROOM_CLIENTS hub_world !! "alpha")
                               ∖ {[2%nat]})))])
    /\ (forall other, other <> 2%nat ->
        outbox w' !! other = outbox hub_world !! other).
Proof.
  exact (ws_finally_presence_to_leaver_only (P := sample_platform)
           2%nat "alpha" hub_world).
Defined.

Lemma ws_room_non_object_frame_is_fatal_witness :
  exists w',
    await (ws_room (P := sample_platform) 1%nat "alpha" ["[]"; frame_hi])
          fresh_world
    = (Raised AttributeError, w')
    /\ (1%nat ∉ default ∅ (ROOM_CLIENTS w' !! "alpha"))
    /\ db w' = db fresh_world
    /\ log w' = log fresh_world.
Proof.
  apply (ws_room_non_object_frame_is_fatal (P := sample_platform)
           1%nat "alpha" "[]" [frame_hi] (JArr []) fresh_world).
  - reflexivity.
  - discriminate.
  - apply not_elem_of_empty.
Defined.

(** C2, refuted as stated.  Connection 2 is subscribed to ["alpha"];
    connection 1 joins and leaves.  Whatever the platform, connection 2 is then
    still subscribed and has been sent no presence event. *)
Lemma ws_room_leave_reaches_no_subscriber :
  ~ exists Q : Platform,
      let w' := (await (ws_room (P := Q) 1%nat "alpha" []) lobby_world).2 in
      forall c,
        c ∈ default ∅ (ROOM_CLIENTS w' !! "alpha") ->
        In (json_dumps
              (presence "alpha" (size (default ∅ (ROOM_CLIENTS w' !! "alpha")))))
           (default [] (outbox w' !! c)).
Proof.
  intros [Q Hall]. cbv zeta in Hall.
  specialize (Hall 2%nat).
  vm_compute in Hall. apply Hall. reflexivity.
Qed.

(** ** The content store *)

Section Store.
Context {P : Platform}.

Lemma object_key_not_dot (sha ext : string) :
  sha <> "" -> sha +:+ "." +:+ ext <> ".".
Proof.
  destruct sha as [|c [|c' sha]]; [congruence|discriminate|discriminate].
Qed.

(** The existence test, run. *)
Lemma path_exists_run (d : Dir) (key : string) (w : World) :
  path_exists d key w
  = (Returned (bool_decide (key = "." \/ is_Some (files_of d w !! key))),
     set_log (log w ++ [EvExists d key]) w).
Proof. destruct d; reflexivity. Qed.



(** The extension is picked from the declared type, so the key is a function
    of the bytes and of the declared type together: the same bytes declared as
    Ogg and as WebM are stored under two keys. *)
Example put_key_follows_declared_type (raw : list Byte.byte) :
  let ogg := mkUploadFile (Some "audio/ogg") None raw in
  let webm := mkUploadFile (Some "audio/webm") None raw in
  (put AUDIO_DIR raw (_sha256_bytes raw) (_pick_ext ogg) fresh_world).1
  = Returned (sha256_hexdigest raw +:+ ".ogg")
  /\ (put AUDIO_DIR raw (_sha256_bytes raw) (_pick_ext webm) fresh_world).1
     = Returned (sha256_hexdigest raw +:+ ".webm").
Proof.
  cbv zeta. split; unfold put, bind; rewrite path_exists_run;
    case_bool_decide; reflexivity.
Qed.



End Store.

(** ** Object keys *)

Lemma str_in_empty_hay (a : ascii) (n : string) : str_in (String a n) "" = false.
Proof. reflexivity. Qed.

Lemma str_in_lstrip (n s : string) :
  first_nonspace n = true -> str_in n s = true -> str_in n (str_lstrip s) = true.
Proof.
  destruct n as [|a n]; [discriminate|]. simpl. intros Ha.
  induction s as [|c s IH]; [trivial|].
  intros Hin. simpl. destruct (isspace c) eqn:Hc; [|exact Hin].
  apply IH. simpl in Hin. destruct (ascii_dec a c) as [->|Hne].
  - rewrite Hc in Ha. discriminate.
  - exact Hin.
Qed.

Lemma prefix_rstrip (n s : string) :
  last_nonspace n = true ->
  String.prefix n s = true -> String.prefix n (str_rstrip s) = true.
Proof.
  revert n. induction s as [|c s IH]; intros n Hlast Hpre.
  - destruct n; [discriminate|]. discriminate.
  - destruct n as [|a n]; [discriminate|].
    simpl in Hpre. destruct (ascii_dec a c) as [->|Hne]; [|discriminate].
    destruct n as [|b n].
    + simpl in Hlast. simpl.
      destruct (str_rstrip s); [destruct (isspace c); [discriminate|]|];
        simpl; destruct (ascii_dec c c); congruence.
    + assert (Hlast' : last_nonspace (String b n) = true) by exact Hlast.
      specialize (IH (String b n) Hlast' Hpre).
      simpl. destruct (str_rstrip s) as [|c' s'] eqn:E; [discriminate|].
      simpl. destruct (ascii_dec c c); [|congruence]. exact IH.
Qed.

Lemma str_in_rstrip (n s : string) :
  last_nonspace n = true -> str_in n s = true -> str_in n (str_rstrip s) = true.
Proof.
  intros Hlast. induction s as [|c s IH]; intros Hin.
  - destruct n; discriminate.
  - destruct n as [|a n]; [discriminate|].
    change (String.prefix (String a n) (String c s) || str_in (String a n) s
            = true) in Hin.
    apply orb_true_iff in Hin as [Hpre|Hin].
    + apply (prefix_rstrip _ _ Hlast) in Hpre.
      destruct (str_rstrip (String c s)); [discriminate|].
      simpl in *. rewrite Hpre. reflexivity.
    + specialize (IH Hin). simpl.
      destruct (str_rstrip s) as [|c' s'] eqn:E; [discriminate|].
      change (String.prefix (String a n) (String c (String c' s'))
              || str_in (String a n) (String c' s') = true).
      rewrite IH. apply orb_true_r.
Qed.

Lemma str_in_strip (n s : string) :
  first_nonspace n = true -> last_nonspace n = true ->
  str_in n s = true -> str_in n (str_strip s) = true.
Proof.
  intros Hf Hl Hin. unfold str_strip.
  apply str_in_rstrip; [assumption|]. apply str_in_lstrip; assumption.
Qed.

(** A key with a traversal sequence is still bad once stripped. *)
Lemma has_traversal_bad_key (key : string) :
  has_traversal key = true -> bad_key (str_strip key) = true.
Proof.
  unfold has_traversal, bad_key. intros Hin.
  apply orb_true_iff in Hin as [Hin|Hin];
    [apply orb_true_iff in Hin as [Hin|Hin]|];
    apply str_in_strip in Hin; try reflexivity; rewrite Hin;
    rewrite ?orb_true_r; reflexivity.
Qed.

Section Download.
Context {P : Platform}.

(** C7.  A key that holds [".."], ["/"] or a backslash is refused with
    status 400 by both download handlers, and the world is returned as it
    was: the existence test on the directory was not reached.  A key that
    passes the test, is not ["."] and names no stored file gives status 404.
    The key ["."] passes the test and names the directory itself, which
    exists: no 404 is raised, and the directory is handed to [FileResponse]
    under its own name. *)
Theorem get_rejects_traversal_keys (object_key : string) (w : World) :
  (has_traversal object_key = true ->
   get_audio object_key w = (Raised (HTTPException 400 "object_key invalido"), w)
   /\ get_blob object_key w = (Raised (HTTPException 400 "object_key invalido"), w))
  /\ (bad_key (str_strip object_key) = false ->
      str_strip object_key <> "." ->
      (audio_files w !! str_strip object_key = None ->
       get_audio object_key w
       = (Raised (HTTPException 404 "nao encontrado"),
          set_log (log w ++ [EvExists AUDIO_DIR (str_strip object_key)]) w))
      /\ (blob_files w !! str_strip object_key = None ->
          get_blob object_key w
          = (Raised (HTTPException 404 "nao encontrado"),
             set_log (log w ++ [EvExists FILES_DIR (str_strip object_key)]) w)))
  /\ (str_strip object_key = "." ->
      get_audio object_key w
      = (Returned
           (mkFileResponse AUDIO_DIR "."
              (default "audio/webm"
                 (table_get (lstrip_dots (str_lower (path_suffix "audio")))
                            EXT_TO_CT))
              "audio"),
         set_log (log w ++ [EvExists AUDIO_DIR "."]) w)
      /\ get_blob object_key w
         = (Returned
              (mkFileResponse FILES_DIR "."
                 match guess_type "files" with
                 | Some (String _ _ as mt) => mt
                 | _ => "application/octet-stream"
                 end
                 "files"),
            set_log (log w ++ [EvExists FILES_DIR "."]) w)).
Proof.
  split; [|split].
  - intros Hbad%has_traversal_bad_key.
    unfold get_audio, get_blob, _safe_key, bind. rewrite Hbad. auto.
  - intros Hok Hdot.
    unfold get_audio, get_blob, _safe_key, path_exists, get_files, record,
      bind, ret, raise.
    rewrite Hok. simpl.
    split; intros ->;
      rewrite bool_decide_eq_false_2
        by (intros [?|[? ?]]; [contradiction|discriminate]);
      reflexivity.
  - intros Hdot.
    unfold get_audio, get_blob, _safe_key, path_exists, get_files, record,
      bind, ret, raise.
    rewrite Hdot. change (bad_key ".") with false. simpl.
    split; reflexivity.
Qed.

End Download.

Lemma get_rejects_traversal_keys_witness :
  (get_audio (P := sample_platform) "../db/blackroom.sqlite3" fresh_world
   = (Raised (HTTPException 400 "object_key invalido"), fresh_world)
   /\ get_blob (P := sample_platform) "../db/blackroom.sqlite3" fresh_world
      = (Raised (HTTPException 400 "object_key invalido"), fresh_world))
  /\ (get_audio (P := sample_platform) " 0a1b.ogg " fresh_world).1
     = Raised (HTTPException 404 "nao encontrado")
  /\ (get_blob (P := sample_platform) " 0a1b.ogg " fresh_world).1
     = Raised (HTTPException 404 "nao encontrado")
  /\ (get_audio (P := sample_platform) "." fresh_world).1
     = Returned (mkFileResponse AUDIO_DIR "." "audio/webm" "audio")
  /\ (get_blob (P := sample_platform) "." fresh_world).1
     = Returned (mkFileResponse FILES_DIR "." "application/octet-stream" "files").
Proof.
  split.
  - apply (get_rejects_traversal_keys (P := sample_platform)
             "../db/blackroom.sqlite3" fresh_world).
    reflexivity.
  - destruct (get_rejects_traversal_keys (P := sample_platform)
                " 0a1b.ogg " fresh_world) as (_ & Hwell & _).
    destruct (Hwell eq_refl ltac:(discriminate)) as [Haudio Hblob].
    destruct (get_rejects_traversal_keys (P := sample_platform)
                "." fresh_world) as (_ & _ & Hdot).
    destruct (Hdot eq_refl) as [Hdir Hdir'].
    rewrite (Haudio eq_refl), (Hblob eq_refl), Hdir, Hdir'.
    repeat split; reflexivity.
Defined.

(** ** History *)

Lemma insert_desc_Permutation (row : Message.t * option Device.t)
    (rows : list (Message.t * option Device.t)) :
  Permutation (insert_desc row rows) (row :: rows).
Proof.
  induction rows as [|r rows IH]; simpl; [reflexivity|].
  destruct (_ <? _); [reflexivity|].
  rewrite IH. apply perm_swap.
Qed.

Lemma order_by_Permutation (rows : list (Message.t * option Device.t)) :
  Permutation (order_by_created_at_desc rows) rows.
Proof.
  induction rows as [|r rows IH]; simpl; [reflexivity|].
  rewrite insert_desc_Permutation, IH. reflexivity.
Qed.

Lemma insert_desc_sorted (row : Message.t * option Device.t)
    (rows : list (Message.t * option Device.t)) :
  StronglySorted not_after rows -> StronglySorted not_after (insert_desc row rows).
Proof.
  induction 1 as [|r rows Hsorted IH Hall]; simpl.
  - constructor; constructor.
  - destruct (Z.ltb_spec (Message.created_at r.1) (Message.created_at row.1))
      as [Hlt|Hge].
    + constructor; [constructor; assumption|].
      constructor; [unfold not_after; lia|].
      eapply Forall_impl; [exact Hall|].
      unfold not_after. intros; simpl in *; lia.
    + constructor; [exact IH|].
      rewrite insert_desc_Permutation. constructor; [exact Hge|exact Hall].
Qed.

Lemma order_by_sorted (rows : list (Message.t * option Device.t)) :
  StronglySorted not_after (order_by_created_at_desc rows).
Proof.
  induction rows as [|r rows IH]; simpl; [constructor|].
  apply insert_desc_sorted, IH.
Qed.

Lemma StronglySorted_rev {A} (R : A -> A -> Prop) (l : list A) :
  StronglySorted R l -> StronglySorted (fun x y => R y x) (rev l).
Proof.
  induction 1 as [|x l Hsorted IH Hall]; simpl; [constructor|].
  apply StronglySorted_app_2; [|exact IH|repeat constructor].
  intros y x' Hy Hx'. apply list_elem_of_singleton in Hx' as ->.
  rewrite Forall_forall in Hall. apply Hall.
  apply list_elem_of_In. apply <- in_rev. apply list_elem_of_In. exact Hy.
Qed.

(** The join keeps one row per message, so the rows of a room are its
    messages. *)
Lemma room_rows (devs : list Device.t) (room_id : Z) (msgs : list Message.t) :
  filter (fun row : Message.t * option Device.t =>
            Message.room_id (fst row) = room_id)
         (map (join_device devs) msgs)
  = map (join_device devs)
        (filter (fun msg => Message.room_id msg = room_id) msgs).
Proof.
  induction msgs as [|msg msgs IH]; [reflexivity|].
  simpl. rewrite !filter_cons. simpl.
  destruct (decide (Message.room_id msg = room_id)); simpl; rewrite IH;
    reflexivity.
Qed.

Lemma sqlite_integer_spec (n : Z) :
  sqlite_integer n = true <-> - 2 ^ 63 <= n < 2 ^ 63.
Proof. unfold sqlite_integer. rewrite andb_true_iff. lia. Qed.

(** C8, as the code has it.  For a limit that is not negative and that the
    driver can bind (a signed 64-bit number), the history of a room is a pure
    read that returns at most [limit] messages, oldest first; they are
    messages of that room, as many as the limit and the room allow, and every
    message of the room left out is no later than each one returned.  A name
    with no room gives the empty list. *)
Theorem room_history_recent_ascending (room_name : string) (limit : Z)
    (w : World) :
  0 <= limit < 2 ^ 63 ->
  exists out w',
    room_history room_name limit w = (Returned out, w')
    /\ db w' = db w
    /\ Z.of_nat (length out) <= limit
    /\ StronglySorted Z.le (map MessageOut.ts out)
    /\ match find (fun r => String.eqb (Room.name r) room_name) (rooms (db w)) with
       | None => out = []
       | Some room =>
           let msgs := room_messages (Room.id room) (db w) in
           length out = Nat.min (Z.to_nat limit) (length msgs)
           /\ (forall o, o ∈ out ->
                exists msg,
                  msg ∈ msgs
                  /\ o = history_row room (join_device (devices (db w)) msg))
           /\ (forall msg, msg ∈ msgs ->
                history_row room (join_device (devices (db w)) msg) ∈ out
                \/ forall o, o ∈ out -> Message.created_at msg <= MessageOut.ts o)
       end.
Proof.
  intros [Hlimit Hbound].
  unfold room_history, select_room_by_name, select_history, bind, record,
    read_db, ret.
  rewrite (proj2 (sqlite_integer_spec limit)) by lia. simpl.
  destruct (find _ (rooms (db w))) as [room|]; simpl.
  2:{ do 2 eexists. split; [reflexivity|]. simpl.
      repeat split; [lia|constructor]. }
  do 2 eexists. split; [reflexivity|]. simpl. split; [reflexivity|].
  unfold sql_limit. rewrite (proj2 (Z.ltb_ge limit 0)) by exact Hlimit.
  rewrite room_rows. fold (room_messages (Room.id room) (db w)).
  set (msgs := room_messages (Room.id room) (db w)).
  set (devs := devices (db w)).
  set (sorted := order_by_created_at_desc (map (join_device devs) msgs)).
  set (n := Z.to_nat limit).
  assert (Hperm : Permutation sorted (map (join_device devs) msgs))
    by apply order_by_Permutation.
  assert (Hsorted : StronglySorted not_after (firstn n sorted ++ skipn n sorted)).
  { rewrite firstn_skipn. apply order_by_sorted. }
  assert (Hlen : length (map (history_row room) (rev (firstn n sorted)))
                 = Nat.min n (length msgs)).
  { rewrite length_map, length_rev, length_firstn.
    rewrite (Permutation_length Hperm), length_map. reflexivity. }
  split; [rewrite Hlen; lia|]. split; [|split; [exact Hlen|split]].
  - rewrite map_map.
    apply (StronglySorted_fmap _ (fun x y => not_after y x)).
    + intros [m1 d1] [m2 d2]. unfold not_after. simpl. auto.
    + apply StronglySorted_rev. eapply StronglySorted_app_1_l. exact Hsorted.
  - intros o Ho.
    apply list_elem_of_fmap in Ho as (row & -> & Hrow).
    apply list_elem_of_In in Hrow. apply <- in_rev in Hrow.
    apply list_elem_of_In in Hrow.
    assert (row ∈ sorted) as Hin.
    { rewrite <- (firstn_skipn n sorted). apply elem_of_app. auto. }
    rewrite Hperm in Hin.
    apply list_elem_of_fmap in Hin as (msg & -> & Hmsg). eauto.
  - intros msg Hmsg.
    assert (join_device devs msg ∈ firstn n sorted ++ skipn n sorted) as Hin.
    { rewrite firstn_skipn, Hperm. apply list_elem_of_fmap_2. exact Hmsg. }
    apply elem_of_app in Hin as [Htaken|Hleft].
    + left.
      change (history_row room (join_device devs msg)
              ∈ history_row room <$> rev (firstn n sorted)).
      apply list_elem_of_fmap_2.
      apply list_elem_of_In. apply -> in_rev. apply list_elem_of_In.
      exact Htaken.
    + right. intros o Ho.
      apply list_elem_of_fmap in Ho as (row & -> & Hrow).
      apply list_elem_of_In in Hrow. apply <- in_rev in Hrow.
    apply list_elem_of_In in Hrow.
      pose proof (StronglySorted_app_1_elem_of _ _ _ _ _ Hsorted Hrow Hleft)
        as Hle.
      destruct row as [m d]. exact Hle.
Qed.

Lemma room_history_recent_ascending_witness :
  exists out w',
    room_history "alpha" 2 busy_world = (Returned out, w')
    /\ db w' = db busy_world
    /\ Z.of_nat (length out) <= 2
    /\ StronglySorted Z.le (map MessageOut.ts out)
    /\ match find (fun r => String.eqb (Room.name r) "alpha")
                  (rooms (db busy_world)) with
       | None => out = []
       | Some room =>
           let msgs := room_messages (Room.id room) (db busy_world) in
           length out = Nat.min (Z.to_nat 2) (length msgs)
           /\ (forall o, o ∈ out ->
                exists msg,
                  msg ∈ msgs
                  /\ o = history_row room
                           (join_device (devices (db busy_world)) msg))
           /\ (forall msg, msg ∈ msgs ->
                history_row room (join_device (devices (db busy_world)) msg) ∈ out
                \/ forall o, o ∈ out -> Message.created_at msg <= MessageOut.ts o)
       end.
Proof.
  apply (room_history_recent_ascending "alpha" 2 busy_world). lia.
Defined.

(** The two latest messages of ["alpha"], the older one first; the message
    of ["beta"] stamped between them is not among them. *)
Example room_history_busy :
  map (fun o => (MessageOut.id o, MessageOut.content o, MessageOut.ts o))
      match (room_history "alpha" 2 busy_world).1 with
      | Returned out => out
      | Raised _ => []
      end
  = [(2, Some "b", 30); (5, Some "d", 40)].
Proof. reflexivity. Qed.

Example room_history_unknown_room :
  (room_history "gamma" 100 busy_world).1 = Returned [].
Proof. reflexivity. Qed.

(** Past the signed 64-bit range the limit cannot be bound: the history of a
    room that exists raises [OverflowError], and for a name with no room the
    query is never built and the answer is the empty list. *)
Lemma room_history_limit_out_of_range (room_name : string) (limit : Z)
    (w : World) :
  sqlite_integer limit = false ->
  room_history room_name limit w
  = (match find (fun r => String.eqb (Room.name r) room_name) (rooms (db w)) with
     | Some _ => Raised OverflowError
     | None => Returned []
     end,
     set_log (log w ++ [EvSelectRoom room_name]) w).
Proof.
  intros Hlimit.
  unfold room_history, select_room_by_name, select_history, bind, record,
    read_db, ret, raise.
  rewrite Hlimit. simpl.
  destruct (find _ (rooms (db w))); reflexivity.
Qed.

Example room_history_limit_overflow :
  (room_history "alpha" (2 ^ 63) busy_world).1 = Raised OverflowError.
Proof. reflexivity. Qed.

(** C8, refuted as stated.  With the limit -1 the one message of the room
    is returned: more than [limit] messages. *)
Lemma room_history_negative_limit_unbounded :
  ~ (forall room_name limit w out w',
       room_history room_name limit w = (Returned out, w') ->
       Z.of_nat (length out) <= limit).
Proof.
  intros Hall.
  specialize (Hall "alpha" (-1) archive_world _ _ eq_refl).
  simpl in Hall. lia.
Qed.

(** * Further properties of the code *)

(** ** Rooms *)

(** X1.  On storage that takes one commit, [ensure_room] returns a room of
    the name asked for, adding a row only when no room had the name; asked
    again it returns the same room and leaves the tables as they are, whatever
    the storage does by then. *)
Theorem ensure_room_idempotent (name : string) (w : World) :
  commits_succeed 1 w = true ->
  exists room w1 w2,
    ensure_room name w = (Returned room, w1)
    /\ Room.name room = name
    /\ rooms (db w1)
       = rooms (db w)
         ++ (if existsb (fun r => String.eqb (Room.name r) name) (rooms (db w))
             then [] else [room])
    /\ devices (db w1) = devices (db w)
    /\ messages (db w1) = messages (db w)
    /\ ensure_room name w1 = (Returned room, w2)
    /\ db w2 = db w1.
Proof.
  destruct w as [[dv rm ms fl] u t rc g o af bf lg].
  unfold commits_succeed. simpl. intros Hok.
  unfold ensure_room at 1. mstep.
  destruct (find (fun r => String.eqb (Room.name r) name) rm) as [room|] eqn:Hfind.
  - assert (Hex : existsb (fun r => String.eqb (Room.name r) name) rm = true).
    { destruct (existsb _ rm) eqn:E; [reflexivity|].
      apply find_none_existsb in E. congruence. }
    rewrite Hex. do 3 eexists. split; [reflexivity|].
    split; [apply find_some in Hfind as [_ Heq]; apply String.eqb_eq, Heq|].
    simpl. rewrite app_nil_r. repeat (split; [reflexivity|]).
    unfold ensure_room. mstep. rewrite Hfind. split; reflexivity.
  - assert (Hex : existsb (fun r => String.eqb (Room.name r) name) rm = false)
      by (apply find_none_existsb; exact Hfind).
    rewrite Hex.
    destruct fl as [|[|] fl]; try discriminate; mstep; rewrite Hex;
      do 3 eexists; (split; [reflexivity|]); simpl;
      repeat (split; [reflexivity|]);
      unfold ensure_room; mstep;
      rewrite (find_app_miss _ _ _ Hfind) by (simpl; apply String.eqb_refl);
      split; reflexivity.
Qed.

Lemma ensure_room_idempotent_witness :
  exists room w1 w2,
    ensure_room "alpha" busy_world = (Returned room, w1)
    /\ Room.name room = "alpha"
    /\ rooms (db w1)
       = rooms (db busy_world)
         ++ (if existsb (fun r => String.eqb (Room.name r) "alpha")
                        (rooms (db busy_world))
             then [] else [room])
    /\ devices (db w1) = devices (db busy_world)
    /\ messages (db w1) = messages (db busy_world)
    /\ ensure_room "alpha" w1 = (Returned room, w2)
    /\ db w2 = db w1.
Proof.
  apply (ensure_room_idempotent "alpha" busy_world). reflexivity.
Defined.

(** X2.  [init_db.main] seeds the room ["alpha"] once: on storage that
    takes one commit the first run leaves a room of that name in the table,
    and a second run finds it, prints that it exists and writes nothing. *)
Theorem init_db_main_seeds_once (w : World) :
  commits_succeed 1 w = true ->
  exists out w1 w2,
    init_db.main w = (Returned out, w1)
    /\ existsb (fun r => String.eqb (Room.name r) "alpha") (rooms (db w1)) = true
    /\ length (rooms (db w1))
       = (length (rooms (db w))
          + (if existsb (fun r => String.eqb (Room.name r) "alpha") (rooms (db w))
             then 0 else 1))%nat
    /\ init_db.main w1
       = (Returned [init_db.SalaJaExiste; init_db.DbPronto], w2)
    /\ db w2 = db w1.
Proof.
  destruct w as [[dv rm ms fl] u t rc g o af bf lg].
  unfold commits_succeed. cbn [db faults]. intros Hok.
  unfold init_db.main at 1. mstep.
  destruct (find (fun r => String.eqb (Room.name r) "alpha") rm) as [room|]
    eqn:Hfind.
  - assert (Hex : existsb (fun r => String.eqb (Room.name r) "alpha") rm = true).
    { destruct (existsb _ rm) eqn:E; [reflexivity|].
      apply find_none_existsb in E. congruence. }
    do 3 eexists. split; [reflexivity|]. cbn [db rooms].
    rewrite Hex. split; [reflexivity|]. split; [lia|].
    unfold init_db.main. mstep. rewrite Hfind. split; reflexivity.
  - assert (Hex : existsb (fun r => String.eqb (Room.name r) "alpha") rm = false)
      by (apply find_none_existsb; exact Hfind).
    destruct fl as [|[|] fl]; try discriminate; mstep; rewrite Hex;
      do 3 eexists; (split; [reflexivity|]); cbn [db rooms];
      (split; [rewrite existsb_app; simpl; apply orb_true_r|]);
      (split; [rewrite length_app; reflexivity|]);
      unfold init_db.main; mstep;
      rewrite (find_app_miss _ _ _ Hfind) by reflexivity;
      split; reflexivity.
Qed.

Lemma init_db_main_seeds_once_witness :
  exists out w1 w2,
    init_db.main fresh_world = (Returned out, w1)
    /\ existsb (fun r => String.eqb (Room.name r) "alpha") (rooms (db w1)) = true
    /\ length (rooms (db w1))
       = (length (rooms (db fresh_world))
          + (if existsb (fun r => String.eqb (Room.name r) "alpha")
                        (rooms (db fresh_world))
             then 0 else 1))%nat
    /\ init_db.main w1
       = (Returned [init_db.SalaJaExiste; init_db.DbPronto], w2)
    /\ db w2 = db w1.
Proof.
  apply (init_db_main_seeds_once fresh_world). reflexivity.
Defined.

(** ** Devices *)

Lemma lookup_device_elem (fingerprint label : option string)
    (devs : list Device.t) (dev : Device.t) :
  lookup_device fingerprint label devs = Some dev -> dev ∈ devs.
Proof.
  unfold lookup_device. intros Hlook. apply list_elem_of_In.
  destruct fingerprint as [[|c fp]|];
    [ | destruct (find (fun d => bool_decide (Device.device_fingerprint d = _)) devs)
          as [found|] eqn:Hfp | ];
    try (destruct label as [[|c' l]|]; try discriminate;
         apply find_some in Hlook as [Hin _]; exact Hin).
  assert (found = dev) as <- by (destruct label as [[|c' l]|]; congruence).
  apply find_some in Hfp as [Hin _]. exact Hin.
Qed.

Lemma rewrite_row_self (dev dev' : Device.t) (devs : list Device.t) :
  dev ∈ devs -> Device.id dev' = Device.id dev -> dev' ∈ rewrite_row dev' devs.
Proof.
  intros Hin Hid. unfold rewrite_row.
  apply list_elem_of_fmap. exists dev. split; [|exact Hin].
  rewrite Hid, Z.eqb_refl. reflexivity.
Qed.

(** [upsert_device] when its queries find [dev], on storage that takes the
    commit: the row of [dev] is rewritten, and nothing else is. *)
Lemma upsert_device_found_run (fingerprint label ip ua : option string)
    (dev : Device.t) (w : World) :
  commits_succeed 1 w = true ->
  lookup_device fingerprint label (devices (db w)) = Some dev ->
  exists dev' w',
    upsert_device fingerprint label ip ua w = (Returned dev', w')
    /\ dev' = set_seen (py_or ua (Device.user_agent dev))
                       (py_or ip (Device.ip_last dev))
                       (utc w (ticks w))
                       match label with
                       | Some l =>
                           if truthy (Some l) && truthy (Some (str_strip l))
                              && negb (bool_decide (Some l = Device.label dev))
                           then set_label (Some (str_strip l)) dev
                           else dev
                       | None => dev
                       end
    /\ devices (db w') = rewrite_row dev' (devices (db w))
    /\ rooms (db w') = rooms (db w)
    /\ messages (db w') = messages (db w).
Proof.
  destruct w as [[dv rm ms fl] u t rc g o af bf lg].
  unfold commits_succeed, lookup_device. cbn [db faults devices].
  intros Hok Hlook.
  unfold upsert_device. mstep.
  destruct fingerprint as [[|c fp]|];
    [ | destruct (find (fun d => bool_decide (Device.device_fingerprint d = _)) dv)
          as [found|] | ];
    (destruct label as [[|c' l]|]; try discriminate;
     try (injection Hlook as ->); try rewrite Hlook); mstep;
    (destruct fl as [|[|] fl]; try discriminate); mstep;
    do 2 eexists; (split; [reflexivity|]); repeat split;
    try (destruct (_ && _); reflexivity).
Qed.

(** X3.  The label of a device that [upsert_device] found changes only
    when the call brings a label that is not blank and differs from the
    stored one, and then it becomes that label stripped; without a label, or
    with an empty or blank one, the stored label stays. *)
Theorem upsert_device_label_rule (fingerprint label ip ua : option string)
    (dev : Device.t) (w : World) :
  commits_succeed 1 w = true ->
  lookup_device fingerprint label (devices (db w)) = Some dev ->
  exists dev' w',
    upsert_device fingerprint label ip ua w = (Returned dev', w')
    /\ Device.id dev' = Device.id dev
    /\ (forall l, label = Some l -> str_strip l <> "" ->
                  Some l <> Device.label dev ->
                  Device.label dev' = Some (str_strip l))
    /\ (label = None \/ (exists l, label = Some l /\ str_strip l = "")
        \/ label = Device.label dev ->
        Device.label dev' = Device.label dev).
Proof.
  intros Hok Hlook.
  destruct (upsert_device_found_run fingerprint label ip ua dev w Hok Hlook)
    as (dev' & w' & Hrun & -> & _).
  eexists. exists w'. split; [exact Hrun|].
  assert (Hstrip : forall l, str_strip l <> "" -> l <> "").
  { intros [|c l] H; [exfalso; apply H; reflexivity|discriminate]. }
  split; [destruct label as [l|]; [destruct (_ && _)|]; reflexivity|].
  split.
  - intros l -> Hblank Hdiff. simpl.
    rewrite (bool_decide_eq_false_2 _ Hdiff).
    destruct l as [|c l]; [exfalso; apply Hblank; reflexivity|].
    destruct (str_strip (String c l)); [congruence|reflexivity].
  - intros [->|[(l & -> & Hblank)|Hsame]]; [reflexivity| |].
    + simpl. rewrite Hblank. rewrite andb_false_r. reflexivity.
    + destruct label as [l|]; [|reflexivity]. simpl.
      rewrite (bool_decide_eq_true_2 _ Hsame), andb_false_r. reflexivity.
Qed.

Lemma upsert_device_label_rule_witness :
  exists dev' w',
    upsert_device (Some "fp-A") (Some "  Desk ") None None seen_world
    = (Returned dev', w')
    /\ Device.id dev' = 1
    /\ (forall l, Some "  Desk " = Some l -> str_strip l <> "" ->
                  Some l <> Some "Phone" ->
                  Device.label dev' = Some (str_strip l))
    /\ (Some "  Desk " = None
        \/ (exists l, Some "  Desk " = Some l /\ str_strip l = "")
        \/ Some "  Desk " = Some "Phone" ->
        Device.label dev' = Some "Phone").
Proof.
  apply (upsert_device_label_rule (Some "fp-A") (Some "  Desk ") None None
           (Device.mk 1 (Some "fp-A") (Some "Phone") (Some "Firefox")
                      (Some "10.0.0.1") (Some "10.0.0.2") 3 4 true)
           seen_world); reflexivity.
Defined.

(** X4.  What a call of [upsert_device] that found a device records about
    it: the time of the call as [last_seen]; the user agent and the address
    of the call when they are given and not empty, and the stored ones
    otherwise; the fingerprint, the first address, the time of the first
    contact and the [active] flag stay as stored, also when the call brought
    another fingerprint.  The table keeps its length. *)
Theorem upsert_device_seen_rule (fingerprint label ip ua : option string)
    (dev : Device.t) (w : World) :
  commits_succeed 1 w = true ->
  lookup_device fingerprint label (devices (db w)) = Some dev ->
  exists dev' w',
    upsert_device fingerprint label ip ua w = (Returned dev', w')
    /\ Device.last_seen dev' = utc w (ticks w)
    /\ Device.user_agent dev' = (if truthy ua then ua else Device.user_agent dev)
    /\ Device.ip_last dev' = (if truthy ip then ip else Device.ip_last dev)
    /\ Device.device_fingerprint dev' = Device.device_fingerprint dev
    /\ Device.ip_first dev' = Device.ip_first dev
    /\ Device.first_seen dev' = Device.first_seen dev
    /\ Device.active dev' = Device.active dev
    /\ dev' ∈ devices (db w')
    /\ length (devices (db w')) = length (devices (db w)).
Proof.
  intros Hok Hlook.
  destruct (upsert_device_found_run fingerprint label ip ua dev w Hok Hlook)
    as (dev' & w' & Hrun & Hdev' & Hdevs & _).
  exists dev', w'. split; [exact Hrun|].
  assert (Hid : Device.id dev' = Device.id dev)
    by (rewrite Hdev'; destruct label as [l|]; [destruct (_ && _)|]; reflexivity).
  rewrite Hdevs.
  repeat split;
    try (rewrite Hdev'; destruct label as [l|]; [destruct (_ && _)|]; reflexivity).
  - eapply rewrite_row_self; [eapply lookup_device_elem; exact Hlook|exact Hid].
  - unfold rewrite_row. apply length_map.
Qed.

Lemma upsert_device_seen_rule_witness :
  exists dev' w',
    upsert_device (Some "fp-A") None (Some "") (Some "Safari") seen_world
    = (Returned dev', w')
    /\ Device.last_seen dev' = 0
    /\ Device.user_agent dev' = Some "Safari"
    /\ Device.ip_last dev' = Some "10.0.0.2"
    /\ Device.device_fingerprint dev' = Some "fp-A"
    /\ Device.ip_first dev' = Some "10.0.0.1"
    /\ Device.first_seen dev' = 3
    /\ Device.active dev' = true
    /\ dev' ∈ devices (db w')
    /\ length (devices (db w')) = 1%nat.
Proof.
  apply (upsert_device_seen_rule (Some "fp-A") None (Some "") (Some "Safari")
           (Device.mk 1 (Some "fp-A") (Some "Phone") (Some "Firefox")
                      (Some "10.0.0.1") (Some "10.0.0.2") 3 4 true)
           seen_world); reflexivity.
Defined.

(** ** What one call can do to the tables *)

(** The three ways a call of [upsert_device] ends: it raises and the tables
    are as before; it rewrites the row of the device its queries found; or,
    having found none, it adds a row with a fresh id. *)
Lemma upsert_device_outcomes (fingerprint label ip ua : option string)
    (w : World) :
  let run := upsert_device fingerprint label ip ua w in
  rooms (db run.2) = rooms (db w)
  /\ messages (db run.2) = messages (db w)
  /\ ((exists e, run.1 = Raised e /\ devices (db run.2) = devices (db w))
      \/ (exists dev dev',
            run.1 = Returned dev'
            /\ lookup_device fingerprint label (devices (db w)) = Some dev
            /\ Device.id dev' = Device.id dev
            /\ Device.device_fingerprint dev' = Device.device_fingerprint dev
            /\ devices (db run.2) = rewrite_row dev' (devices (db w)))
      \/ (exists dev',
            run.1 = Returned dev'
            /\ lookup_device fingerprint label (devices (db w)) = None
            /\ Device.id dev' = next_id (map Device.id (devices (db w)))
            /\ Device.device_fingerprint dev' = fingerprint
            /\ Device.label dev' = label
            /\ (forall fp, fingerprint = Some fp ->
                           known_fingerprint fp (devices (db w)) = false)
            /\ devices (db run.2) = devices (db w) ++ [dev'])).
Proof.
  destruct w as [[dv rm ms fl] u t rc g o af bf lg].
  unfold lookup_device, known_fingerprint. cbn [db devices rooms messages].
  unfold upsert_device. mstep.
  destruct fingerprint as [[|c fp]|];
    [ | destruct (find (fun d => bool_decide (Device.device_fingerprint d = _)) dv)
          as [found|] | ];
    (destruct label as [[|c' l]|];
     [ | destruct (find (fun d => bool_decide (Device.label d = _)) dv)
           as [found'|] | ]);
    mstep;
    (destruct fl as [|[|] fl]); mstep;
    repeat match goal with
           | |- context [existsb ?f dv] => destruct (existsb f dv) eqn:?
           end;
    mstep; cbn [fst snd];
    (split; [reflexivity|]); (split; [reflexivity|]);
    first
      [ left; eexists; split; reflexivity
      | right; left; do 2 eexists;
        repeat (split; [first [reflexivity | destruct (_ && _); reflexivity]|]);
        first [reflexivity | destruct (_ && _); reflexivity]
      | right; right; eexists;
        repeat (split; [first [reflexivity | intros ? [= <-]; assumption
                              | intros ? [=]]|]);
        reflexivity ].
Qed.

(** The three ways a call of [ensure_room] ends: it raises and the tables
    are as before; it returns the room it found; or it adds the room. *)
Lemma ensure_room_outcomes (name : string) (w : World) :
  let run := ensure_room name w in
  devices (db run.2) = devices (db w)
  /\ messages (db run.2) = messages (db w)
  /\ ((exists e, run.1 = Raised e /\ rooms (db run.2) = rooms (db w))
      \/ (exists room,
            run.1 = Returned room
            /\ room ∈ rooms (db w)
            /\ Room.name room = name
            /\ rooms (db run.2) = rooms (db w))
      \/ (exists room,
            run.1 = Returned room
            /\ Room.id room = next_id (map Room.id (rooms (db w)))
            /\ Room.name room = name
            /\ existsb (fun r => String.eqb (Room.name r) name) (rooms (db w))
               = false
            /\ rooms (db run.2) = rooms (db w) ++ [room])).
Proof.
  destruct w as [[dv rm ms fl] u t rc g o af bf lg].
  cbn [db devices rooms messages].
  unfold ensure_room. mstep.
  destruct (find (fun r => String.eqb (Room.name r) name) rm) as [room|] eqn:Hfind.
  - cbn [fst snd]. repeat (split; [reflexivity|]). right. left.
    exists room. apply find_some in Hfind as [Hin Heq].
    split; [reflexivity|]. split; [apply list_elem_of_In, Hin|].
    split; [apply String.eqb_eq, Heq|reflexivity].
  - mstep. (destruct fl as [|[|] fl]); mstep;
      destruct (existsb (fun r => String.eqb (Room.name r) name) rm) eqn:Hex;
      mstep; cbn [fst snd]; repeat (split; [reflexivity|]);
      first [ left; eexists; split; reflexivity
            | right; right; eexists; repeat (split; [reflexivity|]);
              reflexivity ].
Qed.

(** The two ways a call of [add_commit_message] ends: the write fails and the
    tables are as before, or the message is the new last row, with a fresh
    id and the fields it was given. *)
Lemma add_commit_message_outcomes (room_id : Z) (device_id : option Z)
    (content_type : string) (content file_ref ip ua : option string) (w : World) :
  let run := add_commit_message room_id device_id content_type content
                                file_ref ip ua w in
  devices (db run.2) = devices (db w)
  /\ rooms (db run.2) = rooms (db w)
  /\ ((run.1 = Raised OperationalError
       /\ messages (db run.2) = messages (db w))
      \/ (run.1 = Returned
                    (Message.mk (next_id (map Message.id (messages (db w))))
                                room_id device_id content_type content file_ref
                                ip ua (utc w (ticks w)))
          /\ messages (db run.2)
             = messages (db w)
               ++ [Message.mk (next_id (map Message.id (messages (db w))))
                              room_id device_id content_type content file_ref
                              ip ua (utc w (ticks w))])).
Proof.
  destruct w as [[dv rm ms fl] u t rc g o af bf lg].
  cbn [db devices rooms messages utc ticks].
  unfold add_commit_message.
  destruct fl as [|[|] fl]; mstep; cbn [fst snd];
    repeat (split; [reflexivity|]); first [left; split; reflexivity
                                          | right; split; reflexivity].
Qed.

(** ** Rules that every handler follows *)

(** The tables before and after a computation are related by [R]. *)
Lemma steps_ret (R : World -> World -> Prop) `{!Reflexive R} {A} (a : A) :
  steps R (ret a).
Proof. intros w. simpl. reflexivity. Qed.

Lemma steps_raise (R : World -> World -> Prop) `{!Reflexive R} {A}
    (e : exn) :
  steps R (raise (A := A) e).
Proof. intros w. simpl. reflexivity. Qed.

Lemma steps_bind (R : World -> World -> Prop) `{!Transitive R} {A B}
    (m : M A) (k : A -> M B) :
  steps R m -> (forall a, steps R (k a)) -> steps R (bind m k).
Proof.
  intros Hm Hk w. specialize (Hm w). unfold bind.
  destruct (m w) as [[a|e] w1]; simpl in *; [|exact Hm].
  etransitivity; [exact Hm|apply Hk].
Qed.

Lemma steps_try_except (R : World -> World -> Prop) `{!Transitive R} {A}
    (body : M A) (handler : exn -> M A) :
  steps R body -> (forall e, steps R (handler e)) ->
  steps R (try_except body handler).
Proof.
  intros Hb Hh w. specialize (Hb w). unfold try_except.
  destruct (body w) as [[a|e] w1]; simpl in *; [exact Hb|].
  etransitivity; [exact Hb|apply Hh].
Qed.

Lemma steps_try_finally (R : World -> World -> Prop) `{!Transitive R} {A}
    (body : M A) (fin : M unit) :
  steps R body -> steps R fin -> steps R (try_finally body fin).
Proof.
  intros Hb Hf w. specialize (Hb w). unfold try_finally.
  destruct (body w) as [r w1]. specialize (Hf w1).
  destruct (fin w1) as [[[]|e] w2]; simpl in *; etransitivity; eauto.
Qed.

Lemma steps_weaken (R R' : World -> World -> Prop) {A} (m : M A) :
  (forall w w', R w w' -> R' w w') -> steps R m -> steps R' m.
Proof. intros HR Hm w. apply HR, Hm. Qed.

#[local] Instance on_tables_refl (R : Database -> Database -> Prop)
    `{!Reflexive R} : Reflexive (on_tables R).
Proof. intros w. unfold on_tables. reflexivity. Qed.

#[local] Instance on_tables_trans (R : Database -> Database -> Prop)
    `{!Transitive R} : Transitive (on_tables R).
Proof. intros w1 w2 w3. unfold on_tables. apply transitivity. Qed.

Lemma on_tables_same_store (R : Database -> Database -> Prop) `{!Reflexive R}
    (w w' : World) :
  same_store w w' -> on_tables R w w'.
Proof. intros (Hdb & _). unfold on_tables. rewrite Hdb. reflexivity. Qed.

#[local] Instance same_files_refl : Reflexive same_files.
Proof. intros w. split; reflexivity. Qed.

#[local] Instance same_files_trans : Transitive same_files.
Proof. intros w1 w2 w3 [a b] [a' b']. split; congruence. Qed.

#[local] Instance files_kept_refl : Reflexive files_kept.
Proof. intros w. split; reflexivity. Qed.

#[local] Instance files_kept_trans : Transitive files_kept.
Proof. intros w1 w2 w3 [a b] [a' b']. split; etransitivity; eauto. Qed.

Lemma same_files_kept (w w' : World) : same_files w w' -> files_kept w w'.
Proof. intros [a b]. unfold files_kept. rewrite a, b. split; reflexivity. Qed.

#[local] Instance keeps_well_formed_refl : Reflexive keeps_well_formed.
Proof. intros d Hd. exact Hd. Qed.

#[local] Instance keeps_well_formed_trans : Transitive keeps_well_formed.
Proof. intros d1 d2 d3 H12 H23 Hd. auto. Qed.

#[local] Instance only_grows_refl : Reflexive only_grows.
Proof. intros d. repeat split; reflexivity. Qed.

#[local] Instance only_grows_trans : Transitive only_grows.
Proof.
  intros d1 d2 d3 (a & b & c) (a' & b' & c').
  repeat split; etransitivity; eauto.
Qed.

Lemma rewrite_row_ids (dev : Device.t) (devs : list Device.t) :
  map Device.id (rewrite_row dev devs) = map Device.id devs.
Proof.
  unfold rewrite_row. induction devs as [|row devs IH]; [reflexivity|].
  simpl. rewrite IH.
  destruct (Z.eqb_spec (Device.id row) (Device.id dev)); congruence.
Qed.

Lemma omap_of_column (l1 l2 : list Device.t) :
  map Device.device_fingerprint l1 = map Device.device_fingerprint l2 ->
  omap Device.device_fingerprint l1 = omap Device.device_fingerprint l2.
Proof.
  revert l2. induction l1 as [|a l1 IH]; intros [|b l2] Heq; try discriminate;
    [reflexivity|].
  injection Heq as Hab Hrest. cbn. rewrite Hab, (IH l2 Hrest). reflexivity.
Qed.

Lemma unknown_fingerprint_fresh (fp : string) (devs : list Device.t) :
  known_fingerprint fp devs = false ->
  fp ∉ omap Device.device_fingerprint devs.
Proof.
  unfold known_fingerprint. induction devs as [|dev devs IH]; simpl.
  - intros _. apply not_elem_of_nil.
  - case_bool_decide as Hfp; simpl; [discriminate|]. intros Hrest.
    destruct (Device.device_fingerprint dev) as [f|]; simpl; [|auto].
    apply not_elem_of_cons. split; [congruence|auto].
Qed.

Lemma unknown_room_name_fresh (name : string) (rms : list Room.t) :
  existsb (fun r => String.eqb (Room.name r) name) rms = false ->
  name ∉ map Room.name rms.
Proof.
  induction rms as [|r rms IH]; simpl.
  - intros _. apply not_elem_of_nil.
  - destruct (String.eqb_spec (Room.name r) name) as [Heq|Hne]; simpl;
      [discriminate|].
    intros Hrest. apply not_elem_of_cons. split; [congruence|auto].
Qed.

Lemma next_id_not_in (ids : list Z) : next_id ids ∉ ids.
Proof. intros Hin. apply next_id_above in Hin. lia. Qed.

Lemma NoDup_snoc {A} (l : list A) (x : A) : NoDup l -> x ∉ l -> NoDup (l ++ [x]).
Proof.
  intros Hl Hx. apply NoDup_app. split; [exact Hl|]. split.
  - intros y Hy Hy'. apply list_elem_of_singleton in Hy' as ->. auto.
  - apply NoDup_singleton.
Qed.

Lemma steps_well_formed_upsert_device (fingerprint label ip ua : option string) :
  steps (on_tables keeps_well_formed) (upsert_device fingerprint label ip ua).
Proof.
  intros w (Hids & Hfps & Hrids & Hnames & Hmids).
  destruct (upsert_device_outcomes fingerprint label ip ua w)
    as (Hrooms & Hmsgs & Hcase).
  unfold on_tables, well_formed. rewrite Hrooms, Hmsgs.
  destruct Hcase as [(e & _ & Hdevs)|[(dev & dev' & _ & Hlook & Hid & Hfp & Hdevs)
                                      |(dev' & _ & _ & Hid & Hfp & _ & Hnew & Hdevs)]];
    rewrite Hdevs.
  - repeat split; assumption.
  - rewrite rewrite_row_ids.
    rewrite (omap_of_column (rewrite_row dev' (devices (db w))) (devices (db w)));
      [repeat split; assumption|].
    apply rewrite_row_column.
    intros row Hrow Hrid.
    rewrite (NoDup_ids_inj _ row dev Hids Hrow
               (lookup_device_elem _ _ _ _ Hlook)) by congruence.
    symmetry. exact Hfp.
  - rewrite map_app, omap_app. simpl. rewrite Hid, Hfp.
    split; [apply NoDup_snoc; [exact Hids|apply next_id_not_in]|].
    split; [|repeat split; assumption].
    destruct fingerprint as [fp|]; simpl.
    + apply NoDup_snoc; [exact Hfps|].
      apply unknown_fingerprint_fresh, Hnew. reflexivity.
    + rewrite app_nil_r. exact Hfps.
Qed.

Lemma steps_well_formed_ensure_room (name : string) :
  steps (on_tables keeps_well_formed) (ensure_room name).
Proof.
  intros w (Hids & Hfps & Hrids & Hnames & Hmids).
  destruct (ensure_room_outcomes name w) as (Hdevs & Hmsgs & Hcase).
  unfold on_tables, well_formed. rewrite Hdevs, Hmsgs.
  destruct Hcase as [(e & _ & Hrooms)|[(room & _ & _ & _ & Hrooms)
                                       |(room & _ & Hid & Hname & Hnew & Hrooms)]];
    rewrite Hrooms; try (repeat split; assumption).
  rewrite !map_app. simpl. rewrite Hid, Hname.
  repeat split; try assumption.
  - apply NoDup_snoc; [exact Hrids|apply next_id_not_in].
  - apply NoDup_snoc; [exact Hnames|apply unknown_room_name_fresh, Hnew].
Qed.

Lemma steps_well_formed_add_commit_message (room_id : Z) (device_id : option Z)
    (content_type : string) (content file_ref ip ua : option string) :
  steps (on_tables keeps_well_formed)
        (add_commit_message room_id device_id content_type content file_ref ip ua).
Proof.
  intros w (Hids & Hfps & Hrids & Hnames & Hmids).
  destruct (add_commit_message_outcomes room_id device_id content_type content
              file_ref ip ua w) as (Hdevs & Hrooms & Hcase).
  unfold on_tables, well_formed. rewrite Hdevs, Hrooms.
  destruct Hcase as [[_ Hmsgs]|[_ Hmsgs]]; rewrite Hmsgs;
    repeat split; try assumption.
  rewrite map_app. simpl. apply NoDup_snoc; [exact Hmids|apply next_id_not_in].
Qed.

Lemma steps_only_grows_upsert_device (fingerprint label ip ua : option string) :
  steps (on_tables only_grows) (upsert_device fingerprint label ip ua).
Proof.
  intros w.
  destruct (upsert_device_outcomes fingerprint label ip ua w)
    as (Hrooms & Hmsgs & Hcase).
  unfold on_tables, only_grows. rewrite Hrooms, Hmsgs.
  split; [reflexivity|]. split; [reflexivity|].
  destruct Hcase as [(e & _ & Hdevs)|[(dev & dev' & _ & _ & _ & _ & Hdevs)
                                      |(dev' & _ & _ & _ & _ & _ & _ & Hdevs)]];
    rewrite Hdevs.
  - reflexivity.
  - rewrite rewrite_row_ids. reflexivity.
  - rewrite map_app. apply prefix_app_r. reflexivity.
Qed.

Lemma steps_only_grows_ensure_room (name : string) :
  steps (on_tables only_grows) (ensure_room name).
Proof.
  intros w.
  destruct (ensure_room_outcomes name w) as (Hdevs & Hmsgs & Hcase).
  unfold on_tables, only_grows. rewrite Hdevs, Hmsgs.
  split; [reflexivity|]. split; [|reflexivity].
  destruct Hcase as [(e & _ & Hrooms)|[(room & _ & _ & _ & Hrooms)
                                       |(room & _ & _ & _ & _ & Hrooms)]];
    rewrite Hrooms; [reflexivity|reflexivity|].
  apply prefix_app_r. reflexivity.
Qed.

Lemma steps_only_grows_add_commit_message (room_id : Z) (device_id : option Z)
    (content_type : string) (content file_ref ip ua : option string) :
  steps (on_tables only_grows)
        (add_commit_message room_id device_id content_type content file_ref ip ua).
Proof.
  intros w.
  destruct (add_commit_message_outcomes room_id device_id content_type content
              file_ref ip ua w) as (Hdevs & Hrooms & Hcase).
  unfold on_tables, only_grows. rewrite Hdevs, Hrooms.
  split; [|split; reflexivity].
  destruct Hcase as [[_ Hmsgs]|[_ Hmsgs]]; rewrite Hmsgs; [reflexivity|].
  apply prefix_app_r. reflexivity.
Qed.

(** The handling of a frame is one of three things. *)
Lemma ws_frame_cases {P : Platform} (room raw : string) :
  ws_frame room raw = ret tt
  \/ ws_frame room raw = raise AttributeError
  \/ exists data, ws_frame room raw = ws_message room data.
Proof.
  unfold ws_frame.
  destruct (json_loads raw) as [[| | | | |data]|]; auto.
  destruct (dict_get "type" data) as [| | |s| |]; auto.
  destruct (String.eqb_spec s "msg") as [->|Hne]; [eauto|].
  left.
  repeat (destruct s as [|[[] [] [] [] [] [] [] []] s]; try reflexivity);
    exfalso; apply Hne; reflexivity.
Qed.

Lemma init_db_main_world (w : World) :
  (init_db.main w).2 = (ensure_room "alpha" w).2.
Proof.
  destruct w as [[dv rm ms fl] u t rc g o af bf lg].
  unfold init_db.main, ensure_room. mstep.
  destruct (find (fun r => String.eqb (Room.name r) "alpha") rm); mstep;
    [reflexivity|].
  destruct fl as [|[|] fl]; mstep;
    destruct (existsb (fun r => String.eqb (Room.name r) "alpha") rm);
    reflexivity.
Qed.

Section Handlers.
Context {P : Platform} (R : World -> World -> Prop).
Context `{!Reflexive R, !Transitive R}.
Hypothesis R_same_store : forall w w', same_store w w' -> R w w'.
Hypothesis R_upsert_device :
  forall fingerprint label ip ua, steps R (upsert_device fingerprint label ip ua).
Hypothesis R_ensure_room : forall name, steps R (ensure_room name).
Hypothesis R_add_commit_message :
  forall room_id device_id content_type content file_ref ip ua,
    steps R (add_commit_message room_id device_id content_type content
                                file_ref ip ua).
Hypothesis R_put : forall d raw sha ext, steps R (put d raw sha ext).

(** A computation that leaves the tables and the files alone. *)
Lemma steps_same_store {A} (m : M A) :
  (forall w, same_store w (m w).2) -> steps R m.
Proof. intros Hsame w. apply R_same_store, Hsame. Qed.

Lemma steps_broadcast_room (room : string) (payload : json) :
  steps R (_broadcast_room room payload).
Proof.
  apply steps_same_store. intros w.
  rewrite broadcast_room_inert. repeat split.
Qed.

Lemma steps_ws_frame (room raw : string) : steps R (ws_frame room raw).
Proof.
  destruct (ws_frame_cases room raw) as [->|[->|[data ->]]];
    [apply steps_ret; assumption|apply steps_raise; assumption|].
  unfold ws_message.
  apply steps_bind; [assumption|apply R_upsert_device|intros dev].
  apply steps_bind; [assumption|apply R_ensure_room|intros room_row].
  apply steps_bind; [assumption|apply R_add_commit_message|intros msg].
  apply steps_broadcast_room.
Qed.

Lemma steps_ws_loop (ws : WebSocket) (room : string) (frames : list string) :
  steps R (ws_loop ws room frames).
Proof.
  induction frames as [|raw rest IH]; simpl.
  - apply steps_same_store. intros w. repeat split.
  - apply steps_bind; [assumption|apply steps_ws_frame|intros _; exact IH].
Qed.

Lemma steps_ws_room (ws : WebSocket) (room : string) (frames : list string) :
  steps R (await (ws_room ws room frames)).
Proof.
  unfold ws_room, await.
  apply steps_bind; [assumption| |intros _].
  { apply steps_same_store. intros w. unfold accept.
    case_bool_decide; repeat split. }
  apply steps_bind; [assumption| |intros _].
  { apply steps_same_store. intros w. repeat split. }
  apply steps_try_finally; [assumption| |].
  - apply steps_try_except; [assumption| |].
    + unfold ws_try.
      apply steps_bind; [assumption| |intros clients].
      { apply steps_same_store. intros w. repeat split. }
      apply steps_bind; [assumption| |intros _; apply steps_ws_loop].
      apply steps_same_store. intros w.
      unfold await, send_text, transmit. case_bool_decide; repeat split.
    + intros e. destruct e;
        first [apply steps_ret; assumption | apply steps_raise; assumption].
  - apply steps_same_store. intros w.
    rewrite ws_finally_run. cbv zeta.
    unfold clients_discard.
    destruct (ROOM_CLIENTS w !! room); case_bool_decide; repeat split.
Qed.

Lemma steps_handlers_without_upload : handlers_without_upload R.
Proof.
  repeat split.
  - intros payload request. unfold device_upsert.
    apply steps_bind; [assumption|apply R_upsert_device|intros dev].
    apply steps_ret; assumption.
  - intros payload request. unfold post_message.
    apply steps_bind; [assumption|apply R_ensure_room|intros room].
    apply steps_bind; [assumption|apply R_upsert_device|intros dev].
    apply steps_bind; [assumption|apply R_add_commit_message|intros msg].
    apply steps_bind; [assumption|apply steps_broadcast_room|intros _].
    apply steps_ret; assumption.
  - intros room_name limit. apply steps_same_store. intros w.
    unfold room_history, select_room_by_name, select_history, bind, record,
      read_db, ret, raise. simpl.
    destruct (find _ (rooms (db w))); [|repeat split].
    destruct (sqlite_integer limit); repeat split.
  - apply steps_ws_room.
  - intros object_key. apply steps_same_store. intros w.
    unfold get_audio, _safe_key, path_exists, get_files, record, bind, ret, raise.
    destruct (bad_key _); [repeat split|]. simpl.
    destruct (bool_decide _); repeat split.
  - intros object_key. apply steps_same_store. intros w.
    unfold get_blob, path_exists, get_files, record, bind, ret, raise.
    destruct (bad_key _); [repeat split|]. simpl.
    destruct (bool_decide _); repeat split.
  - intros w. rewrite init_db_main_world. apply R_ensure_room.
Qed.

Lemma steps_upload_handlers : upload_handlers R.
Proof.
  split.
  - intros request file room fingerprint label. unfold upload_voice, await.
    destruct (upload_body file) as [|b raw]; [apply steps_raise; assumption|].
    apply steps_bind; [assumption|apply R_put|intros object_key].
    apply steps_bind; [assumption|apply R_ensure_room|intros room_row].
    apply steps_bind; [assumption|apply R_upsert_device|intros dev].
    apply steps_bind; [assumption|apply R_add_commit_message|intros msg].
    apply steps_bind; [assumption|apply steps_broadcast_room|intros _].
    apply steps_ret; assumption.
  - intros request file room fingerprint label. unfold upload_blob, await.
    destruct (upload_body file) as [|b raw]; [apply steps_raise; assumption|].
    apply steps_bind; [assumption|apply R_put|intros object_key].
    apply steps_bind; [assumption|apply R_ensure_room|intros room_row].
    apply steps_bind; [assumption|apply R_upsert_device|intros dev].
    apply steps_bind; [assumption|apply R_add_commit_message|intros msg].
    apply steps_bind; [assumption|apply steps_broadcast_room|intros _].
    apply steps_ret; assumption.
Qed.

End Handlers.

Lemma steps_on_tables_put {P : Platform} (R : Database -> Database -> Prop)
    `{!Reflexive R} (d : Dir) (raw : list Byte.byte) (sha ext : string) :
  steps (on_tables R) (put d raw sha ext).
Proof.
  intros w. unfold on_tables.
  assert (db (put d raw sha ext w).2 = db w) as ->; [|reflexivity].
  unfold put, path_exists, get_files, write_bytes, record, bind, ret.
  destruct d; simpl; case_bool_decide; reflexivity.
Qed.

(** X5.  Every entry point keeps the constraints of the schema: started on
    tables whose primary keys, fingerprints and room names are unique, it
    ends, returning or raising, on tables where they still are. *)
Theorem every_handler_keeps_well_formed {P : Platform} :
  every_handler (on_tables keeps_well_formed).
Proof.
  split;
    [apply steps_handlers_without_upload | apply steps_upload_handlers];
    try typeclasses eauto;
    first [ apply on_tables_same_store; typeclasses eauto
          | apply steps_well_formed_upsert_device
          | apply steps_well_formed_ensure_room
          | apply steps_well_formed_add_commit_message
          | apply steps_on_tables_put; typeclasses eauto ].
Qed.

(** X6.  No entry point deletes, rewrites or reorders a message or a room,
    or removes a device: the old messages and rooms are the first rows of the
    new tables, and the ids of the old devices are the first ids of the new
    table. *)
Theorem every_handler_only_grows {P : Platform} :
  every_handler (on_tables only_grows).
Proof.
  split;
    [apply steps_handlers_without_upload | apply steps_upload_handlers];
    try typeclasses eauto;
    first [ apply on_tables_same_store; typeclasses eauto
          | apply steps_only_grows_upsert_device
          | apply steps_only_grows_ensure_room
          | apply steps_only_grows_add_commit_message
          | apply steps_on_tables_put; typeclasses eauto ].
Qed.

(** ** One request, one message *)

(** The device [upsert_device] returns is a row of the table it leaves. *)
Lemma upsert_device_returns_row (fingerprint label ip ua : option string)
    (dev : Device.t) (w w' : World) :
  upsert_device fingerprint label ip ua w = (Returned dev, w') ->
  dev ∈ devices (db w')
  /\ rooms (db w') = rooms (db w)
  /\ messages (db w') = messages (db w).
Proof.
  intros Hrun.
  destruct (upsert_device_outcomes fingerprint label ip ua w)
    as (Hrooms & Hmsgs & Hcase).
  rewrite Hrun in *. simpl in *. split; [|auto].
  destruct Hcase as [(e & He & _)|[(d0 & dev' & [= <-] & Hlook & Hid & _ & ->)
                                   |(dev' & [= <-] & _ & _ & _ & _ & _ & ->)]];
    [discriminate| |].
  - eapply rewrite_row_self; [eapply lookup_device_elem; exact Hlook|exact Hid].
  - apply elem_of_app. right. apply list_elem_of_singleton. reflexivity.
Qed.

(** The room [ensure_room] returns is a row of the table it leaves, and has
    the name asked for. *)
Lemma ensure_room_returns_row (name : string) (room : Room.t) (w w' : World) :
  ensure_room name w = (Returned room, w') ->
  room ∈ rooms (db w')
  /\ Room.name room = name
  /\ devices (db w') = devices (db w)
  /\ messages (db w') = messages (db w).
Proof.
  intros Hrun.
  destruct (ensure_room_outcomes name w) as (Hdevs & Hmsgs & Hcase).
  rewrite Hrun in *. simpl in *.
  destruct Hcase as [(e & He & _)|[(r & [= <-] & Hin & Hname & ->)
                                   |(r & [= <-] & _ & Hname & _ & ->)]];
    [discriminate| |]; repeat split; auto.
  apply elem_of_app. right. apply list_elem_of_singleton. reflexivity.
Qed.

(** ... and it is the room a query by that name finds afterwards. *)
Lemma ensure_room_finds (name : string) (room : Room.t) (w w' : World) :
  ensure_room name w = (Returned room, w') ->
  find (fun r => String.eqb (Room.name r) name) (rooms (db w')) = Some room.
Proof.
  destruct w as [[dv rm ms fl] u t rc g o af bf lg].
  unfold ensure_room. mstep.
  destruct (find (fun r => String.eqb (Room.name r) name) rm) as [found|]
    eqn:Hfind; mstep.
  - intros [= <- <-]. exact Hfind.
  - destruct fl as [|[|] fl]; mstep;
      destruct (existsb (fun r => String.eqb (Room.name r) name) rm);
      mstep; intros Hrun; try discriminate Hrun;
      injection Hrun as <- <-; cbn [db rooms];
      (apply find_app_miss; [exact Hfind|apply String.eqb_refl]).
Qed.

Section OneMessage.
Context {P : Platform}.

(** X7.  A run of [post_message] either raises, and then the messages are
    as before, or returns the id of exactly one new message, the last row of
    the table: it has a fresh id, the content of the request, the address and
    user agent of the request, and it points to a room of the requested name
    and to a device that are both in the tables. *)
Theorem post_message_stores_one_message (payload : MessageIn.t)
    (request : Request) (w : World) :
  let run := post_message payload request w in
  (exists e, run.1 = Raised e /\ messages (db run.2) = messages (db w))
  \/ (exists room dev created_at,
        let msg :=
          Message.mk (next_id (map Message.id (messages (db w))))
                     (Room.id room) (Some (Device.id dev))
                     (MessageIn.content_type payload)
                     (MessageIn.content payload) (MessageIn.file_ref payload)
                     (client_host request) (header_user_agent request)
                     created_at in
        run.1 = Returned (JObj [("ok", JBool true); ("id", JInt (Message.id msg))])
        /\ messages (db run.2) = messages (db w) ++ [msg]
        /\ room ∈ rooms (db run.2)
        /\ Room.name room = MessageIn.room payload
        /\ dev ∈ devices (db run.2)).
Proof.
  cbv zeta. unfold post_message, bind.
  destruct (ensure_room (MessageIn.room payload) w) as [[room|e] w1] eqn:Hroom;
    [|left; exists e; split; [reflexivity|];
      destruct (ensure_room_outcomes (MessageIn.room payload) w) as (_ & Hm & _);
      rewrite Hroom in Hm; exact Hm].
  apply ensure_room_returns_row in Hroom as (Hrin & Hname & Hdevs1 & Hmsgs1).
  destruct (upsert_device _ _ _ _ w1) as [[dev|e] w2] eqn:Hdev.
  2:{ left. exists e. split; [reflexivity|].
      destruct (upsert_device_outcomes (MessageIn.fingerprint payload)
                  (MessageIn.label payload) (resolve_ip request)
                  (header_user_agent request) w1) as (_ & Hm & _).
      rewrite Hdev in Hm. simpl in *. congruence. }
  apply upsert_device_returns_row in Hdev as (Hdin & Hrooms2 & Hmsgs2).
  match goal with |- context [add_commit_message ?a ?b ?c ?d ?e ?f ?g w2] =>
    destruct (add_commit_message_outcomes a b c d e f g w2)
      as (Hdevs3 & Hrooms3 & Hcase);
    destruct (add_commit_message a b c d e f g w2) as [r w3]
  end.
  simpl in *.
  destruct Hcase as [[-> Hmsgs3]|[-> Hmsgs3]].
  - left. exists OperationalError. split; [reflexivity|]. simpl. congruence.
  - right. rewrite broadcast_room_inert. simpl.
    exists room, dev, (utc w2 (ticks w2)).
    rewrite Hmsgs3, Hmsgs2, Hmsgs1, Hrooms3, Hrooms2, Hdevs3.
    repeat split; auto.
Qed.

End OneMessage.

(** ** Requests on storage that takes the commits *)

Lemma forallb_firstn_S {A} (f : A -> bool) (n : nat) (l : list A) :
  forallb f (firstn (S n) l) = true -> forallb f (firstn n l) = true.
Proof.
  revert l. induction n as [|n IH]; intros l H; [reflexivity|].
  destruct l as [|b l]; [reflexivity|].
  change (f b && forallb f (firstn (S n) l) = true) in H.
  apply andb_true_iff in H as [Hb H].
  change (f b && forallb f (firstn n l) = true).
  rewrite Hb. apply IH, H.
Qed.

(** [upsert_device] commits once, and with a fingerprint other than the empty
    string the commit meets no constraint. *)
Lemma upsert_device_takes_commit (n : nat)
    (fingerprint label ip ua : option string) (w : World) :
  commits_succeed (S n) w = true ->
  fingerprint <> Some "" ->
  exists dev w',
    upsert_device fingerprint label ip ua w = (Returned dev, w')
    /\ commits_succeed n w' = true
    /\ audio_files w' = audio_files w
    /\ blob_files w' = blob_files w
    /\ utc w' = utc w
    /\ (ticks w <= ticks w')%nat.
Proof.
  destruct w as [[dv rm ms fl] u t rc g o af bf lg].
  unfold commits_succeed. cbn [db faults]. intros Hok Hfp.
  assert (Hnil : forallb negb (firstn n (@nil bool)) = true)
    by (destruct n; reflexivity).
  unfold upsert_device. mstep.
  destruct fingerprint as [[|c fp]|]; [congruence| |];
    [ destruct (find (fun d => bool_decide (Device.device_fingerprint d = _)) dv)
        as [found|] eqn:Hfind;
      [|apply find_none_existsb in Hfind] | ];
    (destruct label as [[|c' l]|];
     [ | destruct (find (fun d => bool_decide (Device.label d = _)) dv)
           as [found'|] | ]);
    mstep; (destruct fl as [|[|] fl]; [ | discriminate | ]); mstep;
    rewrite ?Hfind; do 2 eexists; (split; [reflexivity|]);
    (split; [first [exact Hnil | exact Hok]|]);
    repeat split; lia.
Qed.

(** [ensure_room] commits at most once, and never meets a constraint. *)
Lemma ensure_room_takes_commit (n : nat) (name : string) (w : World) :
  commits_succeed (S n) w = true ->
  exists room w',
    ensure_room name w = (Returned room, w')
    /\ commits_succeed n w' = true
    /\ audio_files w' = audio_files w
    /\ blob_files w' = blob_files w
    /\ utc w' = utc w
    /\ (ticks w <= ticks w')%nat.
Proof.
  destruct w as [[dv rm ms fl] u t rc g o af bf lg].
  unfold commits_succeed. cbn [db faults]. intros Hok.
  assert (Hnil : forallb negb (firstn n (@nil bool)) = true)
    by (destruct n; reflexivity).
  assert (Hless : forallb negb (firstn n fl) = true)
    by (apply forallb_firstn_S; exact Hok).
  unfold ensure_room. mstep.
  destruct (find (fun r => String.eqb (Room.name r) name) rm) as [room|] eqn:Hfind.
  - do 2 eexists. split; [reflexivity|]. split; [exact Hless|].
    repeat split; lia.
  - apply find_none_existsb in Hfind.
    destruct fl as [|[|] fl]; [ | discriminate | ]; mstep; rewrite Hfind;
      do 2 eexists; (split; [reflexivity|]);
      (split; [first [exact Hnil | exact Hok]|]);
      repeat split; lia.
Qed.

(** [add_commit_message] commits once, and meets no constraint. *)
Lemma add_commit_message_takes_commit (n : nat) (room_id : Z)
    (device_id : option Z) (content_type : string)
    (content file_ref ip ua : option string) (w : World) :
  commits_succeed (S n) w = true ->
  exists msg w',
    add_commit_message room_id device_id content_type content file_ref ip ua w
    = (Returned msg, w')
    /\ commits_succeed n w' = true
    /\ audio_files w' = audio_files w
    /\ blob_files w' = blob_files w
    /\ msg = Message.mk (next_id (map Message.id (messages (db w))))
                        room_id device_id content_type content file_ref ip ua
                        (utc w (ticks w)).
Proof.
  destruct w as [[dv rm ms fl] u t rc g o af bf lg].
  unfold commits_succeed. cbn [db faults]. intros Hok.
  assert (Hnil : forallb negb (firstn n (@nil bool)) = true)
    by (destruct n; reflexivity).
  unfold add_commit_message.
  destruct fl as [|[|] fl]; [ | discriminate | ]; mstep;
    do 2 eexists; (split; [reflexivity|]);
    (split; [first [exact Hnil | exact Hok]|repeat split]).
Qed.

Section Healthy.
Context {P : Platform}.

(** The steps every ingesting handler ends with, on storage that takes three
    commits: resolve the room, resolve the device, append the message, call
    the broadcast, answer. *)
Lemma resolve_and_append_succeeds {A} (room : string)
    (fingerprint label ip ua : option string) (content_type : string)
    (content file_ref ip_at ua_at : option string)
    (payload : Room.t -> Device.t -> Message.t -> json)
    (result : Message.t -> A) (w : World) :
  commits_succeed 3 w = true ->
  fingerprint <> Some "" ->
  exists room_row dev n w',
    let msg := Message.mk (next_id (map Message.id (messages (db w))))
                 (Room.id room_row) (Some (Device.id dev)) content_type content
                 file_ref ip_at ua_at (utc w n) in
    (let* room_row := ensure_room room in
     let* dev := upsert_device fingerprint label ip ua in
     let* msg := add_commit_message (Room.id room_row) (Some (Device.id dev))
                   content_type content file_ref ip_at ua_at in
     _broadcast_room (Room.name room_row) (payload room_row dev msg) ;;
     ret (result msg)) w
    = (Returned (result msg), w')
    /\ messages (db w') = messages (db w) ++ [msg]
    /\ room_row ∈ rooms (db w')
    /\ Room.name room_row = room
    /\ dev ∈ devices (db w')
    /\ audio_files w' = audio_files w
    /\ blob_files w' = blob_files w
    /\ find (fun r => String.eqb (Room.name r) room) (rooms (db w'))
       = Some room_row
    /\ (ticks w <= n)%nat.
Proof.
  intros Hok Hfp. cbv zeta. unfold bind.
  destruct (ensure_room_takes_commit 2 room w Hok)
    as (room_row & w1 & Hroom & Hok1 & Ha1 & Hb1 & Hu1 & Ht1).
  rewrite Hroom.
  pose proof (ensure_room_finds _ _ _ _ Hroom) as Hfind.
  apply ensure_room_returns_row in Hroom as (Hrin & Hname & Hdevs1 & Hmsgs1).
  destruct (upsert_device_takes_commit 1 fingerprint label ip ua w1 Hok1 Hfp)
    as (dev & w2 & Hdev & Hok2 & Ha2 & Hb2 & Hu2 & Ht2).
  rewrite Hdev.
  apply upsert_device_returns_row in Hdev as (Hdin & Hrooms2 & Hmsgs2).
  destruct (add_commit_message_takes_commit 0 (Room.id room_row)
              (Some (Device.id dev)) content_type content file_ref ip_at ua_at
              w2 Hok2) as (msg & w3 & Hmsg & _ & Ha3 & Hb3 & Hfields).
  rewrite Hmsg.
  destruct (add_commit_message_outcomes (Room.id room_row)
              (Some (Device.id dev)) content_type content file_ref ip_at ua_at
              w2) as (Hdevs3 & Hrooms3 & Hcase).
  rewrite Hmsg in Hdevs3, Hrooms3, Hcase. simpl in Hdevs3, Hrooms3, Hcase.
  destruct Hcase as [[[=] _]|[_ Hmsgs3]].
  rewrite broadcast_room_inert. simpl.
  exists room_row, dev, (ticks w2), (set_log
    (log w3 ++ [EvBroadcast (Room.name room_row) (payload room_row dev msg)]) w3).
  rewrite Hmsgs2, Hmsgs1, Hu2, Hu1 in Hfields. subst msg. simpl.
  rewrite Hmsgs3, Hmsgs2, Hmsgs1, Hu2, Hu1, Hrooms3, Hrooms2, Hdevs3,
    Ha3, Ha2, Ha1, Hb3, Hb2, Hb1.
  repeat split; auto. lia.
Qed.

End Healthy.

(** ** From an upload to its download *)

Lemma str_lstrip_id (s : string) : first_nonspace s = true -> str_lstrip s = s.
Proof.
  destruct s as [|c s]; [discriminate|]. simpl. intros H.
  apply negb_true_iff in H. rewrite H. reflexivity.
Qed.

Lemma str_rstrip_id (s : string) : last_nonspace s = true -> str_rstrip s = s.
Proof.
  induction s as [|c s IH]; [discriminate|]. intros H.
  destruct s as [|c' s'].
  - simpl in *. apply negb_true_iff in H. rewrite H. reflexivity.
  - change (last_nonspace (String c' s') = true) in H. specialize (IH H).
    change (match str_rstrip (String c' s') with
            | EmptyString => if isspace c then EmptyString else String c EmptyString
            | r => String c r
            end = String c (String c' s')).
    rewrite IH. reflexivity.
Qed.

Lemma str_forall_impl (f g : ascii -> bool) (s : string) :
  (forall c, f c = true -> g c = true) ->
  str_forall f s = true -> str_forall g s = true.
Proof.
  intros Hfg. induction s as [|c s IH]; [reflexivity|]. simpl.
  intros [Hc Hs]%andb_true_iff. rewrite (Hfg c Hc), (IH Hs). reflexivity.
Qed.

Lemma prefix_other_head (a c : ascii) (n s : string) :
  Ascii.eqb c a = false -> String.prefix (String a n) (String c s) = false.
Proof.
  intros Hne. simpl. destruct (ascii_dec a c) as [->|]; [|reflexivity].
  rewrite Ascii.eqb_refl in Hne. discriminate.
Qed.

(** A needle is not found in a text that lacks its first code point. *)
Lemma str_in_absent (a : ascii) (n s : string) :
  str_forall (fun c => negb (Ascii.eqb c a)) s = true ->
  str_in (String a n) s = false.
Proof.
  induction s as [|c s IH]; [reflexivity|]. simpl str_forall.
  intros [Hc Hs]%andb_true_iff. apply negb_true_iff in Hc.
  change (String.prefix (String a n) (String c s) || str_in (String a n) s
          = false).
  rewrite (prefix_other_head _ _ _ _ Hc), (IH Hs). reflexivity.
Qed.

(** ... and the search skips a stretch that lacks it. *)
Lemma str_in_skip (a : ascii) (n d t : string) :
  str_forall (fun c => negb (Ascii.eqb c a)) d = true ->
  str_in (String a n) (d +:+ t) = str_in (String a n) t.
Proof.
  induction d as [|c d IH]; [reflexivity|]. simpl str_forall.
  intros [Hc Hd]%andb_true_iff. apply negb_true_iff in Hc.
  change (String.prefix (String a n) (String c (d +:+ t))
          || str_in (String a n) (d +:+ t) = str_in (String a n) t).
  rewrite (prefix_other_head _ _ _ _ Hc), (IH Hd). reflexivity.
Qed.

Lemma last_nonspace_app (d : string) (c : ascii) (t : string) :
  last_nonspace (d +:+ String c t) = last_nonspace (String c t).
Proof.
  induction d as [|x d IH]; [reflexivity|].
  change (last_nonspace (String x (d +:+ String c t))
          = last_nonspace (String c t)).
  rewrite <- IH. destruct d; reflexivity.
Qed.

Lemma last_nonspace_plain (s : string) :
  s <> "" -> str_forall (fun c => negb (isspace c)) s = true ->
  last_nonspace s = true.
Proof.
  induction s as [|c s IH]; [congruence|]. intros _. simpl str_forall.
  intros [Hc Hs]%andb_true_iff.
  destruct s as [|c' s']; [exact Hc|].
  change (last_nonspace (String c' s') = true). apply IH; [discriminate|exact Hs].
Qed.

Lemma is_hex_digit_plain (c : ascii) : is_hex_digit c = true -> plain_char c = true.
Proof.
  destruct c as [[] [] [] [] [] [] [] []]; intros H;
    first [reflexivity | discriminate H].
Qed.

Lemma plain_char_spec (c : ascii) :
  plain_char c = true ->
  isspace c = false /\ Ascii.eqb c "." = false /\ Ascii.eqb c "/" = false
  /\ Ascii.eqb c "\" = false.
Proof.
  unfold plain_char. intros H.
  repeat (apply andb_true_iff in H as [H ?]).
  repeat split; apply negb_true_iff; assumption.
Qed.

(** A key made of a stem, a dot and an extension, neither of which holds
    white space, a dot, a slash or a backslash, is what [strip] leaves of it,
    and passes the test of the download handlers. *)
Lemma object_key_accepted (stem ext : string) :
  str_forall plain_char stem = true ->
  str_forall plain_char ext = true ->
  str_strip (stem +:+ "." +:+ ext) = stem +:+ "." +:+ ext
  /\ bad_key (stem +:+ "." +:+ ext) = false.
Proof.
  intros Hstem Hext.
  assert (Hno : forall a, plain_char a = false -> forall s,
            str_forall plain_char s = true ->
            str_forall (fun c => negb (Ascii.eqb c a)) s = true).
  { intros a Ha s. apply str_forall_impl. intros c Hc.
    apply negb_true_iff. destruct (Ascii.eqb_spec c a) as [->|]; congruence. }
  assert (Hspace : forall s, str_forall plain_char s = true ->
            str_forall (fun c => negb (isspace c)) s = true).
  { intros s. apply str_forall_impl. intros c Hc.
    apply plain_char_spec in Hc as [-> _]. reflexivity. }
  change (stem +:+ "." +:+ ext) with (stem +:+ String "." ext).
  assert (Hlast : last_nonspace (stem +:+ String "." ext) = true).
  { rewrite last_nonspace_app. destruct ext as [|c ext]; [reflexivity|].
    change (last_nonspace (String c ext) = true).
    apply last_nonspace_plain; [discriminate|apply Hspace, Hext]. }
  assert (Hfirst : first_nonspace (stem +:+ String "." ext) = true).
  { destruct stem as [|c stem]; [reflexivity|].
    simpl in Hstem. apply andb_true_iff in Hstem as [Hc _].
    apply plain_char_spec in Hc as [Hc _]. simpl. rewrite Hc. reflexivity. }
  split.
  - unfold str_strip. rewrite (str_lstrip_id _ Hfirst). apply str_rstrip_id, Hlast.
  - unfold bad_key.
    assert (String.eqb (stem +:+ String "." ext) "" = false) as ->
      by (destruct stem; reflexivity).
    rewrite (str_in_skip "/" "" stem) by (apply Hno; [reflexivity|exact Hstem]).
    rewrite (str_in_skip "\" "" stem) by (apply Hno; [reflexivity|exact Hstem]).
    rewrite (str_in_skip "." "." stem) by (apply Hno; [reflexivity|exact Hstem]).
    change (str_in "/" (String "." ext)) with (str_in "/" ext).
    change (str_in "\" (String "." ext)) with (str_in "\" ext).
    rewrite (str_in_absent "/" "" ext) by (apply Hno; [reflexivity|exact Hext]).
    rewrite (str_in_absent "\" "" ext) by (apply Hno; [reflexivity|exact Hext]).
    change (str_in ".." (String "." ext))
      with (String.prefix ".." (String "." ext) || str_in ".." ext).
    rewrite (str_in_absent "." "." ext) by (apply Hno; [reflexivity|exact Hext]).
    destruct ext as [|c ext]; [reflexivity|].
    simpl in Hext. apply andb_true_iff in Hext as [Hc _].
    apply plain_char_spec in Hc as (_ & Hc & _).
    change (String.prefix ".." (String "." (String c ext)))
      with (String.prefix "." (String c ext)).
    rewrite (prefix_other_head _ _ _ _ Hc). reflexivity.
Qed.

(** ** The files *)

Lemma steps_same_files_upsert_device (fingerprint label ip ua : option string) :
  steps same_files (upsert_device fingerprint label ip ua).
Proof.
  intros [[dv rm ms fl] u t rc g o af bf lg].
  unfold upsert_device. mstep.
  destruct fingerprint as [[|c fp]|];
    [ | destruct (find (fun d => bool_decide (Device.device_fingerprint d = _)) dv)
          as [found|] | ];
    (destruct label as [[|c' l]|];
     [ | destruct (find (fun d => bool_decide (Device.label d = _)) dv)
           as [found'|] | ]);
    mstep;
    (destruct fl as [|[|] fl]); mstep;
    repeat match goal with
           | |- context [existsb ?f dv] => destruct (existsb f dv) eqn:?
           end;
    mstep; split; reflexivity.
Qed.

Lemma steps_same_files_ensure_room (name : string) :
  steps same_files (ensure_room name).
Proof.
  intros [[dv rm ms fl] u t rc g o af bf lg].
  unfold ensure_room. mstep.
  destruct (find (fun r => String.eqb (Room.name r) name) rm); mstep;
    [split; reflexivity|].
  destruct fl as [|[|] fl]; mstep;
    destruct (existsb (fun r => String.eqb (Room.name r) name) rm);
    split; reflexivity.
Qed.

Lemma steps_same_files_add_commit_message (room_id : Z) (device_id : option Z)
    (content_type : string) (content file_ref ip ua : option string) :
  steps same_files
        (add_commit_message room_id device_id content_type content file_ref ip ua).
Proof.
  intros [[dv rm ms fl] u t rc g o af bf lg].
  unfold add_commit_message.
  destruct fl as [|[|] fl]; mstep; split; reflexivity.
Qed.

Section Files.
Context {P : Platform}.

(** The store step adds a file or writes nothing. *)
Lemma steps_files_kept_put (d : Dir) (raw : list Byte.byte) (sha ext : string) :
  steps files_kept (put d raw sha ext).
Proof.
  intros w.
  unfold put, path_exists, get_files, write_bytes, record, bind, ret.
  destruct d; simpl; case_bool_decide as Hthere; split; try reflexivity;
    apply insert_subseteq, eq_None_not_Some; intros Hfile; apply Hthere;
    right; exact Hfile.
Qed.

(** X9.  The files are written by the two uploads and by nothing else:
    every other entry point leaves both directories as they are, and an
    upload, returning or raising, deletes no file and overwrites none. *)
Theorem files_written_by_uploads_only :
  handlers_without_upload same_files /\ upload_handlers files_kept.
Proof.
  split.
  - apply steps_handlers_without_upload; try typeclasses eauto.
    + intros w w' (_ & Ha & Hb). split; assumption.
    + apply steps_same_files_upsert_device.
    + apply steps_same_files_ensure_room.
    + apply steps_same_files_add_commit_message.
  - apply steps_upload_handlers; try typeclasses eauto.
    + intros w w' (_ & Ha & Hb). apply same_files_kept. split; assumption.
    + intros. eapply steps_weaken; [apply same_files_kept|].
      apply steps_same_files_upsert_device.
    + intros. eapply steps_weaken; [apply same_files_kept|].
      apply steps_same_files_ensure_room.
    + intros. eapply steps_weaken; [apply same_files_kept|].
      apply steps_same_files_add_commit_message.
    + apply steps_files_kept_put.
Qed.

(** The store step, run: the key is the hash, a dot and the extension; the
    file of that key holds the bytes, or what it held before; nothing else
    changes but the log. *)
Lemma put_run (d : Dir) (raw : list Byte.byte) (sha ext : string) (w : World) :
  sha <> "" ->
  exists w1,
    put d raw sha ext w = (Returned (sha +:+ "." +:+ ext), w1)
    /\ files_of d w1 !! (sha +:+ "." +:+ ext)
       = Some (default raw (files_of d w !! (sha +:+ "." +:+ ext)))
    /\ db w1 = db w.
Proof.
  intros Hdot%(object_key_not_dot sha ext).
  unfold put, path_exists, get_files, write_bytes, record, bind, ret.
  destruct d; simpl; case_bool_decide as Hthere; eexists;
    (split; [reflexivity|]); simpl; (split; [|reflexivity]).
  - destruct Hthere as [?|[old ->]]; [contradiction|]. reflexivity.
  - rewrite lookup_insert_eq.
    assert (audio_files w !! (sha +:+ "." +:+ ext) = None) as ->
      by (apply eq_None_not_Some; tauto).
    reflexivity.
  - destruct Hthere as [?|[old ->]]; [contradiction|]. reflexivity.
  - rewrite lookup_insert_eq.
    assert (blob_files w !! (sha +:+ "." +:+ ext) = None) as ->
      by (apply eq_None_not_Some; tauto).
    reflexivity.
Qed.

(** Every extension [_pick_ext] returns is one of three. *)
Lemma _pick_ext_cases (upload : UploadFile) :
  _pick_ext upload = "ogg" \/ _pick_ext upload = "webm" \/ _pick_ext upload = "m4a".
Proof.
  unfold _pick_ext. generalize (declared_type (upload_content_type upload)).
  intros ct. unfold CT_TO_EXT. cbn [table_get].
  repeat match goal with
         | |- context [if ?b then _ else _] => destruct b
         end; auto.
Qed.

Lemma _pick_ext_has_plain_chars (upload : UploadFile) :
  str_forall plain_char (_pick_ext upload) = true.
Proof. destruct (_pick_ext_cases upload) as [-> | [-> | ->]]; reflexivity. Qed.

(** X10.  The extension picked for a voice note is always one that
    [EXT_TO_CT] knows, so a stored voice note is never served under the
    fallback type for want of an entry; and the type it is served under is
    an audio type. *)
Theorem _pick_ext_has_media_type (upload : UploadFile) :
  exists mt,
    table_get (_pick_ext upload) EXT_TO_CT = Some mt
    /\ str_startswith mt "audio/" = true
    /\ str_forall plain_char (_pick_ext upload) = true.
Proof.
  destruct (_pick_ext_cases upload) as [-> | [-> | ->]]; eexists;
    (split; [reflexivity|split; reflexivity]).
Qed.

End Files.

Section RoundTrip.
Context {P : Platform}.

(** X11.  A voice note that was uploaded can be fetched.  On storage that
    takes three commits, with a body that is not empty, a fingerprint other
    than the empty string, a digest in hexadecimal, and [Path.suffix] reading
    the extension back from the key, [upload_voice] answers
    with the id of the new message and the key of the stored file; the
    message is the last of the table, of type ["voice"], and refers to the
    key; the file holds the bytes (or what a file of that key held before);
    and [get_audio], given the key of the answer, serves that file under the
    audio type of its extension. *)
Theorem upload_voice_then_get_audio (request : Request) (file : UploadFile)
    (room : string) (fingerprint label : option string) (w : World) :
  let key := sha256_hexdigest (upload_body file) +:+ "." +:+ _pick_ext file in
  upload_body file <> [] ->
  commits_succeed 3 w = true ->
  fingerprint <> Some "" ->
  str_forall is_hex_digit (sha256_hexdigest (upload_body file)) = true ->
  path_suffix key = "." +:+ _pick_ext file ->
  exists msg mt w1 w2,
    await (upload_voice request file room fingerprint label) w
    = (Returned (JObj [("ok", JBool true); ("id", JInt (Message.id msg));
                       ("object_key", JStr key)]), w1)
    /\ messages (db w1) = messages (db w) ++ [msg]
    /\ Message.content_type msg = "voice"
    /\ Message.file_ref msg = Some key
    /\ audio_files w1 !! key
       = Some (default (upload_body file) (audio_files w !! key))
    /\ table_get (_pick_ext file) EXT_TO_CT = Some mt
    /\ get_audio key w1 = (Returned (mkFileResponse AUDIO_DIR key mt key), w2).
Proof.
  intros key. unfold key. clear key. intros Hbody Hok Hfp Hhex Hsuffix.
  unfold upload_voice, await, _sha256_bytes.
  remember (upload_body file) as body eqn:Hraw in *.
  destruct body as [|b raw]; [congruence|]. clear Hbody.
  destruct (object_key_accepted (sha256_hexdigest (b :: raw)) (_pick_ext file))
    as [Hstrip Hgood];
    [eapply str_forall_impl; [apply is_hex_digit_plain|exact Hhex]
    |apply _pick_ext_has_plain_chars|].
  destruct (put_run AUDIO_DIR (b :: raw) (sha256_hexdigest (b :: raw))
              (_pick_ext file) w (sha256_hexdigest_nonempty _))
    as (w0 & Hput & Hfile & Hdb).
  cbn [files_of] in Hfile.
  pose proof (object_key_not_dot _ (_pick_ext file)
                (sha256_hexdigest_nonempty (b :: raw))) as Hnotdot.
  remember (sha256_hexdigest (b :: raw) +:+ "." +:+ _pick_ext file) as key
    eqn:Hkey in *.
  assert (Hok0 : commits_succeed 3 w0 = true)
    by (unfold commits_succeed; rewrite Hdb; exact Hok).
  destruct (resolve_and_append_succeeds room fingerprint label
              (resolve_ip request) (header_user_agent request)
              "voice" None (Some key)
              (resolve_ip request) (header_user_agent request)
              (fun room_row dev msg =>
                 JObj [("type", JStr "msg");
                       ("room", JStr (Room.name room_row));
                       ("device", JObj [("id", JInt (Device.id dev));
                                        ("label", opt_str (Device.label dev));
                                        ("ip", opt_str (resolve_ip request))]);
                       ("content_type", JStr "voice");
                       ("content", JNull);
                       ("file_ref", JStr key);
                       ("ts", JStr (isoformat (Message.created_at msg)));
                       ("id", JInt (Message.id msg))])
              (fun msg =>
                 JObj [("ok", JBool true); ("id", JInt (Message.id msg));
                       ("object_key", JStr key)])
              w0 Hok0 Hfp)
    as (room_row & dev & t & w1 & Hrun & Hmsgs & _ & _ & _ & Ha & _).
  cbv zeta in Hrun, Hmsgs.
  assert (exists mt, table_get (_pick_ext file) EXT_TO_CT = Some mt)
    as [mt Hmt]
    by (destruct (_pick_ext_cases file) as [-> | [-> | ->]]; eexists; reflexivity).
  eexists _, mt, w1, _.
  split; [unfold bind at 1; rewrite Hput; exact Hrun|].
  split; [rewrite Hmsgs, Hdb; reflexivity|].
  split; [reflexivity|]. split; [reflexivity|].
  split; [rewrite Ha; exact Hfile|].
  split; [exact Hmt|].
  unfold get_audio, _safe_key, path_exists, get_files, record, bind, ret, raise,
    path_name.
  rewrite Hstrip, Hgood. simpl. rewrite Ha, Hfile.
  rewrite bool_decide_eq_true_2 by (right; eauto).
  rewrite (proj2 (String.eqb_neq _ _) Hnotdot). simpl.
  rewrite Hsuffix.
  destruct (_pick_ext_cases file) as [He | [He | He]];
    rewrite He in Hmt |- *; injection Hmt as <-; reflexivity.
Qed.


End RoundTrip.

Lemma upload_voice_then_get_audio_witness :
  exists msg mt w1 w2,
    await (upload_voice (P := sample_platform)
             (mkRequest (Some "10.0.0.7") (Some "Firefox")) sample_voice
             "alpha" (Some "fp-A") None) fresh_world
    = (Returned (JObj [("ok", JBool true); ("id", JInt (Message.id msg));
                       ("object_key", JStr "3.ogg")]), w1)
    /\ messages (db w1) = messages (db fresh_world) ++ [msg]
    /\ Message.content_type msg = "voice"
    /\ Message.file_ref msg = Some "3.ogg"
    /\ audio_files w1 !! "3.ogg"
       = Some (default (upload_body sample_voice)
                       (audio_files fresh_world !! "3.ogg"))
    /\ table_get (_pick_ext sample_voice) EXT_TO_CT = Some mt
    /\ get_audio (P := sample_platform) "3.ogg" w1
       = (Returned (mkFileResponse AUDIO_DIR "3.ogg" mt "3.ogg"), w2).
Proof.
  apply (upload_voice_then_get_audio (P := sample_platform)
           (mkRequest (Some "10.0.0.7") (Some "Firefox")) sample_voice
           "alpha" (Some "fp-A") None fresh_world);
    first [discriminate | reflexivity].
Defined.


(** ** From a post to the history *)

(** A row that is not older than the others comes first in the order of the
    query, whatever the order among the others. *)
Lemma order_by_newest_first (row : Message.t * option Device.t)
    (rows : list (Message.t * option Device.t)) :
  Forall (fun r => Message.created_at r.1 <= Message.created_at row.1) rows ->
  exists rest, order_by_created_at_desc (rows ++ [row]) = row :: rest.
Proof.
  induction rows as [|r rows IH]; intros Hall.
  - eexists. reflexivity.
  - apply Forall_cons in Hall as [Hr Hall].
    destruct (IH Hall) as [rest Hrest].
    unfold order_by_created_at_desc in *. simpl. rewrite Hrest. simpl.
    rewrite (proj2 (Z.ltb_ge _ _)) by exact Hr.
    eexists. reflexivity.
Qed.

Lemma sql_limit_head {A} (limit : Z) (x : A) (l : list A) :
  limit <> 0 -> exists rest, sql_limit limit (x :: l) = x :: rest.
Proof.
  intros Hlimit. unfold sql_limit.
  destruct (Z.ltb_spec limit 0); [eexists; reflexivity|].
  destruct (Z.to_nat limit) as [|k] eqn:Hk; [lia|].
  eexists. reflexivity.
Qed.

Section PostThenHistory.
Context {P : Platform}.

(** X13.  A message that was posted closes the history of its room.  On
    storage that takes three commits, with a fingerprint other than the empty
    string, [post_message] answers with the id of a new message, the last of
    the table; and when every message stored before is older than what the
    clock reads from then on, [room_history] of the room, with a limit other
    than 0 that SQLite can take (a signed 64-bit number), ends with that
    message: its id, the name of the room, the address
    of the request, and its type, content, file reference and time. *)
Theorem room_history_after_post_message (payload : MessageIn.t)
    (request : Request) (limit : Z) (w : World) :
  commits_succeed 3 w = true ->
  MessageIn.fingerprint payload <> Some "" ->
  limit <> 0 ->
  - 2 ^ 63 <= limit < 2 ^ 63 ->
  (forall m n, m ∈ messages (db w) -> (ticks w <= n)%nat ->
               Message.created_at m < utc w n) ->
  exists msg device_label w1 out w2,
    post_message payload request w
    = (Returned (JObj [("ok", JBool true); ("id", JInt (Message.id msg))]), w1)
    /\ messages (db w1) = messages (db w) ++ [msg]
    /\ room_history (MessageIn.room payload) limit w1 = (Returned out, w2)
    /\ last out
       = Some (MessageOut.mk (Message.id msg) (MessageIn.room payload)
                 device_label (client_host request)
                 (MessageIn.content_type payload) (MessageIn.content payload)
                 (MessageIn.file_ref payload) (Message.created_at msg)).
Proof.
  intros Hok Hfp Hlimit Hrange Hclock.
  destruct (resolve_and_append_succeeds (MessageIn.room payload)
              (MessageIn.fingerprint payload) (MessageIn.label payload)
              (resolve_ip request) (header_user_agent request)
              (MessageIn.content_type payload) (MessageIn.content payload)
              (MessageIn.file_ref payload)
              (resolve_ip request) (header_user_agent request)
              (fun room dev msg => msg_payload room dev (resolve_ip request) msg)
              (fun msg => JObj [("ok", JBool true); ("id", JInt (Message.id msg))])
              w Hok Hfp)
    as (room_row & dev & n & w1 & Hrun & Hmsgs & _ & Hname & _ & _ & _
        & Hfind & Hn).
  cbv zeta in Hrun, Hmsgs.
  set (msg := Message.mk (next_id (map Message.id (messages (db w))))
                (Room.id room_row) (Some (Device.id dev))
                (MessageIn.content_type payload) (MessageIn.content payload)
                (MessageIn.file_ref payload) (resolve_ip request)
                (header_user_agent request) (utc w n)) in *.
  set (rows := filter (fun row : Message.t * option Device.t =>
                         Message.room_id row.1 = Room.id room_row)
                      (map (join_device (devices (db w1))) (messages (db w)))).
  destruct (order_by_newest_first (join_device (devices (db w1)) msg) rows)
    as [rest Hrest].
  { apply Forall_forall. intros r Hr.
    apply list_elem_of_filter in Hr as [_ Hr].
    apply list_elem_of_fmap in Hr as (m & -> & Hm).
    specialize (Hclock m n Hm Hn). simpl. lia. }
  destruct (sql_limit_head limit (join_device (devices (db w1)) msg) rest Hlimit)
    as [rest' Hlim].
  exists msg. eexists. exists w1. do 2 eexists.
  split; [exact Hrun|]. split; [exact Hmsgs|].
  unfold room_history, select_room_by_name, select_history, bind, record,
    read_db, ret.
  rewrite (proj2 (sqlite_integer_spec limit) Hrange). simpl.
  rewrite Hfind. simpl. rewrite Hmsgs, map_app, filter_app.
  change (map (join_device (devices (db w1))) [msg])
    with [join_device (devices (db w1)) msg].
  rewrite (filter_cons_True _ (join_device (devices (db w1)) msg))
    by reflexivity.
  rewrite filter_nil. fold rows. rewrite Hrest, Hlim.
  split; [reflexivity|].
  simpl rev. rewrite map_app. simpl map at 2.
  rewrite last_snoc, Hname. reflexivity.
Qed.

End PostThenHistory.

Lemma room_history_after_post_message_witness :
  exists msg device_label w1 out w2,
    post_message (P := sample_platform)
      (MessageIn.mk "alpha" "text" (Some "hello") None (Some "fp-A")
                    (Some "Phone"))
      (mkRequest (Some "10.0.0.7") (Some "Firefox")) later_world
    = (Returned (JObj [("ok", JBool true); ("id", JInt (Message.id msg))]), w1)
    /\ messages (db w1) = messages (db later_world) ++ [msg]
    /\ room_history "alpha" 50 w1 = (Returned out, w2)
    /\ last out
       = Some (MessageOut.mk (Message.id msg) "alpha" device_label
                 (Some "10.0.0.7") "text" (Some "hello") None
                 (Message.created_at msg)).
Proof.
  apply (room_history_after_post_message (P := sample_platform)
           (MessageIn.mk "alpha" "text" (Some "hello") None (Some "fp-A")
                         (Some "Phone"))
           (mkRequest (Some "10.0.0.7") (Some "Firefox")) 50 later_world).
  - reflexivity.
  - discriminate.
  - lia.
  - lia.
  - intros m n Hm Hn.
    change (m ∈ [Message.mk 1 1 None "text" (Some "hi") None None None 5]) in Hm.
    apply list_elem_of_singleton in Hm as ->.
    change (5 < Z.of_nat n). change (10 <= n)%nat in Hn. lia.
Defined.

(** ** Devices: the answer of [device_upsert], and the empty fingerprint *)

(** X14.  [POST /device/upsert] touches the table of devices only; it
    either raises, leaving that table as it was, or answers with the id, the
    label and the last address of a device that is in the table afterwards. *)
Theorem device_upsert_answers_with_stored_row (payload : DeviceUpsert.t)
    (request : Request) (w : World) :
  let run := device_upsert payload request w in
  rooms (db run.2) = rooms (db w)
  /\ messages (db run.2) = messages (db w)
  /\ ((exists e, run.1 = Raised e /\ devices (db run.2) = devices (db w))
      \/ (exists dev,
            run.1 = Returned (JObj [("ok", JBool true);
                                    ("device_id", JInt (Device.id dev));
                                    ("label", opt_str (Device.label dev));
                                    ("ip_last", opt_str (Device.ip_last dev))])
            /\ dev ∈ devices (db run.2)
            /\ (length (devices (db w)) <= length (devices (db run.2))
                <= S (length (devices (db w))))%nat)).
Proof.
  cbv zeta. unfold device_upsert, bind.
  destruct (upsert_device_outcomes (DeviceUpsert.fingerprint payload)
              (DeviceUpsert.label payload) (resolve_ip request)
              (header_user_agent request) w) as (Hrooms & Hmsgs & Hcase).
  destruct (upsert_device _ _ _ _ w) as [[dev|e] w1] eqn:Hrun; simpl in *;
    (split; [exact Hrooms|]); (split; [exact Hmsgs|]).
  - right. exists dev. split; [reflexivity|].
    split; [apply (upsert_device_returns_row _ _ _ _ _ _ _ Hrun)|].
    destruct Hcase as [(e & [=] & _)|[(d0 & dev' & _ & _ & _ & _ & ->)
                                     |(dev' & _ & _ & _ & _ & _ & _ & ->)]].
    + unfold rewrite_row. rewrite length_map. lia.
    + rewrite length_app. simpl. lia.
  - left. exists e. split; [reflexivity|].
    destruct Hcase as [(e' & _ & Hdevs)|[(d0 & dev' & [=] & _)
                                       |(dev' & [=] & _)]].
    exact Hdevs.
Qed.

(** X15.  The empty string is a fingerprint like any other to the table,
    but not to the lookup.  A call with fingerprint [""] and no usable label
    looks nothing up and adds a row with that fingerprint; the same call
    again looks nothing up either, and its insert fails on the UNIQUE
    constraint: it raises [IntegrityError] and the table stays as it was. *)
Theorem upsert_device_empty_fingerprint_collides (label ip ua : option string)
    (w : World) :
  truthy label = false ->
  commits_succeed 2 w = true ->
  known_fingerprint "" (devices (db w)) = false ->
  exists dev w1 w2,
    upsert_device (Some "") label ip ua w = (Returned dev, w1)
    /\ Device.device_fingerprint dev = Some ""
    /\ devices (db w1) = devices (db w) ++ [dev]
    /\ upsert_device (Some "") label ip ua w1 = (Raised IntegrityError, w2)
    /\ devices (db w2) = devices (db w1).
Proof.
  destruct w as [[dv rm ms fl] u t rc g o af bf lg].
  unfold commits_succeed, known_fingerprint. cbn [db faults devices].
  intros Hlabel Hok Hnew.
  assert (Hthen : forall dev,
            Device.device_fingerprint dev = Some "" ->
            existsb (fun d => bool_decide (Device.device_fingerprint d = Some ""))
                    (dv ++ [dev]) = true).
  { intros dev Hfp. rewrite existsb_app. simpl.
    rewrite (bool_decide_eq_true_2 _ Hfp). apply orb_true_r. }
  unfold upsert_device.
  destruct label as [[|c l]|]; try discriminate; mstep;
    (destruct fl as [|[|] [|[|] fl]]; try discriminate); mstep;
    rewrite Hnew; do 3 eexists; (split; [reflexivity|]);
    (split; [reflexivity|]); (split; [reflexivity|]);
    mstep; rewrite Hthen by reflexivity; split; reflexivity.
Qed.

Lemma upsert_device_empty_fingerprint_collides_witness :
  exists dev w1 w2,
    upsert_device (Some "") None None (Some "Firefox") phone_world
    = (Returned dev, w1)
    /\ Device.device_fingerprint dev = Some ""
    /\ devices (db w1) = devices (db phone_world) ++ [dev]
    /\ upsert_device (Some "") None None (Some "Firefox") w1
       = (Raised IntegrityError, w2)
    /\ devices (db w2) = devices (db w1).
Proof.
  apply (upsert_device_empty_fingerprint_collides None None (Some "Firefox")
           phone_world); reflexivity.
Defined.

(** ** A session that stores nothing *)

Section Quiet.
Context {P : Platform}.

Lemma ws_frame_ignored (room raw : string) :
  ignored_frame raw = true -> ws_frame room raw = ret tt.
Proof.
  unfold ignored_frame, ws_frame.
  destruct (json_loads raw) as [[| | | | |data]|]; try discriminate;
    try reflexivity.
  destruct (dict_get "type" data) as [| | |s| |]; try reflexivity.
  repeat (destruct s as [|[[] [] [] [] [] [] [] []] s];
          try reflexivity; try discriminate).
Qed.

(** Over frames it passes over, the loop does nothing until the peer
    leaves. *)
Lemma ws_loop_ignored (ws : WebSocket) (room : string) (frames : list string)
    (w : World) :
  Forall (fun raw => ignored_frame raw = true) frames ->
  ws_loop ws room frames w
  = (Raised WebSocketDisconnect, set_gone (gone w ∪ {[ws]}) w).
Proof.
  induction 1 as [|raw rest Hraw _ IH]; [reflexivity|].
  simpl. rewrite (ws_frame_ignored room raw Hraw). exact IH.
Qed.

(** X16.  A session in which the peer sends nothing that counts (text that
    is no JSON, objects of another type) and then leaves: [ws_room] returns
    normally, the disconnect being caught; tables and files are as before;
    the connection was sent one frame, the presence event of its arrival with
    the size of the room counting itself, and none on leaving, the peer being
    gone by then; and it is out of the set of the room. *)
Theorem ws_room_quiet_session (ws : WebSocket) (room : string)
    (frames : list string) (w : World) :
  ws ∉ gone w ->
  Forall (fun raw => ignored_frame raw = true) frames ->
  exists w',
    await (ws_room ws room frames) w = (Returned tt, w')
    /\ same_store w w'
    /\ log w' = log w
    /\ outbox w' !! ws
       = Some (default [] (outbox w !! ws)
               ++ [json_dumps
                     (presence room
                        (size (default ∅ (ROOM_CLIENTS w !! room) ∪ {[ws]})))])
    /\ (forall other, other <> ws -> outbox w' !! other = outbox w !! other)
    /\ ROOM_CLIENTS w' !! room
       = Some ((default ∅ (ROOM_CLIENTS w !! room) ∪ {[ws]}) ∖ {[ws]})
    /\ gone w' = gone w ∪ {[ws]}.
Proof.
  intros Hgone Hquiet.
  unfold ws_room, ws_try, accept, clients_add, try_finally, try_except,
    get_clients, send_text, await, transmit, bind.
  rewrite bool_decide_eq_false_2 by assumption.
  cbn [gone set_ROOM_CLIENTS ROOM_CLIENTS outbox].
  rewrite bool_decide_eq_false_2 by assumption.
  rewrite (ws_loop_ignored ws room frames _ Hquiet).
  unfold ret. rewrite ws_finally_run. cbv zeta.
  rewrite bool_decide_eq_true_2 by (simpl; set_solver).
  unfold clients_discard. simpl. rewrite !lookup_insert_eq. simpl.
  eexists. split; [reflexivity|]. simpl.
  rewrite !lookup_insert_eq.
  repeat split.
  intros other Hne. rewrite lookup_insert_ne by congruence. reflexivity.
Qed.

End Quiet.

Lemma ws_room_quiet_session_witness :
  exists w',
    await (ws_room (P := sample_platform) 1%nat "alpha" ["ping"; "{"])
          lobby_world
    = (Returned tt, w')
    /\ same_store lobby_world w'
    /\ log w' = log lobby_world
    /\ outbox w' !! 1%nat
       = Some (default [] (outbox lobby_world !! 1%nat)
               ++ [json_dumps (Platform := sample_platform)
                     (presence "alpha"
                        (size (default ∅ (ROOM_CLIENTS lobby_world !! "alpha")
                               ∪ {[1%nat]})))])
    /\ (forall other, other <> 1%nat ->
                      outbox w' !! other = outbox lobby_world !! other)
    /\ ROOM_CLIENTS w' !! "alpha"
       = Some ((default ∅ (ROOM_CLIENTS lobby_world !! "alpha") ∪ {[1%nat]})
               ∖ {[1%nat]})
    /\ gone w' = gone lobby_world ∪ {[1%nat]}.
Proof.
  apply (ws_room_quiet_session (P := sample_platform) 1%nat "alpha"
           ["ping"; "{"] lobby_world).
  - apply not_elem_of_empty.
  - repeat constructor.
Defined.

(** ** Reading changes nothing *)

Section Readers.
Context {P : Platform}.

(** X17.  The three reading entry points change nothing: whatever they are
    asked and whatever they answer, the world they leave is the one they
    found, with at most more entries in the log. *)
Theorem readers_change_nothing :
  (forall room_name limit, steps only_logs (room_history room_name limit))
  /\ (forall object_key, steps only_logs (get_audio object_key))
  /\ (forall object_key, steps only_logs (get_blob object_key)).
Proof.
  assert (Hsame : forall w, only_logs w w).
  { intros w. exists []. destruct w. unfold set_log. simpl.
    rewrite app_nil_r. reflexivity. }
  assert (Hlog : forall w evs, only_logs w (set_log (log w ++ evs) w))
    by (intros w evs; exists evs; reflexivity).
  assert (Htwo : forall w e1 e2,
            only_logs w (set_log (log (set_log (log w ++ e1) w) ++ e2)
                                 (set_log (log w ++ e1) w))).
  { intros w e1 e2. exists (e1 ++ e2). destruct w. unfold set_log. simpl.
    rewrite app_assoc. reflexivity. }
  repeat split.
  - intros room_name limit w.
    unfold room_history, select_room_by_name, select_history, bind, record,
      read_db, ret, raise. simpl.
    destruct (find _ (rooms (db w))); simpl; [|apply Hlog].
    destruct (sqlite_integer limit); simpl; [apply Htwo|apply Hlog].
  - intros object_key w.
    unfold get_audio, _safe_key, path_exists, get_files, record, bind, ret, raise.
    destruct (bad_key _); [apply Hsame|]. simpl.
    destruct (bool_decide _); apply Hlog.
  - intros object_key w.
    unfold get_blob, path_exists, get_files, record, bind, ret, raise.
    destruct (bad_key _); [apply Hsame|]. simpl.
    destruct (bool_decide _); apply Hlog.
Qed.

End Readers.

(** ** Witnesses of the streaming properties *)

Lemma ws_room_sends_to_nobody_else_witness :
  (1%nat ∉ default ∅ (ROOM_CLIENTS
                        (await (ws_room (P := sample_platform) 1%nat "alpha"
                                  [frame_hi]) lobby_world).2 !! "alpha"))
  /\ (forall other, other <> 1%nat ->
        outbox (await (ws_room (P := sample_platform) 1%nat "alpha" [frame_hi])
                      lobby_world).2 !! other
        = outbox lobby_world !! other).
Proof.
  apply (ws_room_sends_to_nobody_else (P := sample_platform) 1%nat "alpha"
           [frame_hi] lobby_world).
  apply not_elem_of_empty.
Defined.

(** ** An upload whose storage fails *)

Section Orphans.
Context {P : Platform}.




(** With storage that rejects the first commit the voice upload raises, no
    message is stored, and the file is there. *)
Example upload_voice_orphan_file :
  let run :=
    await (upload_voice (P := sample_platform)
             (mkRequest (Some "10.0.0.7") (Some "Firefox")) sample_voice
             "alpha" (Some "fp-A") None)
          (with_faults [true] fresh_world) in
  run.1 = Raised OperationalError
  /\ messages (db run.2) = []
  /\ audio_files run.2 !! "3.ogg" = Some (upload_body sample_voice).
Proof. vm_compute. repeat split. Qed.

End Orphans.

(** ** The content store and the declared type *)




(** ** One frame, one message *)

Section OneFrame.
Context {P : Platform}.

(** [ws_message] on storage that takes three commits. *)
Lemma ws_message_succeeds (room : string) (data : list (string * json))
    (w : World) :
  commits_succeed 3 w = true ->
  json_str (dict_get "fingerprint" data) <> Some "" ->
  (ws_message room data w).1 = Returned tt.
Proof.
  intros Hok Hfp. unfold ws_message, bind.
  destruct (upsert_device_takes_commit 2 _ (json_str (dict_get "label" data))
              None None w Hok Hfp) as (dev & w1 & -> & Hok1 & _).
  destruct (ensure_room_takes_commit 1 room w1 Hok1)
    as (room_row & w2 & -> & Hok2 & _).
  match goal with |- context [add_commit_message ?a ?b ?c ?d ?e ?f ?g w2] =>
    destruct (add_commit_message_takes_commit 0 a b c d e f g w2 Hok2)
      as (msg & w3 & -> & _)
  end.
  rewrite broadcast_room_inert. reflexivity.
Qed.

(** X8.  What the handling of one frame of the stream stores.  A frame
    that is no JSON, or an object of another type, is passed over and changes
    nothing; a frame that is JSON but no object raises [AttributeError] and
    changes nothing.  A frame of type ["msg"] whose members are strings or
    absent either raises, and then the messages are as before, or is answered
    by exactly one new message, the last row of the table: it has a fresh id,
    the content and file reference of the frame, the type of the frame or
    ["text"] when that is absent or empty, neither address nor user agent, and
    it points to a room of the connection's name and to a device that are
    both in the tables.  On storage that takes three commits, with a
    fingerprint other than the empty string, it does not raise. *)
Theorem ws_frame_stores_one_message (room raw : string) (w : World) :
  let run := ws_frame room raw w in
  (ignored_frame raw = true -> run = (Returned tt, w))
  /\ (forall v, json_loads raw = Some v -> (forall data, v <> JObj data) ->
                run = (Raised AttributeError, w))
  /\ (forall data,
        json_loads raw = Some (JObj data) ->
        dict_get "type" data = JStr "msg" ->
        text_members data = true ->
        ((exists e, run.1 = Raised e /\ messages (db run.2) = messages (db w))
         \/ (exists room_row dev created_at,
               let msg :=
                 Message.mk (next_id (map Message.id (messages (db w))))
                   (Room.id room_row) (Some (Device.id dev))
                   match json_str (dict_get "content_type" data) with
                   | Some (String _ _ as ct) => ct
                   | _ => "text"
                   end
                   (json_str (dict_get "content" data))
                   (json_str (dict_get "file_ref" data))
                   None None created_at in
               run.1 = Returned tt
               /\ messages (db run.2) = messages (db w) ++ [msg]
               /\ room_row ∈ rooms (db run.2)
               /\ Room.name room_row = room
               /\ dev ∈ devices (db run.2)))
        /\ (commits_succeed 3 w = true ->
            json_str (dict_get "fingerprint" data) <> Some "" ->
            run.1 = Returned tt)).
Proof.
  cbv zeta. split; [|split].
  - intros Hignored. rewrite (ws_frame_ignored room raw Hignored). reflexivity.
  - intros v Hload Hshape. unfold ws_frame. rewrite Hload.
    destruct v; try reflexivity. exfalso. eapply Hshape. reflexivity.
  - intros data Hload Htype _.
    assert (Hframe : ws_frame room raw = ws_message room data)
      by (unfold ws_frame; rewrite Hload, Htype; reflexivity).
    rewrite Hframe. split; [|apply ws_message_succeeds].
    unfold ws_message, bind.
    destruct (upsert_device _ _ None None w) as [[dev|e] w1] eqn:Hdev.
    2:{ left. exists e. split; [reflexivity|].
        destruct (upsert_device_outcomes (json_str (dict_get "fingerprint" data))
                    (json_str (dict_get "label" data)) None None w)
          as (_ & Hm & _).
        rewrite Hdev in Hm. exact Hm. }
    apply upsert_device_returns_row in Hdev as (Hdin & Hrooms1 & Hmsgs1).
    destruct (ensure_room room w1) as [[room_row|e] w2] eqn:Hroom.
    2:{ left. exists e. split; [reflexivity|].
        destruct (ensure_room_outcomes room w1) as (_ & Hm & _).
        rewrite Hroom in Hm. simpl in *. congruence. }
    apply ensure_room_returns_row in Hroom as (Hrin & Hname & Hdevs2 & Hmsgs2).
    match goal with |- context [add_commit_message ?a ?b ?c ?d ?e ?f ?g w2] =>
      destruct (add_commit_message_outcomes a b c d e f g w2)
        as (Hdevs3 & Hrooms3 & Hcase);
      destruct (add_commit_message a b c d e f g w2) as [r w3]
    end.
    simpl in Hdevs3, Hrooms3, Hcase.
    destruct Hcase as [[-> Hmsgs3]|[-> Hmsgs3]].
    + left. exists OperationalError. split; [reflexivity|]. simpl. congruence.
    + right. rewrite broadcast_room_inert. simpl.
      exists room_row, dev, (utc w2 (ticks w2)).
      rewrite Hmsgs3, Hmsgs2, Hmsgs1, Hrooms3, Hdevs3, Hdevs2.
      repeat split; auto.
Qed.

End OneFrame.

Lemma ws_frame_stores_one_message_witness :
  (ws_frame (P := sample_platform) "alpha" frame_hi fresh_world).1 = Returned tt
  /\ ((exists e,
         (ws_frame (P := sample_platform) "alpha" frame_hi fresh_world).1
         = Raised e)
      \/ exists msg,
           messages (db (ws_frame (P := sample_platform) "alpha" frame_hi
                                  fresh_world).2)
           = [msg]
           /\ Message.content msg = Some "hi"
           /\ Message.content_type msg = "text").
Proof.
  destruct (ws_frame_stores_one_message (P := sample_platform) "alpha" frame_hi
              fresh_world) as (_ & _ & Hmsg).
  destruct (Hmsg [("type", JStr "msg"); ("content", JStr "hi")]
              eq_refl eq_refl eq_refl) as [Hcases Hruns].
  split; [apply Hruns; [reflexivity|discriminate]|].
  destruct Hcases as [(e & He & _)|(room_row & dev & t & _ & Hmsgs & _)].
  - left. exists e. exact He.
  - right. eexists. split; [exact Hmsgs|]. split; reflexivity.
Defined.

(** ** The order of an upload *)




Section UploadOrder.
Context {P : Platform}.




End UploadOrder.

